(** * Blog content backend: slugs, read time, publication, comments, search

    A shallow embedding of the Mongoose models and services of the
    repository (models/Post.ts, models/Comment.ts, models/User.ts,
    services/PostService.ts, UserService.ts, BlogService.ts,
    SearchService.ts) together with the properties the specification
    states about them.

    Conventions.
    - A JavaScript string is a sequence of code units; the embedding uses
      [string], that is the code units below 256 (ASCII and Latin-1).
    - A [Date] is its millisecond time stamp, an integer.
    - A collection is the list of its documents in natural (insertion)
      order; [find] filters it, [sort] is stable, [limit] takes a prefix.
    - A rejected promise is an [Err] result. *)

From Stdlib Require Import Bool Arith ZArith NArith List Ascii String Lia.
From Stdlib Require Import Sorting.Sorted Sorting.Permutation.
Import ListNotations.

Local Open Scope string_scope.
Local Open Scope list_scope.

(* ================================================================== *)
(** ** JavaScript string primitives used by the models *)
(* ================================================================== *)

Module JsString.

Definition code (c : ascii) : N := N_of_ascii c.

Definition between (lo hi : N) (c : ascii) : bool :=
  (N.leb lo (code c) && N.leb (code c) hi)%bool.

(** [a-z] *)
Definition isLower (c : ascii) : bool := between 97 122 c.
(** [0-9] *)
Definition isDigit (c : ascii) : bool := between 48 57 c.
(** [A-Z] *)
Definition isUpper (c : ascii) : bool := between 65 90 c.
Definition isHyphen (c : ascii) : bool := N.eqb (code c) 45.
Definition isBlank (c : ascii) : bool := N.eqb (code c) 32.

(** The class [\s] (and the characters [trim] strips) below 256:
    TAB, LF, VT, FF, CR, SPACE and NO-BREAK SPACE. *)
Definition isSpace (c : ascii) : bool :=
  (between 9 13 c || N.eqb (code c) 32 || N.eqb (code c) 160)%bool.

(** [String.prototype.toLowerCase] on one code unit below 256: A-Z and
    the Latin-1 capitals U+00C0..U+00DE (U+00D7, the multiplication
    sign, apart) move up by 32. *)
Definition toLowerChar (c : ascii) : ascii :=
  if (isUpper c || (between 192 222 c && negb (N.eqb (code c) 215)))%bool
  then ascii_of_N (code c + 32)
  else c.

Fixpoint toLowerCase (s : string) : string :=
  match s with
  | EmptyString => EmptyString
  | String c t => String (toLowerChar c) (toLowerCase t)
  end.

(** [s.replace(/[cls]/g, '')]: every match is one character, each is
    dropped. *)
Fixpoint removeAll (cls : ascii -> bool) (s : string) : string :=
  match s with
  | EmptyString => EmptyString
  | String c t => if cls c then removeAll cls t else String c (removeAll cls t)
  end.

(** [s.replace(/[cls]+/g, rep)]: the scan goes left to right; at the
    first character of a run the greedy match takes the whole run and
    [rep] is written once; [inRun] says the scan is inside a run whose
    replacement is already written. *)
Fixpoint replaceRunsFrom (cls : ascii -> bool) (rep : string)
         (inRun : bool) (s : string) : string :=
  match s with
  | EmptyString => EmptyString
  | String c t =>
      if cls c then
        if inRun then replaceRunsFrom cls rep true t
        else rep ++ replaceRunsFrom cls rep true t
      else String c (replaceRunsFrom cls rep false t)
  end.

Definition replaceRuns (cls : ascii -> bool) (rep s : string) : string :=
  replaceRunsFrom cls rep false s.

Fixpoint trimStart (s : string) : string :=
  match s with
  | EmptyString => EmptyString
  | String c t => if isSpace c then trimStart t else s
  end.

Fixpoint trimEnd (s : string) : string :=
  match s with
  | EmptyString => EmptyString
  | String c t =>
      match trimEnd t with
      | EmptyString => if isSpace c then EmptyString else String c EmptyString
      | t' => String c t'
      end
  end.

(** [String.prototype.trim] *)
Definition trim (s : string) : string := trimEnd (trimStart s).

(** [s.split(/[cls]+/)]: the pieces between the runs, an empty piece
    before a leading run and after a trailing one; the empty string
    gives one empty piece. *)
Fixpoint splitRunsFrom (cls : ascii -> bool) (inRun : bool) (s : string)
  : list string :=
  match s with
  | EmptyString => [EmptyString]
  | String c t =>
      if cls c then
        if inRun then splitRunsFrom cls true t
        else EmptyString :: splitRunsFrom cls true t
      else
        match splitRunsFrom cls false t with
        | p :: ps => String c p :: ps
        | [] => [String c EmptyString]
        end
  end.

Definition splitRuns (cls : ascii -> bool) (s : string) : list string :=
  splitRunsFrom cls false s.

(** Truthiness of a string: only the empty string is falsy. *)
Definition truthy (s : string) : bool :=
  match s with EmptyString => false | _ => true end.

(** Every character of [s] satisfies [p]. *)
Fixpoint allChars (p : ascii -> bool) (s : string) : bool :=
  match s with
  | EmptyString => true
  | String c t => (p c && allChars p t)%bool
  end.

Fixpoint repeatStr (s : string) (n : nat) : string :=
  match n with
  | O => EmptyString
  | S k => s ++ repeatStr s k
  end.

End JsString.

(* ================================================================== *)
(** ** models/Post.ts and services/BlogService.ts: slugs *)
(* ================================================================== *)

Module Slug.
Import JsString.

(** The class [[a-z0-9\s-]] of [PostSchema.methods.generateSlug]. *)
Definition keptByModel (c : ascii) : bool :=
  (isLower c || isDigit c || isSpace c || isHyphen c)%bool.

(** The class [[a-z0-9 -]] of [BlogService.generateSlugFromTitle]: of
    the white space only the space character is kept. *)
Definition keptByService (c : ascii) : bool :=
  (isLower c || isDigit c || isBlank c || isHyphen c)%bool.

(** [PostSchema.methods.generateSlug], applied to [this.title]. *)
Definition generateSlug (title : string) : string :=
  trim
    (replaceRuns isHyphen "-"
       (replaceRuns isSpace "-"
          (removeAll (fun c => negb (keptByModel c)) (toLowerCase title)))).

(** [BlogService.generateSlugFromTitle]. *)
Definition generateSlugFromTitle (title : string) : string :=
  trim
    (replaceRuns isHyphen "-"
       (replaceRuns isSpace "-"
          (removeAll (fun c => negb (keptByService c)) (toLowerCase title)))).

(** *** The reference definition, following the specification's words *)

(** The maximal runs of a string: each run is tagged with whether its
    characters are in the class. *)
Fixpoint runsOf (cls : ascii -> bool) (s : string) : list (bool * string) :=
  match s with
  | EmptyString => []
  | String c t =>
      match runsOf cls t with
      | (b, r) :: rest =>
          if Bool.eqb b (cls c) then (b, String c r) :: rest
          else (cls c, String c EmptyString) :: (b, r) :: rest
      | [] => [(cls c, String c EmptyString)]
      end
  end.

Fixpoint joinRuns (l : list (bool * string)) : string :=
  match l with
  | [] => EmptyString
  | (b, r) :: rest => (if b then "-" else r) ++ joinRuns rest
  end.

(** "collapse runs of ... to a single hyphen" *)
Definition collapseRuns_spec (cls : ascii -> bool) (s : string) : string :=
  joinRuns (runsOf cls s).

(** "remove every character not in [[a-z0-9\s-]]" *)
Fixpoint keepOnly_spec (keep : ascii -> bool) (s : string) : string :=
  match s with
  | EmptyString => EmptyString
  | String c t =>
      if keep c then String c (keepOnly_spec keep t) else keepOnly_spec keep t
  end.

Definition hyphenOrSpace (c : ascii) : bool := (isHyphen c || isSpace c)%bool.

Fixpoint stripStart (p : ascii -> bool) (s : string) : string :=
  match s with
  | EmptyString => EmptyString
  | String c t => if p c then stripStart p t else s
  end.

Fixpoint stripEnd (p : ascii -> bool) (s : string) : string :=
  match s with
  | EmptyString => EmptyString
  | String c t =>
      match stripEnd p t with
      | EmptyString => if p c then EmptyString else String c EmptyString
      | t' => String c t'
      end
  end.

(** "trim leading/trailing hyphens/whitespace" *)
Definition trimHyphensAndSpace_spec (s : string) : string :=
  stripEnd hyphenOrSpace (stripStart hyphenOrSpace s).

(** The four steps of the specification before the trimming. *)
Definition slugBody_spec (title : string) : string :=
  collapseRuns_spec isHyphen
    (collapseRuns_spec isSpace
       (keepOnly_spec keptByModel (toLowerCase title))).

(** The slugification algorithm as the specification words it. *)
Definition slugify_spec (title : string) : string :=
  trimHyphensAndSpace_spec (slugBody_spec title).

End Slug.


(* ================================================================== *)
(** ** models/Post.ts: read time *)
(* ================================================================== *)

Module ReadTime.
Import JsString.

Definition wordsPerMinute : Z := 200.

(** [Math.ceil(a / b)] for an integer [a] and a positive integer [b]. *)
Definition ceilDiv (a b : Z) : Z := (- ((- a) / b))%Z.

(** [x || 1] on a number: zero is falsy. *)
Definition orOne (x : Z) : Z := if (x =? 0)%Z then 1%Z else x.

(** [PostSchema.methods.calculateReadTime], applied to [this.content]. *)
Definition calculateReadTime (content : string) : Z :=
  let wordCount := Z.of_nat (List.length (splitRuns isSpace content)) in
  orOne (ceilDiv wordCount wordsPerMinute).

(** *** The reference definition, following the specification's words *)

(** "the number of whitespace-separated words": the maximal runs of
    characters that are not white space. *)
Definition wordCount_spec (content : string) : Z :=
  Z.of_nat
    (List.length
       (List.filter (fun r => negb (fst r)) (Slug.runsOf isSpace content))).

(** "readTime(content) = max(1, ceil(wordCount(content)/200))" *)
Definition readTime_spec (content : string) : Z :=
  Z.max 1 (ceilDiv (wordCount_spec content) 200).

End ReadTime.

(* ================================================================== *)
(** ** Results, identifiers and the collections *)
(* ================================================================== *)

(** What a service call throws. *)
Inductive Error : Type :=
| CastError (path value : string)       (* Mongoose: a malformed ObjectId in a query *)
| ValidationError (paths : list string) (* Mongoose: the paths that failed validation *)
| DuplicateKey (index : string)         (* the storage engine: E11000 on a unique index *)
| Thrown (message : string).            (* [throw new Error(message)] *)

Inductive Result (A : Type) : Type :=
| OK (a : A)
| Err (e : Error).
Arguments OK {A} a.
Arguments Err {A} e.

Module Store.
Import JsString.

(** An ObjectId is its 96-bit value. *)
Definition ObjectId := N.
(** A Date is its time stamp in milliseconds. *)
Definition Date := Z.
Bind Scope N_scope with ObjectId.
Bind Scope Z_scope with Date.

Definition hexValue (c : ascii) : option N :=
  if isDigit c then Some (code c - 48)%N
  else if between 97 102 c then Some (code c - 87)%N
  else if between 65 70 c then Some (code c - 55)%N
  else None.

Fixpoint parseHex (acc : N) (s : string) : option N :=
  match s with
  | EmptyString => Some acc
  | String c t =>
      match hexValue c with
      | Some d => parseHex (16 * acc + d)%N t
      | None => None
      end
  end.

(** The cast of a string to an ObjectId: 24 hexadecimal digits. *)
Definition castObjectId (s : string) : option ObjectId :=
  if Nat.eqb (String.length s) 24 then parseHex 0%N s else None.

(** [Types.ObjectId.isValid] on a string. *)
Definition isValid (s : string) : bool :=
  match castObjectId s with Some _ => true | None => false end.

(** types/blog.types.ts *)
Inductive PostStatus : Type := DRAFT | PUBLISHED | ARCHIVED.

Definition PostStatus_eqb (a b : PostStatus) : bool :=
  match a, b with
  | DRAFT, DRAFT | PUBLISHED, PUBLISHED | ARCHIVED, ARCHIVED => true
  | _, _ => false
  end.

(** A stored post ([IPost], the embedded [seoData] left out: no
    operation below reads it). *)
Record Post : Type := mkPost {
  post_id : ObjectId;
  title : string;
  slug : string;
  content : string;
  excerpt : string;
  author : ObjectId;
  categories : list string;
  tags : list string;
  featuredImage : option string;
  status : PostStatus;
  publishedAt : option Date;
  readTime : Z;
  views : Z;
  likes : list ObjectId;
  post_createdAt : Date;
  post_updatedAt : Date
}.

(** A stored comment ([IComment]). *)
Record Comment : Type := mkComment {
  comment_id : ObjectId;
  comment_post : ObjectId;
  comment_author : ObjectId;
  comment_content : string;
  parentComment : option ObjectId;
  isApproved : bool;
  comment_likes : Z;
  comment_createdAt : Date;
  comment_updatedAt : Date
}.

(** types/user.types.ts *)
Inductive UserRole : Type := USER | ADMIN | MODERATOR.

(** A stored user ([IUser]; of the profile only the avatar, the one
    part a projection names). *)
Record User : Type := mkUser {
  user_id : ObjectId;
  email : string;
  username : string;
  firstName : string;
  lastName : string;
  age : option Z;
  password : string;
  roles : list UserRole;
  avatar : option string;
  isActive : bool;
  lastLogin : option Date;
  user_createdAt : Date;
  user_updatedAt : Date
}.

(** [Model.findById] on a collection with the key [key]. *)
Definition findById {A : Type} (key : A -> ObjectId) (id : ObjectId) (l : list A)
  : option A :=
  List.find (fun d => N.eqb (key d) id) l.

(** [Model.findByIdAndUpdate(id, update)]: the first document with the
    id is replaced by its update; the others are left as they are. *)
Fixpoint updateById {A : Type} (key : A -> ObjectId) (upd : A -> A)
         (id : ObjectId) (l : list A) : list A :=
  match l with
  | [] => []
  | d :: rest =>
      if N.eqb (key d) id then upd d :: rest
      else d :: updateById key upd id rest
  end.

(** [.sort(...)]: a stable insertion sort; [before a b] says [a] may
    stand before [b]. The engine promises no order among documents
    with equal sort keys, and none that two queries share: what is
    stated of a sorted result holds for every such order, or names
    the order of the ties as its condition. *)
Fixpoint insertSorted {A : Type} (before : A -> A -> bool) (x : A) (l : list A)
  : list A :=
  match l with
  | [] => [x]
  | y :: rest =>
      if before x y then x :: l else y :: insertSorted before x rest
  end.

Fixpoint sortBy {A : Type} (before : A -> A -> bool) (l : list A) : list A :=
  match l with
  | [] => []
  | x :: rest => insertSorted before x (sortBy before rest)
  end.

(** [.limit(n)]: zero means no limit. *)
Definition limit {A : Type} (n : nat) (l : list A) : list A :=
  match n with O => l | _ => List.firstn n l end.

(** The order of a sort key that may be missing: a missing value sorts
    before every date ascending, after every date descending. *)
Definition dateLe (a b : option Date) : bool :=
  match a, b with
  | None, _ => true
  | Some _, None => false
  | Some x, Some y => (x <=? y)%Z
  end.

(** [{ $in: values }] on an array field: some element is among the
    values. *)
Definition anyIn (field values : list string) : bool :=
  List.existsb (fun x => List.existsb (String.eqb x) values) field.

Definition memId (id : ObjectId) (ids : list ObjectId) : bool :=
  List.existsb (N.eqb id) ids.

End Store.

(* ================================================================== *)
(** ** models/Post.ts: the pre-save hook *)
(* ================================================================== *)

Module PostModel.
Import JsString Store.

(** A post document in memory: its fields and the paths Mongoose
    tracks as modified since it was loaded or created. *)
Record PostDoc : Type := mkPostDoc {
  fields : Post;
  modifiedPaths : list string
}.

(** [this.isModified(path)] *)
Definition isModified (path : string) (d : PostDoc) : bool :=
  List.existsb (String.eqb path) (modifiedPaths d).

Definition isGt (c : ascii) : bool := N.eqb (code c) 62.
Definition isLt (c : ascii) : bool := N.eqb (code c) 60.

(** A tag [<([^>]+)>] can start at a [<] when the next character is
    not [>] and a [>] follows later. *)
Fixpoint hasGt (s : string) : bool :=
  match s with
  | EmptyString => false
  | String c t => (isGt c || hasGt t)%bool
  end.

Definition tagOpens (rest : string) : bool :=
  match rest with
  | EmptyString => false
  | String c t => (negb (isGt c) && hasGt t)%bool
  end.

(** [s.replace(/(<([^>]+)>)/gi, '')]: [inTag] says the scan is inside
    a match, which ends at the next [>]. *)
Fixpoint stripTagsFrom (inTag : bool) (s : string) : string :=
  match s with
  | EmptyString => EmptyString
  | String c t =>
      if inTag then stripTagsFrom (negb (isGt c)) t
      else if (isLt c && tagOpens t)%bool then stripTagsFrom true t
      else String c (stripTagsFrom false t)
  end.

Definition autoExcerpt (content : string) : string :=
  trim (String.substring 0 150 (stripTagsFrom false content)) ++ "...".

Definition setSlug (v : string) (p : Post) : Post :=
  mkPost (post_id p) (title p) v (content p) (excerpt p) (author p)
         (categories p) (tags p) (featuredImage p) (status p) (publishedAt p)
         (readTime p) (views p) (likes p) (post_createdAt p) (post_updatedAt p).

Definition setReadTime (v : Z) (p : Post) : Post :=
  mkPost (post_id p) (title p) (slug p) (content p) (excerpt p) (author p)
         (categories p) (tags p) (featuredImage p) (status p) (publishedAt p)
         v (views p) (likes p) (post_createdAt p) (post_updatedAt p).

Definition setPublishedAt (v : option Date) (p : Post) : Post :=
  mkPost (post_id p) (title p) (slug p) (content p) (excerpt p) (author p)
         (categories p) (tags p) (featuredImage p) (status p) v
         (readTime p) (views p) (likes p) (post_createdAt p) (post_updatedAt p).

Definition setExcerpt (v : string) (p : Post) : Post :=
  mkPost (post_id p) (title p) (slug p) (content p) v (author p)
         (categories p) (tags p) (featuredImage p) (status p) (publishedAt p)
         (readTime p) (views p) (likes p) (post_createdAt p) (post_updatedAt p).

Definition setStatus (v : PostStatus) (p : Post) : Post :=
  mkPost (post_id p) (title p) (slug p) (content p) (excerpt p) (author p)
         (categories p) (tags p) (featuredImage p) v (publishedAt p)
         (readTime p) (views p) (likes p) (post_createdAt p) (post_updatedAt p).

Definition setViews (v : Z) (p : Post) : Post :=
  mkPost (post_id p) (title p) (slug p) (content p) (excerpt p) (author p)
         (categories p) (tags p) (featuredImage p) (status p) (publishedAt p)
         (readTime p) v (likes p) (post_createdAt p) (post_updatedAt p).

Definition setUpdatedAt (v : Date) (p : Post) : Post :=
  mkPost (post_id p) (title p) (slug p) (content p) (excerpt p) (author p)
         (categories p) (tags p) (featuredImage p) (status p) (publishedAt p)
         (readTime p) (views p) (likes p) (post_createdAt p) v.

(** [PostSchema.pre('save', ...)]: the four steps in the order of the
    source; [now] is what [new Date()] gives. *)
Definition preSave (now : Date) (d : PostDoc) : Post :=
  let p0 := fields d in
  (* Auto-generate slug if not provided *)
  let p1 :=
    if (negb (truthy (slug p0)) && truthy (title p0))%bool
    then setSlug (Slug.generateSlug (title p0)) p0 else p0 in
  (* Calculate read time *)
  let p2 :=
    if isModified "content" d
    then setReadTime (ReadTime.calculateReadTime (content p1)) p1 else p1 in
  (* Set published date when status changes to published *)
  let p3 :=
    if (isModified "status" d && PostStatus_eqb (status p2) PUBLISHED
        && match publishedAt p2 with None => true | Some _ => false end)%bool
    then setPublishedAt (Some now) p2 else p2 in
  (* Auto-generate excerpt if not provided *)
  if (negb (truthy (excerpt p3)) && truthy (content p3))%bool
  then setExcerpt (autoExcerpt (content p3)) p3 else p3.

(** [PostSchema.methods.isPublished]; [now] is what [new Date()] gives. *)
Definition isPublished (now : Date) (p : Post) : bool :=
  (PostStatus_eqb (status p) PUBLISHED
   && match publishedAt p with
      | Some t => (t <=? now)%Z
      | None => false
      end)%bool.

(** The virtual [likesCount]: [this.likes?.length || 0]. *)
Definition likesCount (p : Post) : Z := Z.of_nat (List.length (likes p)).

End PostModel.

(* ================================================================== *)
(** ** Population and projection *)
(* ================================================================== *)

Module Populate.
Import Store.

(** A projected user: [_id] and the selected paths. *)
Record UserView : Type := mkUserView {
  view_id : ObjectId;
  view_username : option string;
  view_firstName : option string;
  view_lastName : option string;
  view_avatar : option string
}.

Definition selected (paths : list string) (path : string) : bool :=
  List.existsb (String.eqb path) paths.

(** The projection of a user on a list of paths. *)
Definition selectUser (paths : list string) (u : User) : UserView :=
  mkUserView (user_id u)
    (if selected paths "username" then Some (username u) else None)
    (if selected paths "firstName" then Some (firstName u) else None)
    (if selected paths "lastName" then Some (lastName u) else None)
    (if selected paths "profile.avatar" then avatar u else None).

(** [.populate(path, select)] of one reference: the referenced user's
    projection, or [null] for a dangling reference. *)
Definition populateUser (users : list User) (paths : list string) (id : ObjectId)
  : option UserView :=
  option_map (selectUser paths) (findById user_id id users).

(** [.select(...)]: the paths a result shows, or the paths it hides. *)
Inductive Selection : Type :=
| Only (paths : list string)
| Without (paths : list string).

(** A post of a result: the document, what of it is shown and its
    populated author. *)
Record PostRow : Type := mkPostRow {
  row_post : Post;
  row_select : Selection;
  row_author : option UserView
}.

Definition authorNames : list string := ["username"; "firstName"; "lastName"].

End Populate.

(* ================================================================== *)
(** ** services/SearchService.ts *)
(* ================================================================== *)

Module SearchService.
Import JsString Store Populate.

(** The argument of [searchPosts]. *)
Record SearchQuery : Type := mkSearchQuery {
  q_text : option string;
  q_categories : option (list string);
  q_tags : option (list string);
  q_author : option string;
  q_dateRange : option (Date * Date);
  q_minViews : option Z;
  q_hasImage : option bool
}.

(** [.sort({ publishedAt: -1 })] *)
Definition byPublishedDesc (a b : Post) : bool :=
  dateLe (publishedAt b) (publishedAt a).

Section Engine.
(** The storage engine's operators, which the repository only
    names. [regex pattern] is [{ $regex: pattern, $options: 'i' }]:
    the pattern is a regular expression, which the engine compiles to
    a test on a string field, or refuses with an error when the
    pattern is not well formed; the query that holds it then fails.
    [textScore search post] is the [$text] score of a post, [None]
    when the post does not match the search. *)
Variable regex : string -> Result (string -> bool).
Variable textScore : string -> Post -> option Z.

(** [findAuthorsByName]: the name is the pattern, as it is given; the
    ids of the users one of whose three names matches, or the
    engine's error. *)
Definition findAuthorsByName (users : list User) (name : string)
  : Result (list ObjectId) :=
  match regex name with
  | OK test =>
      OK (List.map user_id
            (List.filter
               (fun u => (test (firstName u) || test (lastName u)
                          || test (username u))%bool)
               users))
  | Err e => Err e
  end.

(** [searchQuery.author]: set to the ids found when an author name is
    given and truthy. *)
Definition authorCriterion (users : list User) (q : SearchQuery)
  : Result (option (list ObjectId)) :=
  match q_author q with
  | Some name =>
      if truthy name
      then match findAuthorsByName users name with
           | OK ids => OK (Some ids)
           | Err e => Err e
           end
      else OK None
  | None => OK None
  end.

(** The filter [searchQuery] that [searchPosts] builds, one conjunct
    for each criterion that is present and truthy; [authors] is the
    value of its [author] path. An array given for the [author] path
    is cast by Mongoose to [{ $in: ids }]. *)
Definition searchFilter (authors : option (list ObjectId)) (q : SearchQuery)
           (p : Post) : bool :=
  (PostStatus_eqb (status p) PUBLISHED
   && match q_text q with
      | Some t =>
          if truthy t
          then match textScore t p with Some _ => true | None => false end
          else true
      | None => true
      end
   && match q_categories q with
      | Some (c :: cs) => anyIn (categories p) (c :: cs)
      | _ => true
      end
   && match q_tags q with
      | Some (t :: ts) => anyIn (tags p) (t :: ts)
      | _ => true
      end
   && match authors with
      | Some ids => memId (author p) ids
      | None => true
      end
   && match q_dateRange q with
      | Some (start, stop) =>
          match publishedAt p with
          | Some t => ((start <=? t)%Z && (t <=? stop)%Z)%bool
          | None => false
          end
      | None => true
      end
   && match q_minViews q with
      | Some m => if (m =? 0)%Z then true else (m <=? views p)%Z
      | None => true
      end
   && match q_hasImage q with
      | Some true => match featuredImage p with Some _ => true | None => false end
      | Some false => match featuredImage p with Some _ => false | None => true end
      | None => true
      end)%bool.

(** [sortOptions]: by descending text score and then descending
    publication date when a text is searched, by descending
    publication date otherwise. *)
Definition searchOrder (q : SearchQuery) (a b : Post) : bool :=
  match q_text q with
  | Some t =>
      if truthy t then
        match textScore t a, textScore t b with
        | Some x, Some y =>
            if (y <? x)%Z then true
            else if (x <? y)%Z then false
            else byPublishedDesc a b
        | _, _ => byPublishedDesc a b
        end
      else byPublishedDesc a b
  | None => byPublishedDesc a b
  end.

(** [searchPosts]; the handler logs an error and throws it again. *)
Definition searchPosts (posts : list Post) (users : list User) (q : SearchQuery)
  : Result (list PostRow) :=
  match authorCriterion users q with
  | Err e => Err e
  | OK authors =>
      OK (List.map
            (fun p => mkPostRow p (Without ["content"])
                                (populateUser users authorNames (author p)))
            (limit 50
               (sortBy (searchOrder q)
                  (List.filter (searchFilter authors q) posts))))
  end.

End Engine.

(** [findSimilarPosts]; [lim] is the optional second argument. *)
Definition findSimilarPosts (posts : list Post) (users : list User)
           (postId : string) (lim : option nat) : Result (list PostRow) :=
  let n := match lim with Some k => k | None => 5 end in
  match castObjectId postId with
  | None => Err (CastError "_id" postId)
  | Some id =>
      match findById post_id id posts with
      | None => OK []
      | Some post =>
          OK (List.map
                (fun p => mkPostRow p
                            (Only ["title"; "slug"; "excerpt"; "author";
                                   "publishedAt"; "views"; "likesCount"])
                            (populateUser users authorNames (author p)))
                (limit n
                   (sortBy byPublishedDesc
                      (List.filter
                         (fun p =>
                            (negb (N.eqb (post_id p) id)
                             && PostStatus_eqb (status p) PUBLISHED
                             && (anyIn (categories p) (categories post)
                                 || anyIn (tags p) (tags post)))%bool)
                         posts))))
      end
  end.

(** A row of [getPopularPostsThisWeek] after [$project]. *)
Record PopularRow : Type := mkPopularRow {
  pop_id : ObjectId;
  pop_title : string;
  pop_slug : string;
  pop_author : ObjectId;
  pop_views : Z;
  pop_likesCount : Z;
  pop_publishedAt : option Date;
  engagementScore : Z
}.

Definition msPerDay : Z := 86400000.

(** [weekAgo.setDate(weekAgo.getDate() - 7)], in a time zone without
    clock changes. *)
Definition weekAgo (now : Date) : Date := (now - 7 * msPerDay)%Z.

(** "publishedAt within the last 7 days", following the
    specification's words: not before a week ago and not after now. *)
Definition withinLastWeek_spec (now t : Date) : bool :=
  ((weekAgo now <=? t)%Z && (t <=? now)%Z)%bool.

(** [$match] *)
Definition popularMatch (now : Date) (p : Post) : bool :=
  (PostStatus_eqb (status p) PUBLISHED
   && match publishedAt p with
      | Some t => (weekAgo now <=? t)%Z
      | None => false
      end)%bool.

(** [$addFields] and [$project] *)
Definition popularProject (p : Post) : PopularRow :=
  let likesCount := Z.of_nat (List.length (likes p)) in
  mkPopularRow (post_id p) (title p) (slug p) (author p) (views p) likesCount
               (publishedAt p) (views p * 1 + likesCount * 5)%Z.

(** [$sort: { engagementScore: -1 }] *)
Definition byScoreDesc (a b : PopularRow) : bool :=
  (engagementScore b <=? engagementScore a)%Z.

(** The rows after [$sort]. *)
Definition popularSorted (now : Date) (posts : list Post) : list PopularRow :=
  sortBy byScoreDesc (List.map popularProject (List.filter (popularMatch now) posts)).

(** The rows after [$limit: 10], before the author lookup. *)
Definition popularRanked (now : Date) (posts : list Post) : list PopularRow :=
  List.firstn 10 (popularSorted now posts).

(** [$lookup] with its [$project] and [$unwind]: a row whose author is
    not stored is dropped. *)
Definition lookupAuthor (users : list User) (r : PopularRow)
  : list (PopularRow * UserView) :=
  match populateUser users authorNames (pop_author r) with
  | Some a => [(r, a)]
  | None => []
  end.

(** [getPopularPostsThisWeek]; [now] is what [new Date()] gives. *)
Definition getPopularPostsThisWeek (now : Date) (posts : list Post)
           (users : list User) : Result (list (PopularRow * UserView)) :=
  OK (List.flat_map (lookupAuthor users) (popularRanked now posts)).

(** [Comment.distinct('post', { isApproved: true })] *)
Definition postsWithComments (all : list Comment) : list ObjectId :=
  List.nodup N.eq_dec (List.map comment_post (List.filter isApproved all)).

(** [findPostsWithApprovedComments] *)
Definition findPostsWithApprovedComments (posts : list Post) (all : list Comment)
           (users : list User) : Result (list PostRow) :=
  OK (List.map
        (fun p => mkPostRow p
                    (Only ["title"; "slug"; "author"; "publishedAt"; "views"])
                    (populateUser users authorNames (author p)))
        (sortBy byPublishedDesc
           (List.filter
              (fun p => (memId (post_id p) (postsWithComments all)
                         && PostStatus_eqb (status p) PUBLISHED)%bool)
              posts))).

End SearchService.

(* ================================================================== *)
(** ** services/PostService.ts *)
(* ================================================================== *)

Module PostService.
Import JsString Store Populate.

Record Reply : Type := mkReply {
  reply_comment : Comment;
  reply_author : option UserView
}.

(** A top-level comment with its populated author and replies. *)
Record Thread : Type := mkThread {
  thread_comment : Comment;
  thread_author : option UserView;
  replies : list Reply
}.

Record PostWithComments : Type := mkPostWithComments {
  post : option PostRow;
  comments : list Thread
}.

Definition byCreatedDesc (a b : Comment) : bool :=
  (comment_createdAt b <=? comment_createdAt a)%Z.

Definition byCreatedAsc (a b : Comment) : bool :=
  (comment_createdAt a <=? comment_createdAt b)%Z.

(** The filter of the top-level query:
    [{ post: postId, isApproved: true, parentComment: null }]. *)
Definition topLevel (id : ObjectId) (c : Comment) : bool :=
  (N.eqb (comment_post c) id && isApproved c
   && match parentComment c with None => true | Some _ => false end)%bool.

Definition replyLimit : nat := 50.

(** The virtual [replies] is populated by one query for all the
    top-level comments found: the approved comments whose
    [parentComment] is one of them, by ascending creation time,
    limited to [limit] times their number. *)
Definition fetchReplies (all : list Comment) (parents : list ObjectId)
  : list Comment :=
  limit (replyLimit * List.length parents)
    (sortBy byCreatedAsc
       (List.filter
          (fun c =>
             (isApproved c
              && match parentComment c with
                 | Some p => memId p parents
                 | None => false
                 end)%bool)
          all)).

(** The fetched replies of one comment, cut to [limit]. *)
Definition repliesOf (users : list User) (fetched : list Comment) (c : Comment)
  : list Reply :=
  List.map
    (fun r => mkReply r (populateUser users ["username"; "profile.avatar"]
                                      (comment_author r)))
    (List.firstn replyLimit
       (List.filter
          (fun r =>
             match parentComment r with
             | Some p => N.eqb p (comment_id c)
             | None => false
             end)
          fetched)).

(** [getPostWithComments] *)
Definition getPostWithComments (posts : list Post) (all : list Comment)
           (users : list User) (postId : string) : Result PostWithComments :=
  match castObjectId postId with
  | None => Err (Thrown "Invalid post ID")
  | Some id =>
      match findById post_id id posts with
      | None => OK (mkPostWithComments None [])
      | Some p =>
          let top :=
            limit 50 (sortBy byCreatedDesc (List.filter (topLevel id) all)) in
          let fetched := fetchReplies all (List.map comment_id top) in
          OK (mkPostWithComments
                (Some (mkPostRow p (Without [])
                         (populateUser users
                            ["username"; "firstName"; "lastName"; "profile.avatar"]
                            (author p))))
                (List.map
                   (fun c =>
                      mkThread c
                        (populateUser users ["username"; "profile.avatar"]
                                      (comment_author c))
                        (repliesOf users fetched c))
                   top))
      end
  end.

(** [totalPages: Math.ceil(totalCount / limit)] of [getPostsByCategory]
    (and of [UserService.getUsers]). *)
Definition totalPages (totalCount limit : Z) : Z :=
  ReadTime.ceilDiv totalCount limit.

(** The write of [getPostBySlug]:
    [Post.findByIdAndUpdate(post._id, { $inc: { views: 1 } })]. *)
Definition incrementViews (now : Date) (posts : list Post) (id : ObjectId)
  : list Post :=
  updateById post_id
    (fun p => PostModel.setUpdatedAt now (PostModel.setViews (views p + 1)%Z p))
    id posts.

(** The population of [author] with [match: { isActive: true }]: an
    inactive author is [null], as a missing one. *)
Definition populateActiveAuthor (users : list User) (id : ObjectId)
  : option UserView :=
  match findById user_id id users with
  | Some u =>
      if isActive u
      then Some (selectUser ["username"; "firstName"; "lastName"; "profile.avatar"] u)
      else None
  | None => None
  end.

(** The population of [likes] with [select: 'username'] and
    [options: { limit: 10 }]: one query fetches at most ten of the
    users the array names; the array keeps its order, loses the ids
    that were not fetched and is cut to ten. *)
Definition populateLikes (users : list User) (ids : list ObjectId)
  : list UserView :=
  let fetched := limit 10 (List.filter (fun u => memId (user_id u) ids) users) in
  List.firstn 10
    (List.flat_map
       (fun id =>
          match findById user_id id fetched with
          | Some u => [selectUser ["username"] u]
          | None => []
          end)
       ids).

(** What [getPostBySlug] returns for a post it finds. *)
Record PostWithLikes : Type := mkPostWithLikes {
  found : PostRow;
  likedBy : list UserView
}.

(** The filter [{ slug, status: PostStatus.PUBLISHED }]; the [slug] path
    is declared [lowercase: true], and Mongoose applies the setter to
    the filter's value. *)
Definition slugFilter (wanted : string) (p : Post) : bool :=
  (String.eqb (slug p) (JsString.toLowerCase wanted)
   && PostStatus_eqb (status p) PUBLISHED)%bool.

(** [getPostBySlug]: the document as it was read, and the collection
    after the call. *)
Definition getPostBySlug (now : Date) (posts : list Post) (users : list User)
           (wanted : string) : Result (option PostWithLikes * list Post) :=
  match List.find (slugFilter wanted) posts with
  | Some p =>
      OK (Some (mkPostWithLikes
                  (mkPostRow p (Without []) (populateActiveAuthor users (author p)))
                  (populateLikes users (likes p))),
          incrementViews now posts (post_id p))
  | None => OK (None, posts)
  end.

(** The options of [getPostsByCategory]. A page and a limit are
    positive integers. *)
Inductive SortBy : Type := SortCreatedAt | SortViews | SortLikes.
Inductive SortOrder : Type := Asc | Desc.

Record CategoryOptions : Type := mkCategoryOptions {
  opt_page : option positive;
  opt_limit : option positive;
  opt_sortBy : option SortBy;
  opt_sortOrder : option SortOrder
}.

Record PostPage : Type := mkPostPage {
  page_posts : list PostRow;
  page_totalCount : nat;
  page_currentPage : positive;
  page_totalPages : Z
}.

(** The filter [query] of [getPostsByCategory]. *)
Definition categoryFilter (now : Date) (category : string) (p : Post) : bool :=
  (List.existsb (String.eqb category) (categories p)
   && PostStatus_eqb (status p) PUBLISHED
   && match publishedAt p with
      | Some t => (t <=? now)%Z
      | None => false
      end)%bool.

(** The stored value of the sort path: [createdAt], [views], or
    [likesCount], which is a virtual and stored in no document. *)
Definition sortKey (by_ : SortBy) (p : Post) : option Z :=
  match by_ with
  | SortCreatedAt => Some (post_createdAt p)
  | SortViews => Some (views p)
  | SortLikes => None
  end.

(** [sortOptions]: [-1] for [desc], [1] for [asc]. *)
Definition categoryOrder (by_ : SortBy) (order : SortOrder) (a b : Post) : bool :=
  match sortKey by_ a, sortKey by_ b with
  | Some x, Some y =>
      match order with
      | Desc => (y <=? x)%Z
      | Asc => (x <=? y)%Z
      end
  | _, _ => true
  end.

(** [.skip(skip).limit(limit)] *)
Definition window {A : Type} (page limit_ : positive) (l : list A) : list A :=
  List.firstn (Pos.to_nat limit_)
    (List.skipn ((Pos.to_nat page - 1) * Pos.to_nat limit_) l).

(** [getPostsByCategory] *)
Definition getPostsByCategory (now : Date) (posts : list Post) (users : list User)
           (category : string) (options : CategoryOptions) : Result PostPage :=
  let page := match opt_page options with Some n => n | None => 1%positive end in
  let limit_ := match opt_limit options with Some n => n | None => 10%positive end in
  let sortBy_ := match opt_sortBy options with Some b => b | None => SortCreatedAt end in
  let sortOrder := match opt_sortOrder options with Some o => o | None => Desc end in
  let matching := List.filter (categoryFilter now category) posts in
  let totalCount := List.length matching in
  OK (mkPostPage
        (List.map
           (fun p => mkPostRow p (Without ["content"])
                               (populateUser users authorNames (author p)))
           (window page limit_ (sortBy (categoryOrder sortBy_ sortOrder) matching)))
        totalCount page
        (totalPages (Z.of_nat totalCount) (Z.pos limit_))).

End PostService.

(* ================================================================== *)
(** ** services/BlogService.ts *)
(* ================================================================== *)

Module BlogService.
Import JsString Store.

(** The slug the document of [createPost] holds:
    [postData.slug || this.generateSlugFromTitle(postData.title)],
    through the setter of the [slug] path, [lowercase: true]. *)
Definition createPostSlug (slug : option string) (title : string) : string :=
  toLowerCase
    (match slug with
     | Some s => if truthy s then s else Slug.generateSlugFromTitle title
     | None => Slug.generateSlugFromTitle title
     end).

(** The update of [publishPost]: status and publication date are
    both written, whatever the document holds. *)
Definition publishUpdate (now : Date) (p : Post) : Post :=
  PostModel.setUpdatedAt now
    (PostModel.setPublishedAt (Some now) (PostModel.setStatus PUBLISHED p)).

(** [publishPost]: the updated post and the collection after the
    call. *)
Definition publishPost (now : Date) (posts : list Post) (postId : string)
  : Result (Post * list Post) :=
  match castObjectId postId with
  | None => Err (CastError "_id" postId)
  | Some id =>
      match findById post_id id posts with
      | Some p =>
          OK (publishUpdate now p, updateById post_id (publishUpdate now) id posts)
      | None => Err (Thrown ("Post with id " ++ postId ++ " not found"))
      end
  end.

(** The argument of [addComment]. *)
Record CommentData : Type := mkCommentData {
  postId : string;
  authorId : string;
  content : string;
  parentCommentId : option string
}.

(** [Comment.countDocuments({ author, isApproved: true })] *)
Definition countApproved (all : list Comment) (a : ObjectId) : nat :=
  List.length
    (List.filter (fun c => (N.eqb (comment_author c) a && isApproved c)%bool) all).

(** The paths of a new comment that fail validation: [post] must
    cast, [content] is trimmed, required and at most 1000 characters
    long, [parentComment] must cast when it is given. *)
Definition commentFailures (d : CommentData) : list string :=
  (if isValid (postId d) then [] else ["post"])
    ++ (let c := trim (content d) in
        if negb (truthy c) then ["content"]
        else if Nat.ltb 1000 (String.length c) then ["content"] else [])
    ++ (match parentCommentId d with
        | Some s => if isValid s then [] else ["parentComment"]
        | None => []
        end).

Definition castParent (o : option string) : option ObjectId :=
  match o with Some s => castObjectId s | None => None end.

(** [addComment]: the stored comment and the collection after the
    call; [newId] is the identifier the new document gets, [now] what
    the clock gives. *)
Definition addComment (now : Date) (newId : ObjectId) (all : list Comment)
           (d : CommentData) : Result (Comment * list Comment) :=
  match castObjectId (authorId d) with
  | None => Err (CastError "author" (authorId d))
  | Some a =>
      let previousApprovedComments := countApproved all a in
      match commentFailures d, castObjectId (postId d) with
      | [], Some p =>
          let comment :=
            mkComment newId p a (trim (content d)) (castParent (parentCommentId d))
                      (Nat.ltb 5 previousApprovedComments) 0 now now in
          if memId newId (List.map comment_id all) then Err (DuplicateKey "_id")
          else OK (comment, all ++ [comment])
      | failures, _ => Err (ValidationError failures)
      end
  end.

(** A row of [getRecentActivity] after [$project]. *)
Record ActivityRow : Type := mkActivityRow {
  act_id : ObjectId;
  act_title : string;
  act_status : PostStatus;
  act_updatedAt : Date;
  act_username : string
}.

(** [$sort: { updatedAt: -1 }] *)
Definition byUpdatedDesc (a b : Post) : bool :=
  (post_updatedAt b <=? post_updatedAt a)%Z.

(** [$lookup] and [$unwind: '$author'], then [$project]: a post whose
    author is not stored gives no row. *)
Definition activityRow (users : list User) (p : Post) : list ActivityRow :=
  match findById user_id (author p) users with
  | Some u => [mkActivityRow (post_id p) (title p) (status p) (post_updatedAt p)
                             (username u)]
  | None => []
  end.

(** [getRecentActivity]; without an author id, or with the empty one,
    the match stage is [{}]. [new Types.ObjectId(authorId)] throws on a
    malformed id. *)
Definition getRecentActivity (posts : list Post) (users : list User)
           (authorId_ : option string) : Result (list ActivityRow) :=
  let run (matchStage : Post -> bool) :=
    OK (List.flat_map (activityRow users)
          (List.firstn 10 (sortBy byUpdatedDesc (List.filter matchStage posts)))) in
  match authorId_ with
  | Some s =>
      if truthy s then
        match castObjectId s with
        | Some a => run (fun p => N.eqb (author p) a)
        | None =>
            Err (Thrown "input must be a 24 character hex string, 12 byte Uint8Array, or an integer")
        end
      else run (fun _ => true)
  | None => run (fun _ => true)
  end.

End BlogService.

(* ================================================================== *)
(** ** models/User.ts and services/UserService.ts *)
(* ================================================================== *)

Module UserService.
Import JsString Store.

(** [IUserInput] *)
Record UserInput : Type := mkUserInput {
  in_email : string;
  in_username : string;
  in_firstName : string;
  in_lastName : string;
  in_password : string;
  in_age : option Z;
  in_roles : option (list UserRole)
}.

(** The setters of the [email] path: [lowercase: true, trim: true];
    Mongoose applies them to a document's value and to a filter's. *)
Definition normalizeEmail (s : string) : string := trim (toLowerCase s).

Definition isAt (c : ascii) : bool := N.eqb (code c) 64.
Definition isDot (c : ascii) : bool := N.eqb (code c) 46.
Definition isUnderscore (c : ascii) : bool := N.eqb (code c) 95.

(** [[^\s@]] *)
Definition emailChar (c : ascii) : bool := negb (isSpace c || isAt c)%bool.

(** The part of a string before its first [@] and the part after. *)
Fixpoint splitAtSign (s : string) : option (string * string) :=
  match s with
  | EmptyString => None
  | String c t =>
      if isAt c then Some (EmptyString, t)
      else match splitAtSign t with
           | Some (a, b) => Some (String c a, b)
           | None => None
           end
  end.

(** A dot with something after it. *)
Fixpoint dotInside (s : string) : bool :=
  match s with
  | EmptyString => false
  | String c t => ((isDot c && truthy t) || dotInside t)%bool
  end.

(** [/^[^\s@]+@[^\s@]+\.[^\s@]+$/.test(email)] *)
Definition emailPattern (s : string) : bool :=
  match splitAtSign s with
  | Some (local, domain) =>
      (truthy local && allChars emailChar local && allChars emailChar domain
       && match domain with
          | EmptyString => false
          | String _ t => dotInside t
          end)%bool
  | None => false
  end.

(** [/^[a-zA-Z0-9_]+$/] *)
Definition usernamePattern (s : string) : bool :=
  (truthy s
   && allChars (fun c => isLower c || isUpper c || isDigit c || isUnderscore c)%bool s)%bool.

(** The first failing validator of one path, if any. *)
Definition firstFailure (path : string) (checks : list (bool * string))
  : list (string * string) :=
  match List.find (fun c => negb (fst c)) checks with
  | Some (_, message) => [(path, message)]
  | None => []
  end.

(** The validators of [UserSchema], on the document [new User(userData)]
    holds (after the setters): the failing paths with their messages. *)
Definition userFailures (u : User) : list (string * string) :=
  firstFailure "email"
    [(truthy (email u), "Email is required");
     (emailPattern (email u), "Please provide a valid email address")]
  ++ firstFailure "username"
    [(truthy (username u), "Username is required");
     (Nat.leb 3 (String.length (username u)), "Username must be at least 3 characters");
     (Nat.leb (String.length (username u)) 30, "Username cannot exceed 30 characters");
     (usernamePattern (username u),
      "Username can only contain letters, numbers, and underscores")]
  ++ firstFailure "password"
    [(truthy (password u), "Password is required");
     (Nat.leb 8 (String.length (password u)), "Password must be at least 8 characters")]
  ++ firstFailure "firstName"
    [(truthy (firstName u), "First name is required");
     (Nat.leb (String.length (firstName u)) 50, "First name cannot exceed 50 characters")]
  ++ firstFailure "lastName"
    [(truthy (lastName u), "Last name is required");
     (Nat.leb (String.length (lastName u)) 50, "Last name cannot exceed 50 characters")]
  ++ match age u with
     | Some a =>
         firstFailure "age"
           [((13 <=? a)%Z, "Age must be at least 13");
            ((a <=? 120)%Z, "Age cannot exceed 120")]
     | None => []
     end.

Fixpoint joinFailures (l : list (string * string)) : string :=
  match l with
  | [] => EmptyString
  | [(path, message)] => path ++ ": " ++ message
  | (path, message) :: rest => path ++ ": " ++ message ++ ", " ++ joinFailures rest
  end.

(** The message of Mongoose's validation error. *)
Definition validationMessage (l : list (string * string)) : string :=
  "User validation failed: " ++ joinFailures l.

(** [new User(userData)]: the setters and the defaults of the schema. *)
Definition newUser (now : Date) (newId : ObjectId) (d : UserInput) : User :=
  mkUser newId (normalizeEmail (in_email d)) (in_username d)
         (trim (in_firstName d)) (trim (in_lastName d)) (in_age d) (in_password d)
         (match in_roles d with Some r => r | None => [USER] end)
         None true None now now.

(** The value of a top-level string path of a stored user; a path the
    schema does not declare is not stored. *)
Definition userField (path : string) (u : User) : option string :=
  if String.eqb path "email" then Some (email u)
  else if String.eqb path "username" then Some (username u)
  else if String.eqb path "firstName" then Some (firstName u)
  else if String.eqb path "lastName" then Some (lastName u)
  else if String.eqb path "password" then Some (password u)
  else None.

(** The filter [{ path: value }]. *)
Definition fieldIs (path value : string) (u : User) : bool :=
  match userField path u with
  | Some v => String.eqb v value
  | None => false
  end.

(** The filter of the lookup that precedes the creation:
    [{ $or: [{ email: userData.email }, { userName: userData.username }] }].
    The path [userName] is not one of the schema; the filter reaches
    the engine with it (Mongoose leaves an undeclared path in a filter
    unless strictQuery is set) and is tested against what is stored. *)
Definition existingFilter (d : UserInput) (u : User) : bool :=
  (fieldIs "email" (normalizeEmail (in_email d)) u
   || fieldIs "userName" (in_username d) u)%bool.

(** The unique indexes of the collection: [_id], and [email] and
    [username] by the schema. *)
Definition violatedIndex (users : list User) (u : User) : option string :=
  if memId (user_id u) (List.map user_id users) then Some "_id"
  else if List.existsb (fun v => String.eqb (email v) (email u)) users then Some "email"
  else if List.existsb (fun v => String.eqb (username v) (username u)) users
       then Some "username"
       else None.

(** [user.save()]: validation, then the insertion under the unique
    indexes. *)
Definition save (users : list User) (u : User) : Result (list User) :=
  match userFailures u with
  | [] =>
      match violatedIndex users u with
      | Some index => Err (DuplicateKey index)
      | None => OK (users ++ [u])
      end
  | failures => Err (ValidationError (List.map fst failures))
  end.

(** [createUser]: the created user and the collection after the call.
    The handler rewraps a validation error and rethrows any other. *)
Definition createUser (now : Date) (newId : ObjectId) (users : list User)
           (userData : UserInput) : Result (User * list User) :=
  match List.find (existingFilter userData) users with
  | Some existingUser =>
      Err (Thrown (if String.eqb (email existingUser) (in_email userData)
                   then "Email already registered"
                   else "Username already taken"))
  | None =>
      let user := newUser now newId userData in
      match save users user with
      | OK users' => OK (user, users')
      | Err (ValidationError _) =>
          Err (Thrown ("Validation failed: " ++ validationMessage (userFailures user)))
      | Err e => Err e
      end
  end.

(** The errors that report a uniqueness conflict: the two messages of
    [createUser] and the duplicate-key error of a unique index. *)
Definition isConflict (e : Error) : bool :=
  match e with
  | Thrown m =>
      (String.eqb m "Email already registered"
       || String.eqb m "Username already taken")%bool
  | DuplicateKey _ => true
  | _ => false
  end.

(** The virtual [fullName]. *)
Definition fullName (u : User) : string := firstName u ++ " " ++ lastName u.

(** [UserSchema.statics.findActive] *)
Definition findActive (users : list User) : list User :=
  List.filter isActive users.

(** A user of a result with what of it is shown; the [password] path
    is declared [select: false] and shown by no query below. *)
Record UserRow : Type := mkUserRow {
  row_user : User;
  row_hidden : list string
}.

(** [getUserByEmail]: the argument is lowercased by the method and then
    goes through the setters of the [email] path. *)
Definition getUserByEmail (users : list User) (mail : string)
  : Result (option UserRow) :=
  OK (option_map (fun u => mkUserRow u ["password"])
        (List.find
           (fun u => (String.eqb (email u) (normalizeEmail (toLowerCase mail))
                      && isActive u)%bool)
           users)).

(** The string a role is stored as. *)
Definition roleName (r : UserRole) : string :=
  match r with
  | USER => "user"
  | ADMIN => "admin"
  | MODERATOR => "moderator"
  end.

(** The options of [getUsers]. A page and a limit are positive
    integers. *)
Record UsersOptions : Type := mkUsersOptions {
  users_page : option positive;
  users_limit : option positive;
  users_role : option string;
  users_isActive : option bool;
  users_search : option string
}.

Record UsersPage : Type := mkUsersPage {
  page_users : list UserRow;
  users_totalCount : nat;
  users_currentPage : positive;
  users_totalPages : Z
}.

(** [.sort({ createdAt: -1 })] *)
Definition newestFirst (a b : User) : bool :=
  (user_createdAt b <=? user_createdAt a)%Z.

Section Search.
(** The storage engine's [{ $regex: pattern, $options: 'i' }]: the
    test the pattern compiles to, or the engine's error for a pattern
    that is not well formed. *)
Variable regex : string -> Result (string -> bool).

(** [query.$or]: set when a search is given and truthy; the search is
    the pattern, as it is given. *)
Definition searchCriterion (options : UsersOptions)
  : Result (option (string -> bool)) :=
  match users_search options with
  | Some search =>
      if truthy search
      then match regex search with
           | OK test => OK (Some test)
           | Err e => Err e
           end
      else OK None
  | None => OK None
  end.

(** The filter [query] of [getUsers]; [search] is the test of its
    [$or]. *)
Definition usersFilter (search : option (string -> bool)) (options : UsersOptions)
           (u : User) : bool :=
  (Bool.eqb (isActive u)
            (match users_isActive options with Some b => b | None => true end)
   && match users_role options with
      | Some role =>
          if truthy role
          then List.existsb (fun r => String.eqb (roleName r) role) (roles u)
          else true
      | None => true
      end
   && match search with
      | Some test =>
          (test (firstName u) || test (lastName u)
           || test (username u) || test (email u))%bool
      | None => true
      end)%bool.

(** [getUsers]; the handler logs an error and throws it again. *)
Definition getUsers (users : list User) (options : UsersOptions) : Result UsersPage :=
  let page := match users_page options with Some n => n | None => 1%positive end in
  let limit_ := match users_limit options with Some n => n | None => 10%positive end in
  match searchCriterion options with
  | Err e => Err e
  | OK search =>
      let matching := List.filter (usersFilter search options) users in
      let totalCount := List.length matching in
      OK (mkUsersPage
            (List.map (fun u => mkUserRow u ["password"])
               (PostService.window page limit_ (sortBy newestFirst matching)))
            totalCount page
            (PostService.totalPages (Z.of_nat totalCount) (Z.pos limit_)))
  end.

End Search.

(** [Partial<IUserInput>]: the fields an update gives. *)
Record UserUpdate : Type := mkUserUpdate {
  up_email : option string;
  up_username : option string;
  up_firstName : option string;
  up_lastName : option string;
  up_password : option string;
  up_age : option Z;
  up_roles : option (list UserRole)
}.

(** [const { password, ...safeUpdateData } = updateData] *)
Definition safeUpdateData (d : UserUpdate) : UserUpdate :=
  mkUserUpdate (up_email d) (up_username d) (up_firstName d) (up_lastName d)
               None (up_age d) (up_roles d).

Definition orKeep {A : Type} (o : option A) (old : A) : A :=
  match o with Some v => v | None => old end.

(** The document after [{ ...safeUpdateData, updatedAt: new Date() }]
    is set on it, each value through the setters of its path. *)
Definition applyUpdate (now : Date) (d : UserUpdate) (u : User) : User :=
  mkUser (user_id u)
         (orKeep (option_map normalizeEmail (up_email d)) (email u))
         (orKeep (up_username d) (username u))
         (orKeep (option_map trim (up_firstName d)) (firstName u))
         (orKeep (option_map trim (up_lastName d)) (lastName u))
         (match up_age d with Some a => Some a | None => age u end)
         (orKeep (up_password d) (password u))
         (orKeep (up_roles d) (roles u))
         (avatar u) (isActive u) (lastLogin u) (user_createdAt u) now.

Definition checkIfGiven {A : Type} (o : option A) (f : A -> list (string * string))
  : list (string * string) :=
  match o with Some v => f v | None => [] end.

(** [runValidators: true]: the validators of the paths the update
    gives, on the values after the setters. *)
Definition updateFailures (d : UserUpdate) : list (string * string) :=
  checkIfGiven (option_map normalizeEmail (up_email d))
    (fun v => firstFailure "email"
                [(truthy v, "Email is required");
                 (emailPattern v, "Please provide a valid email address")])
  ++ checkIfGiven (up_username d)
    (fun v => firstFailure "username"
                [(truthy v, "Username is required");
                 (Nat.leb 3 (String.length v), "Username must be at least 3 characters");
                 (Nat.leb (String.length v) 30, "Username cannot exceed 30 characters");
                 (usernamePattern v,
                  "Username can only contain letters, numbers, and underscores")])
  ++ checkIfGiven (up_password d)
    (fun v => firstFailure "password"
                [(truthy v, "Password is required");
                 (Nat.leb 8 (String.length v), "Password must be at least 8 characters")])
  ++ checkIfGiven (option_map trim (up_firstName d))
    (fun v => firstFailure "firstName"
                [(truthy v, "First name is required");
                 (Nat.leb (String.length v) 50, "First name cannot exceed 50 characters")])
  ++ checkIfGiven (option_map trim (up_lastName d))
    (fun v => firstFailure "lastName"
                [(truthy v, "Last name is required");
                 (Nat.leb (String.length v) 50, "Last name cannot exceed 50 characters")])
  ++ checkIfGiven (up_age d)
    (fun a => firstFailure "age"
                [((13 <=? a)%Z, "Age must be at least 13");
                 ((a <=? 120)%Z, "Age cannot exceed 120")]).

(** The unique index an updated document would violate: another
    document holds its email or its username. *)
Definition updateViolates (users : list User) (u : User) : option string :=
  let others := List.filter (fun v => negb (N.eqb (user_id v) (user_id u))) users in
  if List.existsb (fun v => String.eqb (email v) (email u)) others then Some "email"
  else if List.existsb (fun v => String.eqb (username v) (username u)) others
       then Some "username"
       else None.

(** [updateUser]: the updated user and the collection after the call. *)
Definition updateUser (now : Date) (users : list User) (userId : string)
           (updateData : UserUpdate) : Result (UserRow * list User) :=
  match castObjectId userId with
  | None => Err (Thrown "Invalid user ID format")
  | Some id =>
      let update := safeUpdateData updateData in
      match updateFailures update with
      | [] =>
          match findById user_id id users with
          | Some u =>
              let u' := applyUpdate now update u in
              match updateViolates users u' with
              | Some index => Err (DuplicateKey index)
              | None =>
                  OK (mkUserRow u' ["password"],
                      updateById user_id (applyUpdate now update) id users)
              end
          | None => Err (Thrown "User not found")
          end
      | failures => Err (ValidationError (List.map fst failures))
      end
  end.

Definition setActive (now : Date) (b : bool) (u : User) : User :=
  mkUser (user_id u) (email u) (username u) (firstName u) (lastName u) (age u)
         (password u) (roles u) (avatar u) b (lastLogin u) (user_createdAt u) now.

Definition setLastLogin (now : Date) (u : User) : User :=
  mkUser (user_id u) (email u) (username u) (firstName u) (lastName u) (age u)
         (password u) (roles u) (avatar u) (isActive u) (Some now)
         (user_createdAt u) now.

(** [softDeleteUser]: the collection after the call (the method
    returns [true]). *)
Definition softDeleteUser (now : Date) (users : list User) (userId : string)
  : Result (list User) :=
  match castObjectId userId with
  | None => Err (Thrown "Invalid user ID format")
  | Some id =>
      match findById user_id id users with
      | Some _ => OK (updateById user_id (setActive now false) id users)
      | None => Err (Thrown "User not found")
      end
  end.

(** [Model.findByIdAndDelete]: the first document with the id is
    removed. *)
Fixpoint deleteById (id : ObjectId) (users : list User) : list User :=
  match users with
  | [] => []
  | u :: rest => if N.eqb (user_id u) id then rest else u :: deleteById id rest
  end.

(** [hardDeleteUser]: the collection after the call (the method
    returns [true]). *)
Definition hardDeleteUser (users : list User) (userId : string)
  : Result (list User) :=
  match castObjectId userId with
  | None => Err (Thrown "Invalid user ID format")
  | Some id =>
      match findById user_id id users with
      | Some _ => OK (deleteById id users)
      | None => Err (Thrown "User not found")
      end
  end.

(** [updateLastLogin]: the id is not checked by the method, so a
    malformed one is a cast error of the query; an id no user has
    changes nothing and raises nothing. *)
Definition updateLastLogin (now : Date) (users : list User) (userId : string)
  : Result (list User) :=
  match castObjectId userId with
  | None => Err (CastError "_id" userId)
  | Some id => OK (updateById user_id (setLastLogin now) id users)
  end.

End UserService.

(* ================================================================== *)
(** ** services/AnalyticsService.ts *)
(* ================================================================== *)

Module AnalyticsService.
Import JsString Store.

Definition sumZ (l : list Z) : Z := List.fold_right Z.add 0%Z l.

(** [$max] over the values that are present; [null] when none is. *)
Definition maxDate (l : list (option Date)) : option Date :=
  List.fold_right
    (fun o acc =>
       match o, acc with
       | Some t, Some m => Some (Z.max t m)
       | Some t, None => Some t
       | None, _ => acc
       end)
    None l.

(** [$min] over the values that are present; [null] when none is. *)
Definition minDate (l : list (option Date)) : option Date :=
  List.fold_right
    (fun o acc =>
       match o, acc with
       | Some t, Some m => Some (Z.min t m)
       | Some t, None => Some t
       | None, _ => acc
       end)
    None l.

(** [$max] of the views of a group, which is never empty. *)
Definition maxZ (l : list Z) : Z :=
  match l with
  | [] => 0%Z
  | x :: rest => List.fold_right Z.max x rest
  end.

Definition published (p : Post) : bool := PostStatus_eqb (status p) PUBLISHED.

(** [$unwind: '$categories']: one row for each element of the array, a
    post without category gives none. *)
Definition unwindCategories (posts : list Post) : list (string * Post) :=
  List.flat_map (fun p => List.map (fun c => (c, p)) (categories p)) posts.

Section Numbers.
(** The engine's floating-point numbers and the three operations the
    pipelines apply to them: [avg l] is [$avg] of the values [l],
    [round2 x] is [$round: [x, 2]], [divide a b] is [$divide: [a, b]]
    on two integers. *)
Variable F : Type.
Variable avg : list Z -> F.
Variable round2 : F -> F.
Variable divide : Z -> Z -> Result F.

(** A row of [getPostStatsByCategory]. *)
Record CategoryStats : Type := mkCategoryStats {
  cat_id : string;
  cat_postCount : Z;
  cat_totalViews : Z;
  cat_avgViews : F;
  cat_maxViews : Z;
  cat_latestPost : option Date
}.

(** [$group] by category: the accumulators of one group. *)
Definition categoryGroup (rows : list (string * Post)) (c : string) : CategoryStats :=
  let members :=
    List.map snd (List.filter (fun r => String.eqb (fst r) c) rows) in
  mkCategoryStats c
    (Z.of_nat (List.length members))
    (sumZ (List.map views members))
    (avg (List.map views members))
    (maxZ (List.map views members))
    (maxDate (List.map publishedAt members)).

(** [$sort: { postCount: -1 }] *)
Definition byPostCountDesc (a b : CategoryStats) : bool :=
  (cat_postCount b <=? cat_postCount a)%Z.

(** [getPostStatsByCategory] *)
Definition getPostStatsByCategory (posts : list Post) : Result (list CategoryStats) :=
  let rows := unwindCategories (List.filter published posts) in
  OK (sortBy byPostCountDesc
        (List.map (categoryGroup rows)
           (List.nodup string_dec (List.map fst rows)))).

(** The accumulators of one author's group in [getAuthorStatistics]. *)
Record AuthorGroup : Type := mkAuthorGroup {
  grp_id : ObjectId;
  grp_postCount : Z;
  grp_totalViews : Z;
  grp_totalLikes : Z;
  grp_avgViews : F;
  grp_firstPost : option Date;
  grp_latestPost : option Date
}.

Definition authorGroup (posts : list Post) (a : ObjectId) : AuthorGroup :=
  let members := List.filter (fun p => N.eqb (author p) a) posts in
  mkAuthorGroup a
    (Z.of_nat (List.length members))
    (sumZ (List.map views members))
    (sumZ (List.map (fun p => Z.of_nat (List.length (likes p))) members))
    (avg (List.map views members))
    (minDate (List.map publishedAt members))
    (maxDate (List.map publishedAt members)).

(** A row of [getAuthorStatistics] after [$project]. *)
Record AuthorStats : Type := mkAuthorStats {
  stat_id : ObjectId;
  stat_username : string;
  stat_fullName : string;
  stat_postCount : Z;
  stat_totalViews : Z;
  stat_totalLikes : Z;
  stat_avgViews : F;
  stat_daysSinceFirstPost : option F;
  stat_engagement : F
}.

(** [$lookup], [$unwind: '$authorInfo'] and [$project] of one group:
    no row when the author is not stored; the two quotients are the
    engine's, and so is what a quotient by zero does. *)
Definition authorRow (now : Date) (users : list User) (g : AuthorGroup)
  : Result (list AuthorStats) :=
  match findById user_id (grp_id g) users with
  | None => OK []
  | Some u =>
      match divide (grp_totalLikes g) (grp_totalViews g) with
      | Err e => Err e
      | OK engagement =>
          let row days :=
            mkAuthorStats (grp_id g) (username u)
              (firstName u ++ " " ++ lastName u)
              (grp_postCount g) (grp_totalViews g) (grp_totalLikes g)
              (round2 (grp_avgViews g)) days engagement in
          match grp_firstPost g with
          | None => OK [row None]
          | Some first =>
              match divide (now - first)%Z (1000 * 60 * 60 * 24)%Z with
              | Err e => Err e
              | OK days => OK [row (Some days)]
              end
          end
      end
  end.

(** The rows of the groups in order; the first error ends the
    pipeline. *)
Fixpoint authorRows (now : Date) (users : list User) (groups : list AuthorGroup)
  : Result (list AuthorStats) :=
  match groups with
  | [] => OK []
  | g :: rest =>
      match authorRow now users g with
      | Err e => Err e
      | OK rows =>
          match authorRows now users rest with
          | Err e => Err e
          | OK more => OK (rows ++ more)
          end
      end
  end.

(** [$sort: { totalViews: -1 }] *)
Definition byTotalViewsDesc (a b : AuthorStats) : bool :=
  (stat_totalViews b <=? stat_totalViews a)%Z.

(** [getAuthorStatistics]; [now] is what [new Date()] gives. *)
Definition getAuthorStatistics (now : Date) (posts : list Post) (users : list User)
  : Result (list AuthorStats) :=
  let live := List.filter published posts in
  match authorRows now users
          (List.map (authorGroup live) (List.nodup N.eq_dec (List.map author live)))
  with
  | Err e => Err e
  | OK rows => OK (sortBy byTotalViewsDesc rows)
  end.

End Numbers.

End AnalyticsService.

(* ================================================================== *)
(** ** config/database.ts *)
(* ================================================================== *)

Module DatabaseConnection.

(** The instance: its field [isConnected], and what it has asked of
    Mongoose so far: the number of times it registered its handlers
    (for the events [error] and [disconnected], and for SIGINT), which
    are never removed, and the number of times it closed the
    connection. *)
Record Connection : Type := mkConnection {
  isConnected : bool;
  handlers : nat;
  closed : nat
}.

(** The instance [getInstance] creates. *)
Definition initial : Connection := mkConnection false 0 0.

(** [connect]; [outcome] is what [mongoose.connect] does. A failure is
    caught and logged: the method raises nothing. *)
Definition connect (outcome : Result unit) (s : Connection) : Connection :=
  if isConnected s then s
  else match outcome with
       | OK _ => mkConnection true (S (handlers s)) (closed s)
       | Err _ => s
       end.

(** [disconnect]; [outcome] is what [mongoose.connection.close] does,
    whose failure is not caught. *)
Definition disconnect (outcome : Result unit) (s : Connection) : Result Connection :=
  if negb (isConnected s) then OK s
  else match outcome with
       | OK _ => OK (mkConnection false (handlers s) (S (closed s)))
       | Err e => Err e
       end.

(** The registered handlers of [error] and of [disconnected]: each
    sets [isConnected] to false. *)
Definition emit (s : Connection) : Connection :=
  match handlers s with
  | O => s
  | S _ => mkConnection false (handlers s) (closed s)
  end.

(** [getConnectionStatus]; [readyState] is
    [mongoose.connection.readyState]. *)
Definition getConnectionStatus (s : Connection) (readyState : Z) : bool :=
  (isConnected s && (readyState =? 1)%Z)%bool.

(** What happens to an instance: calls of its methods, each awaited
    before the next, and events of the connection. *)
Inductive Event : Type :=
| Connect (outcome : Result unit)
| Disconnect (outcome : Result unit)
| ErrorEvent
| DisconnectedEvent.

Definition step (s : Connection) (e : Event) : Connection :=
  match e with
  | Connect outcome => connect outcome s
  | Disconnect outcome =>
      match disconnect outcome s with
      | OK s' => s'
      | Err _ => s
      end
  | ErrorEvent => emit s
  | DisconnectedEvent => emit s
  end.

Definition run (events : list Event) (s : Connection) : Connection :=
  List.fold_left step events s.

End DatabaseConnection.

(* ================================================================== *)
(** ** Shapes of strings used to state the properties *)
(* ================================================================== *)

Module Shape.
Import JsString.

(** No two neighbours of [s] are in the class; [prev] says the
    character before [s] is. *)
Fixpoint singleRuns (cls : ascii -> bool) (prev : bool) (s : string) : bool :=
  match s with
  | EmptyString => true
  | String c t =>
      if cls c then (negb prev && singleRuns cls true t)%bool
      else singleRuns cls false t
  end.

(** The characters a slug is made of: [[a-z0-9-]]. *)
Definition slugChar (c : ascii) : bool := (isLower c || isDigit c || isHyphen c)%bool.

(** What the two slug functions compute before their final [trim],
    over the class [keep] their first replacement keeps. *)
Definition slugPipeline (keep : ascii -> bool) (title : string) : string :=
  replaceRuns isHyphen "-"
    (replaceRuns isSpace "-"
       (removeAll (fun c => negb (keep c)) (toLowerCase title))).

(** A run of characters outside the class: a word when the class is
    the white space. *)
Definition wordRun (r : bool * string) : bool := negb (fst r).


Definition tab : string := String (ascii_of_N 9) EmptyString.

(** The validator of the [slug] path: [/^[a-z0-9-]+$/.test(slug)]. *)
Definition slugPattern (s : string) : bool :=
  (truthy s && allChars slugChar s)%bool.

(** No text of the form [<...>] with a non-empty inside starts in [s]:
    at every [<] the next character is [>] or no [>] follows. *)
Fixpoint noTag (s : string) : bool :=
  match s with
  | EmptyString => true
  | String c t =>
      (negb (PostModel.isLt c && PostModel.tagOpens t) && noTag t)%bool
  end.

(** The criteria of a search without the ones [searchPosts] takes as
    absent: an empty text, an empty list, an empty author name, a
    minimum of zero views. *)
Definition dropFalsy (q : SearchService.SearchQuery) : SearchService.SearchQuery :=
  SearchService.mkSearchQuery
    (match SearchService.q_text q with
     | Some t => if truthy t then Some t else None
     | None => None
     end)
    (match SearchService.q_categories q with
     | Some (c :: cs) => Some (c :: cs)
     | _ => None
     end)
    (match SearchService.q_tags q with
     | Some (t :: ts) => Some (t :: ts)
     | _ => None
     end)
    (match SearchService.q_author q with
     | Some a => if truthy a then Some a else None
     | None => None
     end)
    (SearchService.q_dateRange q)
    (match SearchService.q_minViews q with
     | Some m => if (m =? 0)%Z then None else Some m
     | None => None
     end)
    (SearchService.q_hasImage q).

(** A search by categories only. *)
Definition byCategories (cats : list string) : SearchService.SearchQuery :=
  SearchService.mkSearchQuery None (Some cats) None None None None None.

Definition startsWith (p : ascii -> bool) (s : string) : bool :=
  match s with
  | EmptyString => false
  | String c _ => p c
  end.

Fixpoint endsWith (p : ascii -> bool) (s : string) : bool :=
  match s with
  | EmptyString => false
  | String c EmptyString => p c
  | String _ t => endsWith p t
  end.

(** The page numbers 1, ..., n. *)
Definition pageNumbers (n : nat) : list positive :=
  List.map Pos.of_succ_nat (List.seq 0 n).

(** The options of [getPostsByCategory] with another page. *)
Definition onPage (k : positive) (o : PostService.CategoryOptions)
  : PostService.CategoryOptions :=
  PostService.mkCategoryOptions (Some k) (PostService.opt_limit o)
    (PostService.opt_sortBy o) (PostService.opt_sortOrder o).

(** The posts of a page, none for a failed call. *)
Definition postsOfPage (r : Result PostService.PostPage) : list Store.Post :=
  match r with
  | OK pg => List.map Populate.row_post (PostService.page_posts pg)
  | Err _ => []
  end.

(** The options of [getUsers] with another page. *)
Definition onUsersPage (k : positive) (o : UserService.UsersOptions)
  : UserService.UsersOptions :=
  UserService.mkUsersOptions (Some k) (UserService.users_limit o)
    (UserService.users_role o) (UserService.users_isActive o)
    (UserService.users_search o).

(** The users of a page, none for a failed call. *)
Definition usersOfPage (r : Result UserService.UsersPage) : list Store.User :=
  match r with
  | OK pg => List.map UserService.row_user (UserService.page_users pg)
  | Err _ => []
  end.

(** The sum of a numeric field over a collection. *)
Definition total {A : Type} (f : A -> Z) (l : list A) : Z :=
  List.fold_right (fun d acc => (f d + acc)%Z) 0%Z l.

(** The unique keys of the users collection: no two users share an
    [_id], an email or a username. *)
Definition uniqueKeys (users : list Store.User) : Prop :=
  NoDup (List.map Store.user_id users)
  /\ NoDup (List.map Store.email users)
  /\ NoDup (List.map Store.username users).

Section Rows.
Variable F : Type.
Variable round2 : F -> F.
Variable divide : Z -> Z -> Result F.

(** What a row of [getAuthorStatistics] says of its group and of the
    stored author. *)
Definition rowOf (users : list Store.User) (g : AnalyticsService.AuthorGroup F)
           (r : AnalyticsService.AuthorStats F) : Prop :=
  exists u,
    Store.findById Store.user_id (AnalyticsService.grp_id F g) users = Some u
    /\ AnalyticsService.stat_id F r = AnalyticsService.grp_id F g
    /\ AnalyticsService.stat_username F r = Store.username u
    /\ AnalyticsService.stat_fullName F r
       = (Store.firstName u ++ " " ++ Store.lastName u)%string
    /\ AnalyticsService.stat_postCount F r = AnalyticsService.grp_postCount F g
    /\ AnalyticsService.stat_totalViews F r = AnalyticsService.grp_totalViews F g
    /\ AnalyticsService.stat_totalLikes F r = AnalyticsService.grp_totalLikes F g
    /\ AnalyticsService.stat_avgViews F r
       = round2 (AnalyticsService.grp_avgViews F g)
    /\ divide (AnalyticsService.grp_totalLikes F g)
              (AnalyticsService.grp_totalViews F g)
       = OK (AnalyticsService.stat_engagement F r).

(** A quotient by a non-zero divisor is a number, one by zero is the
    error [e]. *)
Definition dividesLike (e : Error) : Prop :=
  (forall a, divide a 0%Z = Err e)
  /\ (forall a b, b <> 0%Z -> exists x, divide a b = OK x).

End Rows.

(** The published posts of an author. *)
Definition publishedBy (posts : list Store.Post) (a : Store.ObjectId)
  : list Store.Post :=
  List.filter
    (fun p => (N.eqb (Store.author p) a
               && Store.PostStatus_eqb (Store.status p) Store.PUBLISHED)%bool)
    posts.

(** [n] times: a connection is made and an [error] event follows. *)
Fixpoint rounds (n : nat) : list DatabaseConnection.Event :=
  match n with
  | O => []
  | S k => DatabaseConnection.Connect (OK tt)
             :: DatabaseConnection.ErrorEvent :: rounds k
  end.

(** The calls of [connect] in a history that Mongoose let succeed. *)
Definition connects (events : list DatabaseConnection.Event) : nat :=
  List.length
    (List.filter
       (fun e => match e with
                 | DatabaseConnection.Connect (OK _) => true
                 | _ => false
                 end)
       events).

(** Every close and the open connection were paid for by a
    registration of the handlers. *)
Definition balanced (s : DatabaseConnection.Connection) : Prop :=
  DatabaseConnection.closed s
  + (if DatabaseConnection.isConnected s then 1 else 0)
  <= DatabaseConnection.handlers s.

(** "case-insensitive substring": [name] occurs in [s], case
    ignored. *)
Fixpoint prefix_spec (name s : string) : bool :=
  match name, s with
  | EmptyString, _ => true
  | String a n, String b t => (Ascii.eqb a b && prefix_spec n t)%bool
  | String _ _, EmptyString => false
  end.

Fixpoint occurs_spec (name s : string) : bool :=
  (prefix_spec name s
   || match s with
      | EmptyString => false
      | String _ t => occurs_spec name t
      end)%bool.

Definition substringMatch_spec (name s : string) : bool :=
  occurs_spec (toLowerCase name) (toLowerCase s).

(** "an author name that matches [a] stored user's firstName,
    lastName, or username" *)
Definition authorMatches_spec (name : string) (u : Store.User) : bool :=
  (substringMatch_spec name (Store.firstName u)
   || substringMatch_spec name (Store.lastName u)
   || substringMatch_spec name (Store.username u))%bool.

(** The options of [getPostsByCategory] with their defaults. *)
Definition pageOf (o : PostService.CategoryOptions) : positive :=
  match PostService.opt_page o with Some n => n | None => 1%positive end.

Definition limitOf (o : PostService.CategoryOptions) : positive :=
  match PostService.opt_limit o with Some n => n | None => 10%positive end.

Definition sortByOf (o : PostService.CategoryOptions) : PostService.SortBy :=
  match PostService.opt_sortBy o with
  | Some b => b
  | None => PostService.SortCreatedAt
  end.

Definition sortOrderOf (o : PostService.CategoryOptions) : PostService.SortOrder :=
  match PostService.opt_sortOrder o with
  | Some order => order
  | None => PostService.Desc
  end.

(** A list is in the order [getPostsByCategory] asks for. *)
Definition inCategoryOrder (o : PostService.CategoryOptions)
           (l : list Store.Post) : Prop :=
  StronglySorted
    (fun a b => PostService.categoryOrder (sortByOf o) (sortOrderOf o) a b = true) l.

(** A list of users is in the order [getUsers] asks for. *)
Definition newestFirstOrder (l : list Store.User) : Prop :=
  StronglySorted (fun a b => UserService.newestFirst a b = true) l.

End Shape.

(* ================================================================== *)
(** ** Sample collections *)
(* ================================================================== *)

Module Sample.
Import JsString Store.

(** [pattern] matches a prefix of [s]: a dot stands for any character
    but a line feed, every other character for itself. *)
Fixpoint matchesHere (pattern s : string) : bool :=
  match pattern, s with
  | EmptyString, _ => true
  | String a p, String b t =>
      ((if N.eqb (code a) 46 then negb (N.eqb (code b) 10) else Ascii.eqb a b)
       && matchesHere p t)%bool
  | String _ _, EmptyString => false
  end.

(** [pattern] matches somewhere in [hay]. *)
Fixpoint includes (pattern hay : string) : bool :=
  (matchesHere pattern hay
   || match hay with
      | EmptyString => false
      | String _ t => includes pattern t
      end)%bool.

Fixpoint hasChar (n : N) (s : string) : bool :=
  match s with
  | EmptyString => false
  | String c t => (N.eqb (code c) n || hasChar n t)%bool
  end.

(** The engine's [$regex] with the option [i] on the patterns of the
    samples: letters, digits and spaces stand for themselves, case
    ignored, and a dot for any character; a pattern with an opening
    parenthesis and no closing one is no regular expression. *)
Definition regexSample (pattern : string) : Result (string -> bool) :=
  if (hasChar 40 pattern && negb (hasChar 41 pattern))%bool
  then Err (Thrown "Regular expression is invalid: missing closing parenthesis")
  else OK (fun subject => includes (toLowerCase pattern) (toLowerCase subject)).

(** A collection without text index matches no text search. *)
Definition noTextScore (search : string) (p : Post) : option Z := None.

Definition id1 : string := "000000000000000000000001".
Definition id2 : string := "000000000000000000000002".
Definition id3 : string := "000000000000000000000003".
Definition id9 : string := "000000000000000000000009".

(** 2025-11-01T00:00:00Z *)
Definition t0 : Date := 1761955200000%Z.
Definition day : Date := 86400000%Z.

Definition user (id : ObjectId) (mail name first last : string) : User :=
  mkUser id mail name first last None "correct horse" [USER] None true None t0 t0.

Definition asif : User := user 1 "asif@example.com" "asif" "Asif" "Khan".
Definition john : User := user 2 "john@example.com" "john" "John" "Doe".
Definition users : list User := [asif; john].

Definition article (id author : ObjectId) (name : string) (state : PostStatus)
           (published : option Date) (seen : Z) (liked : list ObjectId)
           (cats labels : list string) : Post :=
  mkPost id name (Slug.generateSlug name) "Some words." "Some words...." author
         cats labels None state published 1 seen liked t0 t0.

Definition mongoose101 : Post :=
  article 1 1 "Mongoose 101" PUBLISHED (Some (t0 - 3 * day)%Z) 100 [1; 2; 3; 4]%N
          ["Technology"] ["mongoose"].
Definition mongoTips : Post :=
  article 2 2 "MongoDB Tips" PUBLISHED (Some (t0 - 1 * day)%Z) 80
          [1; 2; 3; 4; 5; 6; 7; 8; 9; 10]%N ["Technology"; "Database"] ["mongodb"].
Definition draftNotes : Post :=
  article 3 1 "Notes" DRAFT None 0 [] ["Technology"] [].
(** A post scheduled for the day after [t0]. *)
Definition scheduled : Post :=
  article 4 1 "Coming soon" PUBLISHED (Some (t0 + 1 * day)%Z) 5 [] ["News"] [].
Definition posts : list Post := [mongoose101; mongoTips; draftNotes].

Definition remark (id post author : ObjectId) (parent : option ObjectId)
           (approved : bool) (at_ : Date) : Comment :=
  mkComment id post author "Nice." parent approved 0 at_ at_.

Definition comments : list Comment :=
  [remark 1 1 2 None true (t0 + 1)%Z;
   remark 2 1 2 None false (t0 + 2)%Z;
   remark 3 1 1 (Some 1%N) true (t0 + 3)%Z;
   remark 4 1 2 (Some 1%N) false (t0 + 4)%Z;
   remark 5 1 2 (Some 2%N) true (t0 + 5)%Z;
   remark 6 2 2 None true (t0 + 6)%Z;
   remark 7 2 2 None true (t0 + 7)%Z;
   remark 8 2 2 None true (t0 + 8)%Z;
   remark 9 2 2 None true (t0 + 9)%Z].

(** An engine number kept as the quotient of two integers. *)
Definition Quotient : Type := (Z * Z)%type.

(** [$avg]: the sum over the count. *)
Definition meanOf (l : list Z) : Quotient :=
  (AnalyticsService.sumZ l, Z.of_nat (List.length l)).

(** [$round] on a quotient that is kept exact. *)
Definition unrounded (x : Quotient) : Quotient := x.

(** [$divide]: the engine raises an error for a zero divisor. *)
Definition quotientOf (a b : Z) : Result Quotient :=
  if (b =? 0)%Z then Err (Thrown "can't $divide by zero") else OK (a, b).

Definition byAuthor (name : string) : SearchService.SearchQuery :=
  SearchService.mkSearchQuery None None None (Some name) None None None.

End Sample.

(* ================================================================== *)
(** * Properties *)
(* ================================================================== *)

(** ** Strings *)

Module JsStringFacts.
Import JsString Shape.

Lemma isHyphen_eq c : isHyphen c = true -> c = "-"%char.
Proof.
  unfold isHyphen, code. intros H. apply N.eqb_eq in H.
  rewrite <- (ascii_N_embedding c), H. reflexivity.
Qed.

Lemma allChars_impl (p q : ascii -> bool) s :
  (forall c, p c = true -> q c = true) ->
  allChars p s = true -> allChars q s = true.
Proof.
  intros Hpq. induction s as [|c t IH]; simpl; [reflexivity|].
  intros H. apply andb_true_iff in H as [Hc Ht].
  now rewrite (Hpq _ Hc), IH.
Qed.

(** Removing a class leaves no character of it, and changes nothing
    when there is none. *)
Lemma removeAll_allChars cls s :
  allChars (fun c => negb (cls c)) (removeAll cls s) = true.
Proof.
  induction s as [|c t IH]; simpl; [reflexivity|].
  destruct (cls c) eqn:E; simpl; [assumption | now rewrite E].
Qed.

Lemma removeAll_id cls s :
  allChars (fun c => negb (cls c)) s = true -> removeAll cls s = s.
Proof.
  induction s as [|c t IH]; simpl; [reflexivity|].
  intros H. apply andb_true_iff in H as [Hc Ht].
  apply negb_true_iff in Hc. now rewrite Hc, IH.
Qed.

Lemma replaceRunsFrom_keeps cls (q : ascii -> bool) b s :
  q "-"%char = true ->
  allChars q s = true ->
  allChars q (replaceRunsFrom cls "-" b s) = true.
Proof.
  intros Hq. revert b.
  induction s as [|c t IH]; intros b; simpl; [reflexivity|].
  intros H. apply andb_true_iff in H as [Hc Ht].
  destruct (cls c); [destruct b|]; simpl; rewrite ?Hq, ?Hc; simpl; now apply IH.
Qed.

Lemma replaceRunsFrom_id cls rep b s :
  allChars (fun c => negb (cls c)) s = true ->
  replaceRunsFrom cls rep b s = s.
Proof.
  revert b. induction s as [|c t IH]; intros b; simpl; [reflexivity|].
  intros H. apply andb_true_iff in H as [Hc Ht].
  apply negb_true_iff in Hc. now rewrite Hc, IH.
Qed.

Lemma replaceRunsFrom_single cls b s :
  cls "-"%char = true ->
  singleRuns cls b (replaceRunsFrom cls "-" b s) = true.
Proof.
  intros Hh. revert b.
  induction s as [|c t IH]; intros b; simpl; [reflexivity|].
  destruct (cls c) eqn:E.
  - destruct b; [apply IH|]. simpl. rewrite Hh. simpl. apply IH.
  - simpl. rewrite E. apply IH.
Qed.

Lemma replaceRunsFrom_single_id cls b s :
  (forall c, cls c = true -> c = "-"%char) ->
  singleRuns cls b s = true ->
  replaceRunsFrom cls "-" b s = s.
Proof.
  intros Hh. revert b.
  induction s as [|c t IH]; intros b; simpl; [reflexivity|].
  destruct (cls c) eqn:E.
  - intros H. apply andb_true_iff in H as [Hb Ht].
    apply negb_true_iff in Hb. subst b. simpl.
    now rewrite (IH _ Ht), (Hh _ E).
  - intros H. now rewrite (IH _ H).
Qed.

Lemma trimStart_id s :
  allChars (fun c => negb (isSpace c)) s = true -> trimStart s = s.
Proof.
  destruct s as [|c t]; simpl; [reflexivity|].
  intros H. apply andb_true_iff in H as [Hc _].
  apply negb_true_iff in Hc. now rewrite Hc.
Qed.

Lemma trimEnd_id s :
  allChars (fun c => negb (isSpace c)) s = true -> trimEnd s = s.
Proof.
  induction s as [|c t IH]; simpl; [reflexivity|].
  intros H. apply andb_true_iff in H as [Hc Ht].
  apply negb_true_iff in Hc. rewrite (IH Ht), Hc.
  now destruct t.
Qed.

Lemma trim_id s :
  allChars (fun c => negb (isSpace c)) s = true -> trim s = s.
Proof.
  intros H. unfold trim. rewrite (trimStart_id _ H). now apply trimEnd_id.
Qed.

Ltac char_ranges :=
  repeat match goal with
         | H : (_ || _)%bool = true |- _ => apply orb_true_iff in H; destruct H as [H|H]
         | H : (_ && _)%bool = true |- _ => apply andb_true_iff in H; destruct H
         | H : negb _ = true |- _ => clear H
         | H : N.leb _ _ = true |- _ => apply N.leb_le in H
         | H : N.eqb _ _ = true |- _ => apply N.eqb_eq in H
         end; lia.

Lemma toLowerChar_fixed c : slugChar c = true -> toLowerChar c = c.
Proof.
  unfold slugChar, toLowerChar, isLower, isDigit, isHyphen, isUpper, between.
  intros H.
  match goal with |- (if ?b then _ else _) = _ => destruct b eqn:E end;
    [|reflexivity].
  exfalso. char_ranges.
Qed.

Lemma toLowerCase_fixed s : allChars slugChar s = true -> toLowerCase s = s.
Proof.
  induction s as [|c t IH]; simpl; [reflexivity|].
  intros H. apply andb_true_iff in H as [Hc Ht].
  now rewrite (toLowerChar_fixed _ Hc), IH.
Qed.

Lemma slugChar_not_space c : slugChar c = true -> isSpace c = false.
Proof.
  unfold slugChar, isSpace, isLower, isDigit, isHyphen, between.
  intros H.
  match goal with |- ?b = false => destruct b eqn:E end; [|reflexivity].
  exfalso. char_ranges.
Qed.

Lemma slugChars_no_space s :
  allChars slugChar s = true -> allChars (fun c => negb (isSpace c)) s = true.
Proof.
  apply allChars_impl. intros c Hc. now rewrite (slugChar_not_space _ Hc).
Qed.

End JsStringFacts.

(** ** Slugs *)

Module SlugFacts.
Import JsString Shape JsStringFacts Slug.

Lemma keptByModel_cases c : keptByModel c = true -> (slugChar c || isSpace c)%bool = true.
Proof.
  unfold keptByModel, slugChar.
  destruct (isLower c), (isDigit c), (isSpace c), (isHyphen c); simpl; congruence.
Qed.

Lemma keptByService_cases c :
  keptByService c = true -> (slugChar c || isSpace c)%bool = true.
Proof.
  unfold keptByService, slugChar, isBlank, isSpace.
  destruct (isLower c), (isDigit c), (N.eqb (code c) 32), (isHyphen c),
    (between 9 13 c); simpl; congruence.
Qed.

Lemma slugChar_keptByModel c : slugChar c = true -> keptByModel c = true.
Proof.
  unfold slugChar, keptByModel.
  destruct (isLower c), (isDigit c), (isSpace c), (isHyphen c); simpl; congruence.
Qed.

Lemma slugChar_keptByService c : slugChar c = true -> keptByService c = true.
Proof.
  unfold slugChar, keptByService.
  destruct (isLower c), (isDigit c), (isBlank c), (isHyphen c); simpl; congruence.
Qed.

Section Pipeline.
(** The two slug functions differ in the class [keep] their first
    replacement keeps. *)
Variable keep : ascii -> bool.
Hypothesis keep_cases :
  forall c, keep c = true -> (slugChar c || isSpace c)%bool = true.

Let body := slugPipeline keep.

Lemma kept_allChars title :
  allChars keep (removeAll (fun c => negb (keep c)) (toLowerCase title)) = true.
Proof.
  eapply allChars_impl; [|apply removeAll_allChars].
  intros c Hc. simpl in Hc. now apply negb_true_iff, negb_false_iff in Hc.
Qed.

Lemma spaces_to_hyphens b s :
  allChars keep s = true ->
  allChars slugChar (replaceRunsFrom isSpace "-" b s) = true.
Proof.
  revert b. induction s as [|c t IH]; intros b; simpl; [reflexivity|].
  intros H. apply andb_true_iff in H as [Hc Ht].
  destruct (isSpace c) eqn:E.
  - destruct b; simpl; now rewrite ?IH.
  - simpl. pose proof (keep_cases _ Hc) as Hk.
    rewrite E, orb_false_r in Hk. now rewrite Hk, IH.
Qed.

Lemma body_slugChars title : allChars slugChar (body title) = true.
Proof.
  unfold body, slugPipeline, replaceRuns.
  apply replaceRunsFrom_keeps; [reflexivity|].
  apply spaces_to_hyphens, kept_allChars.
Qed.

Lemma body_single title : singleRuns isHyphen false (body title) = true.
Proof. unfold body, slugPipeline, replaceRuns. now apply replaceRunsFrom_single. Qed.

Lemma trim_body title : trim (body title) = body title.
Proof. apply trim_id, slugChars_no_space, body_slugChars. Qed.

Hypothesis keep_slugChar : forall c, slugChar c = true -> keep c = true.

(** The body changes nothing in a string of slug characters with no
    two hyphens in a row. *)
Lemma body_fixed s :
  allChars slugChar s = true ->
  singleRuns isHyphen false s = true ->
  body s = s.
Proof.
  intros Hs Hr. unfold body, slugPipeline, replaceRuns.
  rewrite (toLowerCase_fixed _ Hs).
  rewrite removeAll_id.
  2:{ eapply allChars_impl; [|exact Hs]. intros c Hc. simpl.
      now rewrite (keep_slugChar _ Hc). }
  rewrite (replaceRunsFrom_id isSpace); [|now apply slugChars_no_space].
  apply replaceRunsFrom_single_id; [apply isHyphen_eq | exact Hr].
Qed.

Lemma body_idempotent title : body (body title) = body title.
Proof. apply body_fixed; [apply body_slugChars | apply body_single]. Qed.

End Pipeline.

Lemma generateSlug_body title : generateSlug title = slugPipeline keptByModel title.
Proof. apply (trim_body keptByModel keptByModel_cases). Qed.

Lemma generateSlugFromTitle_body title :
  generateSlugFromTitle title = slugPipeline keptByService title.
Proof. apply (trim_body keptByService keptByService_cases). Qed.

End SlugFacts.

(** ** The slug functions against the reference definition *)

Module SlugRefinement.
Import JsString Shape JsStringFacts Slug SlugFacts.


(** The first run of a non-empty string starts with its first
    character and carries that character's tag. *)
Lemma runsOf_cons cls c t :
  exists r rest, runsOf cls (String c t) = (cls c, String c r) :: rest.
Proof.
  simpl. destruct (runsOf cls t) as [|[b r] rest]; [now eexists _, _|].
  destruct (Bool.eqb b (cls c)) eqn:E; [|now eexists _, _].
  apply eqb_prop in E. subst b. now eexists _, _.
Qed.











End SlugRefinement.

(** ** Read time *)

Module ReadTimeFacts.
Import JsString Shape Slug ReadTime.

(** The words of a string are its pieces that are not empty. *)
Lemma splitRunsFrom_head cls b c t :
  cls c = false ->
  exists p ps, splitRunsFrom cls b (String c t) = String c p :: ps.
Proof.
  intros E. simpl. rewrite E.
  destruct (splitRunsFrom cls false t); now eexists _, _.
Qed.

Lemma splitRunsFrom_nonempty cls b s : splitRunsFrom cls b s <> [].
Proof.
  revert b. induction s as [|c t IH]; intros b; simpl; [discriminate|].
  destruct (cls c).
  - destruct b; [apply IH | discriminate].
  - destruct (splitRunsFrom cls false t); discriminate.
Qed.

Lemma words_cons cls c t :
  List.length (List.filter wordRun (runsOf cls (String c t))) =
  ((if (negb (cls c) && negb (startsWith (fun x => negb (cls x)) t))%bool
    then 1 else 0)
   + List.length (List.filter wordRun (runsOf cls t)))%nat.
Proof.
  destruct t as [|c' t'].
  - simpl. unfold wordRun. simpl. now destruct (cls c).
  - destruct (SlugRefinement.runsOf_cons cls c' t') as (r & rest & Hr).
    change (runsOf cls (String c (String c' t')))
      with (match runsOf cls (String c' t') with
            | (b, r) :: rest =>
                if Bool.eqb b (cls c) then (b, String c r) :: rest
                else (cls c, String c EmptyString) :: (b, r) :: rest
            | [] => [(cls c, String c EmptyString)]
            end).
    rewrite Hr. simpl startsWith.
    destruct (cls c), (cls c'); simpl; unfold wordRun; simpl; reflexivity.
Qed.

Lemma pieces_words cls b s :
  List.length (List.filter truthy (splitRunsFrom cls b s)) =
  List.length (List.filter wordRun (runsOf cls s)).
Proof.
  revert b. induction s as [|c t IH]; intros b; [reflexivity|].
  rewrite words_cons. simpl splitRunsFrom.
  destruct (cls c) eqn:E; simpl negb; simpl andb.
  - destruct b; simpl; apply IH.
  - specialize (IH false).
    destruct t as [|c' t'].
    + reflexivity.
    + simpl startsWith. destruct (cls c') eqn:E'.
      * simpl in IH |- *. rewrite E' in IH |- *. simpl in IH |- *.
        now rewrite IH.
      * destruct (splitRunsFrom_head cls false c' t' E') as (q & qs & Hq).
        rewrite Hq in IH |- *. simpl in IH |- *. exact IH.
Qed.

(** With a word at both ends no piece is empty. *)
Lemma pieces_truthy cls b s :
  endsWith (fun x => negb (cls x)) s = true ->
  b = true \/ startsWith (fun x => negb (cls x)) s = true ->
  List.forallb truthy (splitRunsFrom cls b s) = true.
Proof.
  revert b. induction s as [|c t IH]; intros b He Hb; [discriminate|].
  destruct t as [|c' t'].
  - simpl in He. apply negb_true_iff in He. simpl. now rewrite He.
  - change (endsWith (fun x => negb (cls x)) (String c (String c' t')))
      with (endsWith (fun x => negb (cls x)) (String c' t')) in He.
    simpl startsWith in Hb.
    change (splitRunsFrom cls b (String c (String c' t')))
      with (if cls c then
              if b then splitRunsFrom cls true (String c' t')
              else EmptyString :: splitRunsFrom cls true (String c' t')
            else
              match splitRunsFrom cls false (String c' t') with
              | p :: ps => String c p :: ps
              | [] => [String c EmptyString]
              end).
    destruct (cls c) eqn:E.
    + destruct Hb as [-> | Hb]; [|discriminate]. apply IH; auto.
    + destruct (cls c') eqn:E'.
      * pose proof (IH true He (or_introl eq_refl)) as H.
        simpl in H |- *. rewrite E' in H |- *. exact H.
      * assert (Hs : startsWith (fun x => negb (cls x)) (String c' t') = true)
          by (simpl; now rewrite E').
        pose proof (IH false He (or_intror Hs)) as H.
        destruct (splitRunsFrom cls false (String c' t')) as [|q qs]; [reflexivity|].
        simpl in H |- *. now apply andb_true_iff in H as [_ ->].
Qed.

Lemma filter_all {A : Type} (f : A -> bool) l :
  List.forallb f l = true -> List.filter f l = l.
Proof.
  induction l as [|x l IH]; simpl; [reflexivity|].
  intros H. apply andb_true_iff in H as [-> H]. now rewrite IH.
Qed.

(** A content that starts and ends with a word is split into its
    words. *)
Lemma wordCount_trimmed content :
  startsWith (fun x => negb (isSpace x)) content = true ->
  endsWith (fun x => negb (isSpace x)) content = true ->
  Z.of_nat (List.length (splitRuns isSpace content)) = wordCount_spec content.
Proof.
  intros Hs He. unfold wordCount_spec, splitRuns.
  fold wordRun. rewrite <- (pieces_words isSpace false).
  rewrite filter_all; [reflexivity|]. apply pieces_truthy; auto.
Qed.

Lemma ceilDiv_pos a : (0 < a)%Z -> (1 <= ceilDiv a 200)%Z.
Proof.
  intros H. unfold ceilDiv.
  assert ((- a) / 200 < 0)%Z by (apply Z.div_lt_upper_bound; lia). lia.
Qed.

(** On such a content the method computes the reference read time. *)
Lemma calculateReadTime_trimmed content :
  startsWith (fun x => negb (isSpace x)) content = true ->
  endsWith (fun x => negb (isSpace x)) content = true ->
  calculateReadTime content = readTime_spec content.
Proof.
  intros Hs He. unfold calculateReadTime, readTime_spec, wordsPerMinute.
  rewrite (wordCount_trimmed _ Hs He).
  assert (Hw : (0 < wordCount_spec content)%Z).
  { rewrite <- (wordCount_trimmed _ Hs He).
    pose proof (splitRunsFrom_nonempty isSpace false content).
    unfold splitRuns. destruct (splitRunsFrom isSpace false content); simpl; [congruence | lia]. }
  pose proof (ceilDiv_pos _ Hw). unfold orOne.
  destruct (Z.eqb_spec (ceilDiv (wordCount_spec content) 200) 0); lia.
Qed.

End ReadTimeFacts.

(** ** Collections: sort and limit *)

Module StoreFacts.
Import Store.

Section Sorting.
Context {A : Type}.
Variable before : A -> A -> bool.

Lemma insertSorted_perm x l : Permutation (insertSorted before x l) (x :: l).
Proof.
  induction l as [|y l IH]; simpl; [apply Permutation_refl|].
  destruct (before x y); [apply Permutation_refl|].
  eapply Permutation_trans; [apply perm_skip, IH | apply perm_swap].
Qed.

Lemma sortBy_perm l : Permutation (sortBy before l) l.
Proof.
  induction l as [|x l IH]; simpl; [apply perm_nil|].
  eapply Permutation_trans; [apply insertSorted_perm | now apply perm_skip].
Qed.

Lemma sortBy_In x l : In x (sortBy before l) <-> In x l.
Proof.
  split; apply Permutation_in;
    [apply sortBy_perm | apply Permutation_sym, sortBy_perm].
Qed.

Lemma sortBy_length l : List.length (sortBy before l) = List.length l.
Proof. apply Permutation_length, sortBy_perm. Qed.

Hypothesis before_total : forall a b, before a b = true \/ before b a = true.
Hypothesis before_trans :
  forall a b c, before a b = true -> before b c = true -> before a c = true.

Let ordered (a b : A) : Prop := before a b = true.

Lemma insertSorted_sorted x l :
  StronglySorted ordered l -> StronglySorted ordered (insertSorted before x l).
Proof.
  induction 1 as [|y l Hs IH Hy]; simpl.
  - constructor; [constructor | constructor].
  - destruct (before x y) eqn:E.
    + constructor; [now constructor|].
      constructor; [exact E|].
      eapply Forall_impl; [|exact Hy]. intros z Hz.
      now apply (before_trans x y z).
    + constructor; [exact IH|].
      eapply Permutation_Forall;
        [apply Permutation_sym, insertSorted_perm|].
      constructor; [|exact Hy].
      destruct (before_total x y) as [H|H]; [congruence | exact H].
Qed.

Lemma sortBy_sorted l : StronglySorted ordered (sortBy before l).
Proof.
  induction l as [|x l IH]; simpl; [constructor|].
  now apply insertSorted_sorted.
Qed.

(** In a sorted list what a prefix leaves out stands after all of
    the prefix. *)
Lemma sorted_firstn n l x y :
  StronglySorted ordered l ->
  In x (List.firstn n l) -> In y (List.skipn n l) -> before x y = true.
Proof.
  intros Hs. revert n. induction Hs as [|z l Hs IH Hz]; intros n Hx Hy.
  - now destruct n.
  - destruct n as [|n]; [contradiction|]. simpl in Hx, Hy.
    destruct Hx as [-> | Hx]; [|now apply (IH n)].
    rewrite Forall_forall in Hz. apply Hz.
    rewrite <- (List.firstn_skipn n l). apply in_or_app. now right.
Qed.

Lemma sorted_firstn_sorted n l :
  StronglySorted ordered l -> StronglySorted ordered (List.firstn n l).
Proof.
  intros Hs. revert n. induction Hs as [|z l Hs IH Hz]; intros n.
  - destruct n; constructor.
  - destruct n as [|n]; simpl; constructor; [apply IH|].
    rewrite Forall_forall in Hz |- *. intros y Hy. apply Hz.
    rewrite <- (List.firstn_skipn n l). apply in_or_app. now left.
Qed.

End Sorting.

Lemma firstn_In {A : Type} n (l : list A) x : In x (List.firstn n l) -> In x l.
Proof.
  intros H. rewrite <- (List.firstn_skipn n l). apply in_or_app. now left.
Qed.

Lemma limit_In {A : Type} n (l : list A) x : In x (limit n l) -> In x l.
Proof. destruct n; [easy | apply firstn_In]. Qed.

Lemma memId_In id ids : memId id ids = true <-> In id ids.
Proof.
  unfold memId. rewrite existsb_exists. split.
  - intros (y & Hy & E). apply N.eqb_eq in E. now subst.
  - intros H. exists id. split; [exact H | apply N.eqb_refl].
Qed.

Lemma findById_none {A : Type} (key : A -> ObjectId) id l :
  (forall d, In d l -> key d <> id) -> findById key id l = None.
Proof.
  intros H. unfold findById.
  destruct (List.find _ l) as [d|] eqn:E; [|reflexivity].
  apply find_some in E as [Hd Hk]. apply N.eqb_eq in Hk.
  now destruct (H d Hd).
Qed.

Lemma findById_some {A : Type} (key : A -> ObjectId) id l d :
  findById key id l = Some d -> In d l /\ key d = id.
Proof.
  unfold findById. intros E. apply find_some in E as [Hd Hk].
  apply N.eqb_eq in Hk. now split.
Qed.

End StoreFacts.

(** ** The pre-save hook and the publication date *)

Module PostFacts.
Import JsString Store PostModel.

(** The hook leaves a publication date that is set as it is. *)
Lemma preSave_keeps_publishedAt now d t :
  publishedAt (fields d) = Some t -> publishedAt (preSave now d) = Some t.
Proof.
  intros H. unfold preSave.
  repeat match goal with
         | |- context [if ?b then _ else _] => destruct b eqn:?
         end; simpl in *; rewrite ?H in *; simpl in *;
    try reflexivity; try assumption;
    repeat match goal with
           | E : (_ && _)%bool = true |- _ => apply andb_true_iff in E as [? ?]
           end; try discriminate.
Qed.

(** It sets the date when the status was modified to published and no
    date is set. *)
Lemma preSave_sets_publishedAt now d :
  isModified "status" d = true ->
  status (fields d) = PUBLISHED ->
  publishedAt (fields d) = None ->
  publishedAt (preSave now d) = Some now.
Proof.
  intros Hm Hs Hp. unfold preSave. rewrite Hm.
  repeat match goal with
         | |- context [if ?b then _ else _] => destruct b eqn:?
         end; simpl in *; rewrite ?Hs, ?Hp in *; simpl in *;
    try reflexivity; try discriminate.
Qed.

(** The view counter's write leaves every publication date as it is. *)
Lemma incrementViews_keeps_publishedAt now posts id :
  List.map publishedAt (PostService.incrementViews now posts id) =
  List.map publishedAt posts.
Proof.
  unfold PostService.incrementViews.
  induction posts as [|p l IH]; simpl; [reflexivity|].
  destruct (N.eqb (post_id p) id); simpl; [reflexivity | now rewrite IH].
Qed.

(** [publishPost] writes the current time whatever date was set. *)
Lemma publishPost_sets_now now posts postId id p :
  castObjectId postId = Some id ->
  findById post_id id posts = Some p ->
  exists posts',
    BlogService.publishPost now posts postId = OK (BlogService.publishUpdate now p, posts')
    /\ publishedAt (BlogService.publishUpdate now p) = Some now
    /\ findById post_id id posts' = Some (BlogService.publishUpdate now p).
Proof.
  intros Hc Hf. unfold BlogService.publishPost. rewrite Hc, Hf.
  eexists. split; [reflexivity|]. split; [reflexivity|].
  unfold findById in *. induction posts as [|q l IH]; [discriminate|].
  simpl in Hf |- *. destruct (N.eqb (post_id q) id) eqn:E.
  - injection Hf as ->. simpl. now rewrite E.
  - simpl. rewrite E. now apply IH.
Qed.

End PostFacts.

(** ** Search *)

Module SearchFacts.
Import JsString Store Populate SearchService StoreFacts.

Ltac split_andb :=
  repeat match goal with
         | H : (_ && _)%bool = true |- _ => apply andb_true_iff in H as [H ?]
         end.

Section Engine.
Variable regex : string -> Result (string -> bool).
Variable textScore : string -> Post -> option Z.

Lemma findAuthorsByName_compiled users name test :
  regex name = OK test ->
  findAuthorsByName regex users name
  = OK (List.map user_id
          (List.filter
             (fun u => (test (firstName u) || test (lastName u)
                        || test (username u))%bool)
             users)).
Proof. intros H. unfold findAuthorsByName. now rewrite H. Qed.

Lemma findAuthorsByName_In users name test ids id :
  regex name = OK test ->
  findAuthorsByName regex users name = OK ids ->
  (In id ids <->
   exists u, In u users /\ user_id u = id /\
             (test (firstName u) = true
              \/ test (lastName u) = true
              \/ test (username u) = true)).
Proof.
  intros Hc H. rewrite (findAuthorsByName_compiled users name test Hc) in H.
  assert (E : ids = List.map user_id
                      (List.filter
                         (fun u => (test (firstName u) || test (lastName u)
                                    || test (username u))%bool)
                         users)) by congruence.
  rewrite E, in_map_iff. split.
  - intros (u & Hid & Hu). apply filter_In in Hu as [Hu Hm].
    exists u. repeat split; auto.
    apply orb_true_iff in Hm as [Hm|Hm]; [|auto].
    apply orb_true_iff in Hm as [Hm|Hm]; auto.
  - intros (u & Hu & Hid & Hm). exists u. split; [exact Hid|].
    apply filter_In. split; [exact Hu|].
    destruct Hm as [-> | [-> | ->]]; rewrite ?orb_true_r; reflexivity.
Qed.

Lemma findAuthorsByName_none users name test :
  regex name = OK test ->
  (forall u, In u users ->
             test (firstName u) = false
             /\ test (lastName u) = false
             /\ test (username u) = false) ->
  findAuthorsByName regex users name = OK [].
Proof.
  intros Hc H. rewrite (findAuthorsByName_compiled users name test Hc).
  do 2 f_equal.
  induction users as [|u l IH]; [reflexivity|]. simpl.
  destruct (H u (or_introl eq_refl)) as (-> & -> & ->). simpl.
  apply IH. intros v Hv. apply H. now right.
Qed.

(** The [author] path of the filter for a name that is given and
    truthy. *)
Lemma authorCriterion_name users q name :
  q_author q = Some name -> name <> EmptyString ->
  authorCriterion regex users q
  = match findAuthorsByName regex users name with
    | OK ids => OK (Some ids)
    | Err e => Err e
    end.
Proof.
  intros Hq Hne. unfold authorCriterion. rewrite Hq.
  destruct name; [congruence | reflexivity].
Qed.

Lemma authorCriterion_absent users q :
  q_author q = None \/ q_author q = Some EmptyString ->
  authorCriterion regex users q = OK None.
Proof. intros [H|H]; unfold authorCriterion; now rewrite H. Qed.

(** A post that passes the filter is written by one of the authors
    the filter holds. *)
Lemma searchFilter_author ids q p :
  searchFilter textScore (Some ids) q p = true -> In (author p) ids.
Proof.
  intros H. unfold searchFilter in H. split_andb. now apply memId_In.
Qed.

Lemma searchFilter_published authors q p :
  searchFilter textScore authors q p = true -> status p = PUBLISHED.
Proof.
  intros H. unfold searchFilter in H. split_andb.
  now destruct (status p).
Qed.

(** What a successful search returns. *)
Lemma searchPosts_ok posts users q rows :
  searchPosts regex textScore posts users q = OK rows ->
  exists authors,
    authorCriterion regex users q = OK authors
    /\ List.map row_post rows
       = limit 50
           (sortBy (searchOrder textScore q)
              (List.filter (searchFilter textScore authors q) posts))
    /\ forall r, In r rows -> row_select r = Without ["content"].
Proof.
  unfold searchPosts.
  destruct (authorCriterion regex users q) as [authors|e]; [|discriminate].
  intros H. exists authors. split; [reflexivity|].
  apply (f_equal (fun x => match x with OK v => v | Err _ => [] end)) in H.
  cbv beta iota in H. subst rows. split.
  - rewrite List.map_map. cbn [row_post]. apply List.map_id.
  - intros r Hr. now apply in_map_iff in Hr as (p & <- & _).
Qed.

Lemma searchPosts_rows posts users q rows :
  searchPosts regex textScore posts users q = OK rows ->
  exists authors,
    authorCriterion regex users q = OK authors
    /\ List.length rows <= 50
    /\ forall r, In r rows ->
                 In (row_post r) posts
                 /\ searchFilter textScore authors q (row_post r) = true.
Proof.
  intros H. destruct (searchPosts_ok posts users q rows H) as (authors & Ha & Hm & _).
  exists authors. split; [exact Ha|]. split.
  - rewrite <- (length_map row_post), Hm. apply List.firstn_le_length.
  - intros r Hr. apply (in_map row_post) in Hr. rewrite Hm in Hr.
    apply limit_In, sortBy_In, filter_In in Hr. exact Hr.
Qed.

End Engine.

Lemma findSimilarPosts_rows posts users postId lim id :
  castObjectId postId = Some id ->
  exists rows,
    findSimilarPosts posts users postId lim = OK rows
    /\ (forall r, In r rows ->
                  In (row_post r) posts /\ post_id (row_post r) <> id
                  /\ status (row_post r) = PUBLISHED)
    /\ (findById post_id id posts = None -> rows = []).
Proof.
  intros Hc. unfold findSimilarPosts. rewrite Hc.
  destruct (findById post_id id posts) as [src|].
  - eexists. split; [reflexivity|]. split; [|discriminate].
    intros r Hr. apply in_map_iff in Hr as (p & <- & Hp). simpl.
    apply limit_In, sortBy_In, filter_In in Hp as [Hp Hf].
    apply andb_true_iff in Hf as [Hf _]. apply andb_true_iff in Hf as [Hne Hst].
    apply negb_true_iff, N.eqb_neq in Hne.
    repeat split; auto. now destruct (status p).
  - exists []. split; [reflexivity|]. split; [intros r []|reflexivity].
Qed.

End SearchFacts.

(** ** Popular posts *)

Module PopularFacts.
Import Store Populate SearchService StoreFacts.

Lemma byScoreDesc_total a b : byScoreDesc a b = true \/ byScoreDesc b a = true.
Proof. unfold byScoreDesc. rewrite !Z.leb_le. lia. Qed.

Lemma byScoreDesc_trans a b c :
  byScoreDesc a b = true -> byScoreDesc b c = true -> byScoreDesc a c = true.
Proof. unfold byScoreDesc. rewrite !Z.leb_le. lia. Qed.

Lemma popularMatch_iff now p :
  popularMatch now p = true <->
  status p = PUBLISHED /\ exists t, publishedAt p = Some t /\ (weekAgo now <= t)%Z.
Proof.
  unfold popularMatch. rewrite andb_true_iff. split.
  - intros [Hs Ht]. split; [now destruct (status p)|].
    destruct (publishedAt p) as [t|]; [|discriminate].
    exists t. split; [reflexivity | now apply Z.leb_le].
  - intros [Hs (t & Ht & Hle)]. rewrite Hs, Ht. split; [reflexivity|].
    now apply Z.leb_le.
Qed.

Lemma popularSorted_In now posts r :
  In r (popularSorted now posts) <->
  exists p, In p posts /\ popularMatch now p = true /\ r = popularProject p.
Proof.
  unfold popularSorted. rewrite sortBy_In, in_map_iff. split.
  - intros (p & <- & Hp). apply filter_In in Hp as [? ?]. now exists p.
  - intros (p & Hp & Hm & ->). exists p. split; [reflexivity|].
    now apply filter_In.
Qed.

Lemma popularRanked_sorted now posts :
  StronglySorted (fun a b => byScoreDesc a b = true) (popularRanked now posts).
Proof.
  apply sorted_firstn_sorted, sortBy_sorted;
    [apply byScoreDesc_total | apply byScoreDesc_trans].
Qed.

(** A candidate the ranking leaves out scores no more than any ranked
    row, and there are ten of those. *)
Lemma popularRanked_top now posts r :
  In r (popularSorted now posts) ->
  In r (popularRanked now posts)
  \/ (List.length (popularRanked now posts) = 10
      /\ forall r', In r' (popularRanked now posts) ->
                    (engagementScore r <= engagementScore r')%Z).
Proof.
  intros Hr. unfold popularRanked.
  rewrite <- (List.firstn_skipn 10 (popularSorted now posts)) in Hr.
  apply in_app_or in Hr as [Hr|Hr]; [now left | right]. split.
  - rewrite List.length_firstn. apply Nat.min_l.
    destruct (Nat.le_gt_cases 10 (List.length (popularSorted now posts))) as [H|H];
      [exact H|].
    rewrite List.skipn_all2 in Hr by lia. contradiction.
  - intros r' Hr'. apply Z.leb_le.
    apply (sorted_firstn byScoreDesc 10 (popularSorted now posts) r' r); auto.
    apply sortBy_sorted; [apply byScoreDesc_total | apply byScoreDesc_trans].
Qed.

Lemma lookupAuthor_filter users l :
  List.map fst (List.flat_map (lookupAuthor users) l) =
  List.filter
    (fun r => match findById user_id (pop_author r) users with
              | Some _ => true
              | None => false
              end) l.
Proof.
  induction l as [|r l IH]; [reflexivity|]. simpl.
  unfold lookupAuthor at 1, populateUser.
  destruct (findById user_id (pop_author r) users); simpl; now rewrite IH.
Qed.

Lemma lookupAuthor_In users l r a :
  In (r, a) (List.flat_map (lookupAuthor users) l) ->
  In r l /\ populateUser users authorNames (pop_author r) = Some a.
Proof.
  intros H. apply in_flat_map in H as (r' & Hr' & H).
  unfold lookupAuthor in H.
  destruct (populateUser users authorNames (pop_author r')) as [a'|] eqn:E;
    [|contradiction].
  destruct H as [H|[]]. injection H as <- <-. now split.
Qed.

Lemma filter_length_le {A : Type} (f : A -> bool) l :
  List.length (List.filter f l) <= List.length l.
Proof.
  induction l as [|x l IH]; simpl; [lia|]. destruct (f x); simpl; lia.
Qed.

Lemma filter_sorted {A : Type} (R : A -> A -> Prop) (f : A -> bool) l :
  StronglySorted R l -> StronglySorted R (List.filter f l).
Proof.
  induction 1 as [|x l Hs IH Hx]; simpl; [constructor|].
  destruct (f x); [|exact IH]. constructor; [exact IH|].
  rewrite Forall_forall in Hx |- *. intros y Hy.
  apply filter_In in Hy as [Hy _]. now apply Hx.
Qed.

End PopularFacts.

(** ** Comment threads *)

Module ThreadFacts.
Import Store Populate PostService StoreFacts.

Lemma topLevel_approved id c : topLevel id c = true -> isApproved c = true.
Proof.
  unfold topLevel. intros H.
  apply andb_true_iff in H as [H _]. now apply andb_true_iff in H as [_ H].
Qed.

Lemma fetchReplies_approved all parents c :
  In c (fetchReplies all parents) -> In c all /\ isApproved c = true.
Proof.
  unfold fetchReplies. intros H.
  apply limit_In, sortBy_In, filter_In in H as [Hin H].
  now apply andb_true_iff in H as [H _].
Qed.

Lemma repliesOf_approved users all parents c r :
  In r (repliesOf users (fetchReplies all parents) c) ->
  In (reply_comment r) all
  /\ isApproved (reply_comment r) = true
  /\ parentComment (reply_comment r) = Some (comment_id c).
Proof.
  unfold repliesOf. intros H. apply in_map_iff in H as (x & <- & Hx). simpl.
  apply firstn_In, filter_In in Hx as [Hx Hp].
  apply fetchReplies_approved in Hx as [Hin Ha].
  repeat split; auto.
  destruct (parentComment x) as [p|]; [|discriminate].
  apply N.eqb_eq in Hp. now subst.
Qed.

End ThreadFacts.

(** ** Comments *)

Module CommentFacts.
Import JsString Store BlogService StoreFacts.

(** What a successful [addComment] stores. *)
Lemma addComment_ok now newId all d c all' :
  addComment now newId all d = OK (c, all') ->
  exists a p,
    castObjectId (authorId d) = Some a
    /\ castObjectId (postId d) = Some p
    /\ c = mkComment newId p a (trim (content d)) (castParent (parentCommentId d))
                     (Nat.ltb 5 (countApproved all a)) 0 now now
    /\ all' = all ++ [c].
Proof.
  unfold addComment. intros H.
  destruct (castObjectId (authorId d)) as [a|]; [|discriminate].
  destruct (commentFailures d); [|discriminate].
  destruct (castObjectId (postId d)) as [p|]; [|discriminate].
  destruct (memId newId (List.map comment_id all)); [discriminate|].
  injection H as <- <-. now exists a, p.
Qed.

(** When it succeeds. *)
Lemma addComment_succeeds now newId all d a :
  castObjectId (authorId d) = Some a ->
  commentFailures d = [] ->
  ~ In newId (List.map comment_id all) ->
  exists c, addComment now newId all d = OK (c, all ++ [c]).
Proof.
  intros Ha Hf Hn. unfold addComment. rewrite Ha, Hf.
  assert (Hp : isValid (postId d) = true).
  { unfold commentFailures in Hf. destruct (isValid (postId d)); [reflexivity|].
    discriminate. }
  unfold isValid in Hp. destruct (castObjectId (postId d)) as [p|]; [|discriminate].
  destruct (memId newId (List.map comment_id all)) eqn:E.
  - apply memId_In in E. contradiction.
  - eexists. reflexivity.
Qed.

End CommentFacts.

(** ** Users *)

Module UserFacts.
Import JsString Store UserService StoreFacts.

Lemma existingFilter_email d u :
  existingFilter d u = String.eqb (email u) (normalizeEmail (in_email d)).
Proof. unfold existingFilter, fieldIs. simpl. apply orb_false_r. Qed.

(** The lookup before the creation never finds a user by username:
    the filter names the path [userName], which no user has. *)
Lemma existing_by_email_only users d u :
  List.find (existingFilter d) users = Some u ->
  email u = normalizeEmail (in_email d).
Proof.
  intros H. apply find_some in H as [_ H].
  rewrite existingFilter_email in H. now apply String.eqb_eq.
Qed.

Lemma find_existing_none users d :
  (forall u, In u users -> email u <> normalizeEmail (in_email d)) ->
  List.find (existingFilter d) users = None.
Proof.
  intros H. destruct (List.find _ users) as [u|] eqn:E; [|reflexivity].
  pose proof (existing_by_email_only _ _ _ E) as He.
  apply find_some in E as [Hu _]. now destruct (H u Hu).
Qed.

(** A stored email makes the creation fail with one of the two
    conflict messages. *)
Lemma createUser_email_taken now newId users d u :
  In u users -> email u = normalizeEmail (in_email d) ->
  exists e, createUser now newId users d = Err e /\ isConflict e = true.
Proof.
  intros Hu He. unfold createUser.
  destruct (List.find (existingFilter d) users) as [v|] eqn:E.
  - eexists. split; [reflexivity|]. simpl.
    now destruct (String.eqb (email v) (in_email d)).
  - exfalso. apply (find_none _ _ E) in Hu.
    rewrite existingFilter_email, He, String.eqb_refl in Hu. discriminate.
Qed.

Lemma existsb_none {A : Type} (f : A -> bool) l :
  (forall x, In x l -> f x = false) -> List.existsb f l = false.
Proof.
  intros H. induction l as [|x l IH]; [reflexivity|]. simpl.
  rewrite (H x (or_introl eq_refl)). apply IH. intros y Hy. apply H. now right.
Qed.

(** Fresh identifier, email and username and valid fields: the user
    is stored. *)
Lemma createUser_fresh now newId users d :
  ~ In newId (List.map user_id users) ->
  (forall u, In u users -> email u <> normalizeEmail (in_email d)) ->
  (forall u, In u users -> username u <> in_username d) ->
  userFailures (newUser now newId d) = [] ->
  createUser now newId users d
  = OK (newUser now newId d, users ++ [newUser now newId d]).
Proof.
  intros Hid He Hn Hv. unfold createUser.
  rewrite (find_existing_none _ _ He). unfold save. rewrite Hv.
  unfold violatedIndex.
  destruct (memId _ _) eqn:E; [apply memId_In in E; contradiction|].
  rewrite !existsb_none; [reflexivity| |].
  - intros v Hv'. apply String.eqb_neq. now apply Hn.
  - intros v Hv'. apply String.eqb_neq. now apply He.
Qed.

(** A stored username with a fresh email and valid fields: the lookup
    finds nothing and the unique index refuses the insertion. *)
Lemma createUser_username_taken_valid now newId users d u :
  ~ In newId (List.map user_id users) ->
  (forall v, In v users -> email v <> normalizeEmail (in_email d)) ->
  In u users -> username u = in_username d ->
  userFailures (newUser now newId d) = [] ->
  createUser now newId users d = Err (DuplicateKey "username").
Proof.
  intros Hid He Hu Hn Hv. unfold createUser.
  rewrite (find_existing_none _ _ He). unfold save. rewrite Hv.
  unfold violatedIndex.
  destruct (memId _ _) eqn:E; [apply memId_In in E; contradiction|].
  rewrite existsb_none.
  2:{ intros v Hv'. apply String.eqb_neq. now apply He. }
  assert (Hx : List.existsb
                 (fun v => String.eqb (username v) (username (newUser now newId d)))
                 users = true).
  { apply existsb_exists. exists u. split; [exact Hu|].
    simpl. rewrite Hn. apply String.eqb_refl. }
  now rewrite Hx.
Qed.

(** With a field that fails validation the same input is refused for
    that field: the taken username is never reported. *)
Lemma createUser_username_taken_invalid now newId users d :
  (forall v, In v users -> email v <> normalizeEmail (in_email d)) ->
  userFailures (newUser now newId d) <> [] ->
  createUser now newId users d
  = Err (Thrown ("Validation failed: "
                   ++ validationMessage (userFailures (newUser now newId d)))).
Proof.
  intros He Hv. unfold createUser.
  rewrite (find_existing_none _ _ He). unfold save.
  destruct (userFailures (newUser now newId d)); [congruence | reflexivity].
Qed.

End UserFacts.

(** ** The two slug functions *)

Module SlugAgreement.
Import JsString Shape JsStringFacts Slug SlugFacts.



End SlugAgreement.

(** ** The derived fields of a post *)

Module DerivedFacts.
Import JsString Shape JsStringFacts Store PostModel.

Lemma length_append s t :
  String.length (s ++ t) = String.length s + String.length t.
Proof. induction s as [|c s IH]; simpl; [reflexivity | now rewrite IH]. Qed.

Lemma length_substring n m s : String.length (String.substring n m s) <= m.
Proof.
  revert n m. induction s as [|c s IH]; intros n m.
  - destruct n, m; simpl; lia.
  - destruct n as [|n].
    + destruct m as [|m]; simpl; [lia|]. specialize (IH 0 m). lia.
    + simpl. apply IH.
Qed.

Lemma length_trimStart s : String.length (trimStart s) <= String.length s.
Proof.
  induction s as [|c s IH]; simpl; [lia|]. destruct (isSpace c); simpl; lia.
Qed.

Lemma length_trimEnd s : String.length (trimEnd s) <= String.length s.
Proof.
  induction s as [|c s IH]; simpl; [lia|].
  destruct (trimEnd s); [destruct (isSpace c)|]; simpl in *; lia.
Qed.

Lemma length_trim s : String.length (trim s) <= String.length s.
Proof.
  unfold trim. pose proof (length_trimEnd (trimStart s)).
  pose proof (length_trimStart s). lia.
Qed.

Lemma autoExcerpt_length content : String.length (autoExcerpt content) <= 153.
Proof.
  unfold autoExcerpt. rewrite length_append.
  pose proof (length_trim (String.substring 0 150 (stripTagsFrom false content))).
  pose proof (length_substring 0 150 (stripTagsFrom false content)).
  simpl String.length at 2. lia.
Qed.

Lemma calculateReadTime_pos content : (1 <= ReadTime.calculateReadTime content)%Z.
Proof.
  unfold ReadTime.calculateReadTime, ReadTime.orOne, ReadTime.wordsPerMinute.
  set (n := Z.of_nat _).
  assert (Hn : (0 < n)%Z).
  { subst n. pose proof (ReadTimeFacts.splitRunsFrom_nonempty isSpace false content).
    unfold splitRuns. destruct (splitRunsFrom isSpace false content); simpl;
      [congruence | lia]. }
  pose proof (ReadTimeFacts.ceilDiv_pos n Hn).
  destruct (Z.eqb_spec (ReadTime.ceilDiv n 200) 0); lia.
Qed.

(** Removing the tags only removes characters. *)
Lemma stripTags_no_gt b s : hasGt s = false -> hasGt (stripTagsFrom b s) = false.
Proof.
  revert b. induction s as [|c t IH]; intros b; simpl; [reflexivity|].
  intros H. apply orb_false_iff in H as [Hc Ht].
  destruct b.
  - now apply IH.
  - destruct (isLt c && tagOpens t)%bool; [now apply IH|].
    simpl. now rewrite Hc, IH.
Qed.

Lemma stripTags_length b s :
  String.length (stripTagsFrom b s) <= String.length s.
Proof.
  revert b. induction s as [|c t IH]; intros b; simpl; [lia|].
  destruct b.
  - specialize (IH (negb (isGt c))). lia.
  - destruct (isLt c && tagOpens t)%bool.
    + specialize (IH true). lia.
    + simpl. specialize (IH false). lia.
Qed.

(** A [<] that opens no tag opens none in what is left after it. *)
Lemma tagOpens_stripTags t :
  tagOpens t = false -> tagOpens (stripTagsFrom false t) = false.
Proof.
  destruct t as [|c t']; [reflexivity|].
  unfold tagOpens at 1. intros H.
  destruct (isGt c) eqn:Eg.
  - assert (Hl : isLt c = false).
    { unfold isGt, isLt in *. apply N.eqb_eq in Eg. rewrite Eg. reflexivity. }
    simpl. rewrite Hl. simpl. now rewrite Eg.
  - simpl in H.
    assert (Hall : hasGt (String c t') = false) by (simpl; now rewrite Eg, H).
    pose proof (stripTags_no_gt false (String c t') Hall) as Hout.
    destruct (stripTagsFrom false (String c t')) as [|d u]; [reflexivity|].
    simpl in Hout |- *. apply orb_false_iff in Hout as [_ ->].
    apply andb_false_r.
Qed.

Lemma stripTags_noTag b s : noTag (stripTagsFrom b s) = true.
Proof.
  revert b. induction s as [|c t IH]; intros b; simpl; [reflexivity|].
  destruct b; [apply IH|].
  destruct (isLt c && tagOpens t)%bool eqn:E; [apply IH|].
  simpl. rewrite IH, andb_true_r. apply negb_true_iff.
  apply andb_false_iff in E as [E|E]; [now rewrite E|].
  rewrite (tagOpens_stripTags t E). apply andb_false_r.
Qed.

Lemma noTag_fixed s : noTag s = true -> stripTagsFrom false s = s.
Proof.
  induction s as [|c t IH]; simpl; [reflexivity|].
  intros H. apply andb_true_iff in H as [Hc Ht].
  apply negb_true_iff in Hc. now rewrite Hc, IH.
Qed.

End DerivedFacts.

(** ** More on the searches *)

Module SearchMoreFacts.
Import JsString Shape Store Populate SearchService StoreFacts SearchFacts.

Lemma sortBy_ext {A : Type} (f g : A -> A -> bool) l :
  (forall a b, f a b = g a b) -> sortBy f l = sortBy g l.
Proof.
  intros H. induction l as [|x l IH]; [reflexivity|]. simpl. rewrite IH.
  generalize (sortBy g l). intros m.
  induction m as [|y m IHm]; [reflexivity|]. simpl. now rewrite H, IHm.
Qed.

Lemma dateLe_total a b : dateLe a b = true \/ dateLe b a = true.
Proof.
  destruct a as [x|], b as [y|]; simpl; auto. rewrite !Z.leb_le. lia.
Qed.

Lemma dateLe_trans a b c :
  dateLe a b = true -> dateLe b c = true -> dateLe a c = true.
Proof.
  destruct a as [x|], b as [y|], c as [z|]; simpl; auto; try discriminate.
  rewrite !Z.leb_le. lia.
Qed.

Lemma byPublishedDesc_total a b :
  byPublishedDesc a b = true \/ byPublishedDesc b a = true.
Proof. unfold byPublishedDesc. apply dateLe_total. Qed.

Lemma byPublishedDesc_trans a b c :
  byPublishedDesc a b = true -> byPublishedDesc b c = true ->
  byPublishedDesc a c = true.
Proof. unfold byPublishedDesc. intros H1 H2. exact (dateLe_trans _ _ _ H2 H1). Qed.

Lemma anyIn_iff field values :
  anyIn field values = true <-> exists x, In x field /\ In x values.
Proof.
  unfold anyIn. rewrite existsb_exists. split.
  - intros (x & Hx & H). apply existsb_exists in H as (y & Hy & E).
    apply String.eqb_eq in E. subst y. now exists x.
  - intros (x & Hx & Hv). exists x. split; [exact Hx|].
    apply existsb_exists. exists x. split; [exact Hv | apply String.eqb_refl].
Qed.

Lemma map_sorted {A B : Type} (f : A -> B) (R : B -> B -> Prop) l :
  StronglySorted (fun a b => R (f a) (f b)) l <-> StronglySorted R (List.map f l).
Proof.
  induction l as [|x l IH]; simpl; [split; constructor|]. split.
  - intros H. apply StronglySorted_inv in H as [H1 H2]. constructor; [now apply IH|].
    rewrite Forall_forall in H2 |- *. intros y Hy.
    apply in_map_iff in Hy as (z & <- & Hz). now apply H2.
  - intros H. apply StronglySorted_inv in H as [H1 H2]. constructor; [now apply IH|].
    rewrite Forall_forall in H2 |- *. intros y Hy. apply H2. now apply in_map.
Qed.

(** The first [n] of a sorted list: what is left out stands after. *)
Lemma limit_top {A : Type} (before : A -> A -> bool) n l x :
  (forall a b, before a b = true \/ before b a = true) ->
  (forall a b c, before a b = true -> before b c = true -> before a c = true) ->
  0 < n ->
  In x l ->
  In x (limit n (sortBy before l))
  \/ (List.length (limit n (sortBy before l)) = n
      /\ forall y, In y (limit n (sortBy before l)) -> before y x = true).
Proof.
  intros Htot Htr Hn Hx. destruct n as [|n]; [lia|]. unfold limit.
  apply (sortBy_In before) in Hx.
  rewrite <- (List.firstn_skipn (S n) (sortBy before l)) in Hx.
  apply in_app_or in Hx as [Hx|Hx]; [now left | right]. split.
  - rewrite List.length_firstn. apply Nat.min_l.
    destruct (Nat.le_gt_cases (S n) (List.length (sortBy before l))) as [H|H];
      [exact H|].
    rewrite List.skipn_all2 in Hx by lia. contradiction.
  - intros y Hy. apply (sorted_firstn before (S n) (sortBy before l) y x); auto.
    now apply sortBy_sorted.
Qed.

Lemma limit_sorted {A : Type} (before : A -> A -> bool) n l :
  (forall a b, before a b = true \/ before b a = true) ->
  (forall a b c, before a b = true -> before b c = true -> before a c = true) ->
  StronglySorted (fun a b => before a b = true) (limit n (sortBy before l)).
Proof.
  intros Htot Htr. destruct n; simpl.
  - now apply sortBy_sorted.
  - apply (sorted_firstn_sorted before (S n)); auto. now apply sortBy_sorted.
Qed.

Lemma limit_length {A : Type} n (l : list A) : 0 < n -> List.length (limit n l) <= n.
Proof. destruct n; [lia|]. intros _. apply List.firstn_le_length. Qed.

Section Engine.
Variable regex : string -> Result (string -> bool).
Variable textScore : string -> Post -> option Z.

Lemma authorCriterion_dropFalsy users q :
  authorCriterion regex users (dropFalsy q) = authorCriterion regex users q.
Proof.
  unfold authorCriterion, dropFalsy. simpl.
  destruct (q_author q) as [a|]; [|reflexivity].
  destruct (truthy a) eqn:Ea; simpl; now rewrite ?Ea.
Qed.

Lemma searchFilter_dropFalsy authors q p :
  searchFilter textScore authors (dropFalsy q) p
  = searchFilter textScore authors q p.
Proof.
  unfold searchFilter, dropFalsy. simpl.
  destruct (q_text q) as [t|]; [destruct (truthy t) eqn:Et; simpl; rewrite ?Et|];
    (destruct (q_categories q) as [[|c cs]|]);
    (destruct (q_tags q) as [[|g gs]|]);
    (destruct (q_minViews q) as [m|];
     [destruct (Z.eqb_spec m 0); simpl;
      try (destruct (Z.eqb_spec m 0); [contradiction|])|]);
    reflexivity.
Qed.

Lemma searchOrder_dropFalsy q a b :
  searchOrder textScore (dropFalsy q) a b = searchOrder textScore q a b.
Proof.
  unfold searchOrder, dropFalsy. simpl.
  destruct (q_text q) as [t|]; [|reflexivity].
  destruct (truthy t) eqn:Et; simpl; now rewrite ?Et.
Qed.

End Engine.

End SearchMoreFacts.

(* ================================================================== *)
(** * The claims of the specification *)
(* ================================================================== *)

(** C1, where the code leaves the claim: the last step of the two
    slug functions is [trim], which strips white space only and comes
    after every run of white space has become a hyphen, so that it
    strips nothing and a hyphen at either end stays. The title
    "What is C++ ?" gives "what-is-c-" where the reference definition
    gives "what-is-c", and " Hello " gives "-hello-" where it gives
    "hello", in the model's method and in the service's. *)
Theorem C1_generateSlug_leaves_end_hyphens :
  Slug.generateSlug "What is C++ ?" = "what-is-c-"
  /\ Slug.slugify_spec "What is C++ ?" = "what-is-c"
  /\ Slug.generateSlug " Hello " = "-hello-"
  /\ Slug.slugify_spec " Hello " = "hello"
  /\ Slug.generateSlugFromTitle "What is C++ ?" = "what-is-c-"
  /\ BlogService.createPostSlug None " Hello " = "-hello-".
Proof. repeat split; reflexivity. Qed.

(** C9. The slug function is idempotent: applied to its own result it
    gives that result. *)
Theorem C9_generateSlug_idempotent :
  forall s : string, Slug.generateSlug (Slug.generateSlug s) = Slug.generateSlug s.
Proof.
  intros s. rewrite !SlugFacts.generateSlug_body.
  apply SlugFacts.body_idempotent;
    [apply SlugFacts.keptByModel_cases | apply SlugFacts.slugChar_keptByModel].
Qed.

(** C7, where the code leaves the claim: a content of 200 words, each
    followed by a space, has read time 1 by the reference definition;
    the method counts the empty piece after the last space as a word
    and gives 2. *)
Theorem C7_trailing_space_adds_a_word :
  ReadTime.wordCount_spec (JsString.repeatStr "w " 200) = 200%Z
  /\ ReadTime.readTime_spec (JsString.repeatStr "w " 200) = 1%Z
  /\ ReadTime.calculateReadTime (JsString.repeatStr "w " 200) = 2%Z.
Proof. vm_compute. repeat split. Qed.

(** C2, where the code leaves the claim: the post [mongoose101] is
    published, with a publication date three days before [t0];
    [publishPost] at [t0] stores [t0] as its publication date. *)
Theorem C2_publishPost_overwrites_publishedAt :
  Store.status Sample.mongoose101 = Store.PUBLISHED
  /\ Store.publishedAt Sample.mongoose101 = Some (Sample.t0 - 3 * Sample.day)%Z
  /\ exists p posts',
      BlogService.publishPost Sample.t0 Sample.posts Sample.id1 = OK (p, posts')
      /\ Store.publishedAt p = Some Sample.t0
      /\ Store.findById Store.post_id 1%N posts' = Some p.
Proof.
  split; [reflexivity|]. split; [reflexivity|].
  eexists _, _. split; [vm_compute; reflexivity|]. split; reflexivity.
Qed.

(** C3, where the code leaves the claim: the author name reaches the
    engine as a regular expression, as it is given, and not as a text
    to look for. No sample user has a dot or a parenthesis in a name,
    so "." and "(" occur in no stored name; yet for the name "." the
    published posts of every author are returned, and for the name "("
    the call raises the engine's error. *)
Theorem C3_author_name_is_a_pattern :
  List.existsb (Shape.authorMatches_spec ".") Sample.users = false
  /\ List.existsb (Shape.authorMatches_spec "(") Sample.users = false
  /\ (exists r1 r2,
        SearchService.searchPosts Sample.regexSample Sample.noTextScore
          Sample.posts Sample.users (Sample.byAuthor ".") = OK [r1; r2]
        /\ Populate.row_post r1 = Sample.mongoTips
        /\ Populate.row_post r2 = Sample.mongoose101)
  /\ (exists e,
        SearchService.searchPosts Sample.regexSample Sample.noTextScore
          Sample.posts Sample.users (Sample.byAuthor "(") = Err e).
Proof.
  split; [reflexivity|]. split; [reflexivity|]. split.
  - eexists _, _. split; [vm_compute; reflexivity|]. split; reflexivity.
  - eexists. vm_compute. reflexivity.
Qed.

(** C4. Whatever the approval flags in the comment collection, a
    result of [getPostWithComments] holds approved comments only, at the
    top level and among the replies; each comes from the collection. *)
Theorem C4_thread_has_approved_comments_only :
  forall (posts : list Store.Post) (all : list Store.Comment)
         (users : list Store.User) (postId : string)
         (r : PostService.PostWithComments),
    PostService.getPostWithComments posts all users postId = OK r ->
    forall t, In t (PostService.comments r) ->
      In (PostService.thread_comment t) all
      /\ Store.isApproved (PostService.thread_comment t) = true
      /\ forall reply, In reply (PostService.replies t) ->
           In (PostService.reply_comment reply) all
           /\ Store.isApproved (PostService.reply_comment reply) = true.
Proof.
  intros posts all users postId r H t Ht.
  unfold PostService.getPostWithComments in H.
  destruct (Store.castObjectId postId) as [id|]; [|discriminate].
  destruct (Store.findById Store.post_id id posts) as [p|].
  - apply (f_equal (fun x => match x with
                                | OK v => PostService.comments v
                                | Err _ => []
                                end)) in H.
    cbv beta iota zeta in H. cbn [PostService.comments] in H. rewrite <- H in Ht.
    apply in_map_iff in Ht as (c & <- & Hc).
    cbn [PostService.thread_comment PostService.replies].
    apply StoreFacts.limit_In, StoreFacts.sortBy_In, filter_In in Hc as [Hc Htop].
    split; [exact Hc|]. split; [exact (ThreadFacts.topLevel_approved _ _ Htop)|].
    intros reply Hreply.
    apply ThreadFacts.repliesOf_approved in Hreply as (? & ? & _). now split.
  - injection H as <-. destruct Ht.
Qed.

Lemma C4_thread_witness :
  exists r,
    PostService.getPostWithComments Sample.posts Sample.comments Sample.users
      Sample.id1 = OK r
    /\ List.length (PostService.comments r) = 1
    /\ forall t, In t (PostService.comments r) ->
         In (PostService.thread_comment t) Sample.comments
         /\ Store.isApproved (PostService.thread_comment t) = true
         /\ forall reply, In reply (PostService.replies t) ->
              In (PostService.reply_comment reply) Sample.comments
              /\ Store.isApproved (PostService.reply_comment reply) = true.
Proof.
  eexists. split; [vm_compute; reflexivity|]. split; [reflexivity|].
  apply (C4_thread_has_approved_comments_only Sample.posts Sample.comments
           Sample.users Sample.id1).
  vm_compute. reflexivity.
Defined.

(** C8. For a well-formed post id and any post collection,
    [findSimilarPosts] returns a result that never holds the source
    post, and the empty result when no post has that id. *)
Theorem C8_findSimilarPosts_excludes_source :
  forall (posts : list Store.Post) (users : list Store.User)
         (postId : string) (lim : option nat) (id : Store.ObjectId),
    Store.castObjectId postId = Some id ->
    exists rows,
      SearchService.findSimilarPosts posts users postId lim = OK rows
      /\ (forall r, In r rows -> Store.post_id (Populate.row_post r) <> id)
      /\ ((forall p, In p posts -> Store.post_id p <> id) -> rows = []).
Proof.
  intros posts users postId lim id Hc.
  destruct (SearchFacts.findSimilarPosts_rows posts users postId lim id Hc)
    as (rows & Hrows & Hin & Hnone).
  exists rows. split; [exact Hrows|]. split.
  - intros r Hr. apply (Hin r Hr).
  - intros H. apply Hnone. now apply StoreFacts.findById_none.
Qed.

(** The posts similar to the first sample post do not hold it; no post
    has the ninth id, and nothing is found for it. *)
Lemma C8_findSimilarPosts_witness :
  (exists rows,
      SearchService.findSimilarPosts Sample.posts Sample.users Sample.id1 None
      = OK rows
      /\ List.length rows = 1
      /\ forall r, In r rows -> Store.post_id (Populate.row_post r) <> 1%N)
  /\ SearchService.findSimilarPosts Sample.posts Sample.users Sample.id9 (Some 3)
     = OK [].
Proof.
  split.
  - destruct (C8_findSimilarPosts_excludes_source Sample.posts Sample.users
                Sample.id1 None 1%N) as (rows & Hrows & Hne & _); [reflexivity|].
    exists rows. split; [exact Hrows|]. split; [|exact Hne].
    vm_compute in Hrows. injection Hrows as <-. reflexivity.
  - destruct (C8_findSimilarPosts_excludes_source Sample.posts Sample.users
                Sample.id9 (Some 3) 9%N) as (rows & Hrows & _ & Hnone); [reflexivity|].
    rewrite Hrows. f_equal. apply Hnone.
    intros p [<-|[<-|[<-|[]]]]; vm_compute; discriminate.
Defined.

(** C10. A comment that [addComment] stores is approved exactly when
    its author has more than five approved comments in the collection at
    the call, and is stored unapproved otherwise; a call with
    well-formed ids, a valid content and a fresh identifier stores its
    comment. *)
Theorem C10_addComment_trust_threshold :
  forall (now : Store.Date) (newId : Store.ObjectId) (all : list Store.Comment)
         (d : BlogService.CommentData),
    (forall c all',
        BlogService.addComment now newId all d = OK (c, all') ->
        all' = all ++ [c]
        /\ Store.castObjectId (BlogService.authorId d) = Some (Store.comment_author c)
        /\ (Store.isApproved c = true <->
            5 < List.length
                  (List.filter
                     (fun x => (N.eqb (Store.comment_author x) (Store.comment_author c)
                                && Store.isApproved x)%bool) all))
        /\ (Store.isApproved c = false <->
            List.length
              (List.filter
                 (fun x => (N.eqb (Store.comment_author x) (Store.comment_author c)
                            && Store.isApproved x)%bool) all) <= 5))
    /\ (forall a,
          Store.castObjectId (BlogService.authorId d) = Some a ->
          BlogService.commentFailures d = [] ->
          ~ In newId (List.map Store.comment_id all) ->
          exists c, BlogService.addComment now newId all d = OK (c, all ++ [c])).
Proof.
  intros now newId all d. split.
  - intros c all' Hc.
    apply CommentFacts.addComment_ok in Hc as (a & p & Ha & _ & -> & ->).
    cbn [Store.comment_author Store.isApproved]. unfold BlogService.countApproved.
    split; [reflexivity|]. split; [exact Ha|]. split.
    + apply Nat.ltb_lt.
    + rewrite Nat.ltb_ge. reflexivity.
  - intros a. apply CommentFacts.addComment_succeeds.
Qed.

Lemma C10_addComment_witness :
  exists c,
    BlogService.addComment Sample.t0 10%N Sample.comments
      (BlogService.mkCommentData Sample.id1 Sample.id2 " Thanks! " None)
    = OK (c, Sample.comments ++ [c])
    /\ Store.isApproved c = true
    /\ 5 < List.length
              (List.filter
                 (fun x => (N.eqb (Store.comment_author x) (Store.comment_author c)
                            && Store.isApproved x)%bool) Sample.comments).
Proof.
  destruct (C10_addComment_trust_threshold Sample.t0 10%N Sample.comments
              (BlogService.mkCommentData Sample.id1 Sample.id2 " Thanks! " None))
    as [Hstored _].
  eexists. split; [vm_compute; reflexivity|].
  split; [reflexivity|].
  eapply Hstored; vm_compute; reflexivity.
Defined.

(** C6, as the code has it. [getPopularPostsThisWeek] ranks exactly the
    published posts whose [publishedAt] is not earlier than seven days
    before now (a later date, one after now too, is inside), scores
    each [views * 1 + likesCount * 5] with [likesCount] the length of
    [likes], orders the rows by descending score and keeps the first
    ten: a post left out scores no more than each of the ten. The
    result holds the ranked rows whose author is stored, in that order,
    so at most ten. *)
Theorem C6_popular_posts_ranking :
  forall (now : Store.Date) (posts : list Store.Post) (users : list Store.User),
    let ranked := SearchService.popularRanked now posts in
    let score := SearchService.engagementScore in
    (* the ranked rows are the projections of posts in the window *)
    (forall r, In r ranked ->
       exists p t,
         In p posts /\ r = SearchService.popularProject p
         /\ Store.status p = Store.PUBLISHED
         /\ Store.publishedAt p = Some t /\ (SearchService.weekAgo now <= t)%Z
         /\ score r = (Store.views p * 1
                       + Z.of_nat (List.length (Store.likes p)) * 5)%Z)
    (* every post in the window is ranked, or ten rows score as much *)
    /\ (forall p t,
          In p posts -> Store.status p = Store.PUBLISHED ->
          Store.publishedAt p = Some t -> (SearchService.weekAgo now <= t)%Z ->
          In (SearchService.popularProject p) ranked
          \/ (List.length ranked = 10
              /\ forall r, In r ranked ->
                   (score (SearchService.popularProject p) <= score r)%Z))
    (* by descending score, ten at most *)
    /\ StronglySorted (fun a b => (score b <= score a)%Z) ranked
    /\ List.length ranked <= 10
    (* the example: 100 views and 4 likes score 120, 80 views and 10
       likes score 130 and stand first *)
    /\ (forall p1 p2,
          Store.views p1 = 100%Z -> List.length (Store.likes p1) = 4 ->
          Store.views p2 = 80%Z -> List.length (Store.likes p2) = 10 ->
          score (SearchService.popularProject p1) = 120%Z
          /\ score (SearchService.popularProject p2) = 130%Z
          /\ SearchService.byScoreDesc (SearchService.popularProject p2)
               (SearchService.popularProject p1) = true
          /\ SearchService.byScoreDesc (SearchService.popularProject p1)
               (SearchService.popularProject p2) = false)
    (* the result: the ranked rows whose author is stored *)
    /\ exists rows,
        SearchService.getPopularPostsThisWeek now posts users = OK rows
        /\ List.map fst rows
           = List.filter
               (fun r => match Store.findById Store.user_id
                                 (SearchService.pop_author r) users with
                         | Some _ => true
                         | None => false
                         end) ranked
        /\ List.length rows <= 10
        /\ StronglySorted
             (fun a b => (score (fst b) <= score (fst a))%Z) rows.
Proof.
  intros now posts users ranked score.
  assert (Hsorted : StronglySorted (fun a b => (score b <= score a)%Z) ranked).
  { pose proof (PopularFacts.popularRanked_sorted now posts) as H.
    fold ranked in H. clearbody ranked.
    induction H as [|x l Hs IH Hx]; constructor; [exact IH|].
    eapply Forall_impl; [|exact Hx]. intros y Hy. now apply Z.leb_le. }
  assert (Hlen : List.length ranked <= 10).
  { subst ranked. unfold SearchService.popularRanked. apply List.firstn_le_length. }
  split; [|split; [|split; [exact Hsorted | split; [exact Hlen | split]]]].
  - intros r Hr. apply StoreFacts.firstn_In, PopularFacts.popularSorted_In in Hr
      as (p & Hp & Hm & ->).
    apply PopularFacts.popularMatch_iff in Hm as (Hs & t & Ht & Hle).
    exists p, t. repeat split; auto.
  - intros p t Hp Hs Ht Hle.
    apply PopularFacts.popularRanked_top, PopularFacts.popularSorted_In.
    exists p. repeat split; auto.
    apply PopularFacts.popularMatch_iff. split; [exact Hs|]. now exists t.
  - intros p1 p2 Hv1 Hl1 Hv2 Hl2.
    unfold SearchService.byScoreDesc, score, SearchService.popularProject.
    cbn [SearchService.engagementScore]. rewrite Hv1, Hl1, Hv2, Hl2.
    repeat split.
  - unfold SearchService.getPopularPostsThisWeek. fold ranked.
    eexists. split; [reflexivity|].
    assert (Hmap := PopularFacts.lookupAuthor_filter users ranked).
    split; [exact Hmap|]. split.
    + rewrite <- (length_map fst), Hmap.
      pose proof (PopularFacts.filter_length_le
                    (fun r => match Store.findById Store.user_id
                                      (SearchService.pop_author r) users with
                              | Some _ => true
                              | None => false
                              end) ranked). lia.
    + assert (Hf : StronglySorted (fun a b => (score b <= score a)%Z)
                     (List.map fst (flat_map (SearchService.lookupAuthor users) ranked))).
      { rewrite Hmap. now apply PopularFacts.filter_sorted. }
      revert Hf. generalize (flat_map (SearchService.lookupAuthor users) ranked).
      intros l. induction l as [|x l IH]; intros H; [constructor|].
      simpl in H. apply StronglySorted_inv in H as [H1 H2].
      constructor; [now apply IH|].
      rewrite Forall_forall in H2 |- *. intros y Hy. apply H2.
      now apply in_map.
Qed.

(** C6, the example of the specification: with 100 views and 4 likes a
    post scores 120, with 80 views and 10 likes a post scores 130 and is
    ranked first. *)
Lemma C6_popular_posts_witness :
  exists top second rest,
    SearchService.popularRanked Sample.t0 Sample.posts = top :: second :: rest
    /\ top = SearchService.popularProject Sample.mongoTips
    /\ SearchService.pop_views top = 80%Z
    /\ SearchService.pop_likesCount top = 10%Z
    /\ SearchService.engagementScore top = 130%Z
    /\ second = SearchService.popularProject Sample.mongoose101
    /\ SearchService.pop_views second = 100%Z
    /\ SearchService.pop_likesCount second = 4%Z
    /\ SearchService.engagementScore second = 120%Z
    /\ StronglySorted
         (fun a b => (SearchService.engagementScore b
                      <= SearchService.engagementScore a)%Z)
         (SearchService.popularRanked Sample.t0 Sample.posts).
Proof.
  eexists _, _, _. split; [vm_compute; reflexivity|].
  repeat (split; [reflexivity|]).
  apply (C6_popular_posts_ranking Sample.t0 Sample.posts Sample.users).
Defined.

(** C6, the claim as stated fails: a published post dated one day after
    now is not within the last seven days, and it is ranked and
    returned. *)
Lemma C6_future_post_counterexample :
  Store.status Sample.scheduled = Store.PUBLISHED
  /\ Store.publishedAt Sample.scheduled = Some (Sample.t0 + 1 * Sample.day)%Z
  /\ SearchService.withinLastWeek_spec Sample.t0 (Sample.t0 + 1 * Sample.day)%Z = false
  /\ exists a,
      SearchService.getPopularPostsThisWeek Sample.t0 [Sample.scheduled] Sample.users
      = OK [(SearchService.popularProject Sample.scheduled, a)].
Proof.
  repeat (split; [reflexivity|]). eexists. vm_compute. reflexivity.
Qed.

(** C5, where the code leaves the claim: the username "john" is stored;
    an input with that username, a fresh email and a password of five
    characters is refused for its password, not for the username, and
    with a valid password by the unique index of the collection, not by
    the lookup of [createUser]. No record is stored either way. *)
Theorem C5_taken_username_not_found_by_lookup :
  In Sample.john Sample.users
  /\ Store.username Sample.john = "john"
  /\ List.find
       (UserService.existingFilter
          (UserService.mkUserInput "new@example.com" "john" "New" "User" "short"
             None None))
       Sample.users = None
  /\ UserService.createUser Sample.t0 3%N Sample.users
       (UserService.mkUserInput "new@example.com" "john" "New" "User" "short"
          None None)
     = Err (Thrown "Validation failed: User validation failed: password: Password must be at least 8 characters")
  /\ UserService.isConflict
       (Thrown "Validation failed: User validation failed: password: Password must be at least 8 characters")
     = false
  /\ UserService.createUser Sample.t0 3%N Sample.users
       (UserService.mkUserInput "new@example.com" "john" "New" "User"
          "long enough" None None)
     = Err (DuplicateKey "username").
Proof.
  split; [right; left; reflexivity|].
  repeat (split; [vm_compute; reflexivity|]). vm_compute. reflexivity.
Qed.

(* ================================================================== *)
(** * Further properties of the code *)
(* ================================================================== *)

(** X1. [BlogService.generateSlugFromTitle] is idempotent, and it is
    not [generateSlug]: a tab is removed by the first and made a hyphen
    by the second. *)
Theorem X1_generateSlugFromTitle_idempotent :
  (forall s : string,
      Slug.generateSlugFromTitle (Slug.generateSlugFromTitle s)
      = Slug.generateSlugFromTitle s)
  /\ Slug.generateSlugFromTitle ("a" ++ Shape.tab ++ "b") = "ab"
  /\ Slug.generateSlug ("a" ++ Shape.tab ++ "b") = "a-b".
Proof.
  split; [|split; reflexivity].
  intros s. rewrite !SlugFacts.generateSlugFromTitle_body.
  apply SlugFacts.body_idempotent;
    [apply SlugFacts.keptByService_cases | apply SlugFacts.slugChar_keptByService].
Qed.

(** X2. On a content that starts and ends with a word,
    [calculateReadTime] is the reference read time
    [max(1, ceil(wordCount / 200))]. *)
Theorem X2_calculateReadTime_of_trimmed_content :
  forall content : string,
    Shape.startsWith (fun c => negb (JsString.isSpace c)) content = true ->
    Shape.endsWith (fun c => negb (JsString.isSpace c)) content = true ->
    ReadTime.calculateReadTime content = ReadTime.readTime_spec content.
Proof. exact ReadTimeFacts.calculateReadTime_trimmed. Qed.

(** A body of 450 words has read time 3. *)
Lemma X2_calculateReadTime_witness :
  ReadTime.wordCount_spec ("w" ++ JsString.repeatStr " w" 449) = 450%Z
  /\ ReadTime.readTime_spec ("w" ++ JsString.repeatStr " w" 449) = 3%Z
  /\ ReadTime.calculateReadTime ("w" ++ JsString.repeatStr " w" 449)
     = ReadTime.readTime_spec ("w" ++ JsString.repeatStr " w" 449).
Proof.
  split; [vm_compute; reflexivity|]. split; [vm_compute; reflexivity|].
  apply X2_calculateReadTime_of_trimmed_content; vm_compute; reflexivity.
Defined.

(** X3. The pre-save hook never changes a publication date that is
    set, and sets it to the current time when the status was modified
    to published and none is set; the view counter's write of
    [getPostBySlug] leaves every publication date as it is. *)
Theorem X3_preSave_publishedAt :
  forall (now : Store.Date) (d : PostModel.PostDoc),
    (forall t, Store.publishedAt (PostModel.fields d) = Some t ->
               Store.publishedAt (PostModel.preSave now d) = Some t)
    /\ (PostModel.isModified "status" d = true ->
        Store.status (PostModel.fields d) = Store.PUBLISHED ->
        Store.publishedAt (PostModel.fields d) = None ->
        Store.publishedAt (PostModel.preSave now d) = Some now)
    /\ (forall posts id,
          List.map Store.publishedAt (PostService.incrementViews now posts id)
          = List.map Store.publishedAt posts).
Proof.
  intros now d. split; [|split].
  - intros t. apply PostFacts.preSave_keeps_publishedAt.
  - apply PostFacts.preSave_sets_publishedAt.
  - apply PostFacts.incrementViews_keeps_publishedAt.
Qed.

Lemma X3_preSave_witness :
  Store.publishedAt
    (PostModel.preSave Sample.t0
       (PostModel.mkPostDoc Sample.mongoose101 ["status"; "content"]))
  = Some (Sample.t0 - 3 * Sample.day)%Z
  /\ Store.publishedAt
       (PostModel.preSave Sample.t0
          (PostModel.mkPostDoc
             (PostModel.setStatus Store.PUBLISHED Sample.draftNotes) ["status"]))
     = Some Sample.t0.
Proof.
  split.
  - apply (X3_preSave_publishedAt Sample.t0
             (PostModel.mkPostDoc Sample.mongoose101 ["status"; "content"])).
    reflexivity.
  - apply (X3_preSave_publishedAt Sample.t0
             (PostModel.mkPostDoc
                (PostModel.setStatus Store.PUBLISHED Sample.draftNotes) ["status"]));
      reflexivity.
Defined.

(** X4. With a fresh identifier, an email and a username no stored user
    has, and fields that pass the validators of the schema, [createUser]
    stores the new user at the end of the collection. *)
Theorem X4_createUser_stores_fresh_user :
  forall (now : Store.Date) (newId : Store.ObjectId) (users : list Store.User)
         (d : UserService.UserInput),
    ~ In newId (List.map Store.user_id users) ->
    (forall u, In u users ->
               Store.email u <> UserService.normalizeEmail (UserService.in_email d)) ->
    (forall u, In u users -> Store.username u <> UserService.in_username d) ->
    UserService.userFailures (UserService.newUser now newId d) = [] ->
    UserService.createUser now newId users d
    = OK (UserService.newUser now newId d,
          users ++ [UserService.newUser now newId d]).
Proof. exact UserFacts.createUser_fresh. Qed.

Lemma X4_createUser_witness :
  UserService.createUser Sample.t0 3%N Sample.users
    (UserService.mkUserInput " Jane@Example.com" "jane_doe" "Jane" "Doe"
       "long enough" (Some 30%Z) None)
  = OK (UserService.newUser Sample.t0 3%N
          (UserService.mkUserInput " Jane@Example.com" "jane_doe" "Jane" "Doe"
             "long enough" (Some 30%Z) None),
        Sample.users
          ++ [UserService.newUser Sample.t0 3%N
                (UserService.mkUserInput " Jane@Example.com" "jane_doe" "Jane" "Doe"
                   "long enough" (Some 30%Z) None)]).
Proof.
  apply X4_createUser_stores_fresh_user.
  - vm_compute. intros [H|[H|[]]]; discriminate.
  - intros u [<-|[<-|[]]]; vm_compute; discriminate.
  - intros u [<-|[<-|[]]]; vm_compute; discriminate.
  - vm_compute. reflexivity.
Defined.

(** X5. When a stored user has the input's email (after the setters of
    the schema: lower case, trimmed), [createUser] fails with one of its
    two conflict messages and stores nothing: with "Email already
    registered" when the input's email is written as it is stored,
    and with "Username already taken" when it is written otherwise
    (in capitals, or with white space around it), whatever the
    username is. *)
Theorem X5_createUser_email_conflict :
  forall (now : Store.Date) (newId : Store.ObjectId) (users : list Store.User)
         (d : UserService.UserInput) (u : Store.User),
    In u users ->
    Store.email u = UserService.normalizeEmail (UserService.in_email d) ->
    exists message,
      UserService.createUser now newId users d = Err (Thrown message)
      /\ (message = "Email already registered"
          \/ message = "Username already taken")
      /\ (message = "Email already registered" <->
          UserService.in_email d
          = UserService.normalizeEmail (UserService.in_email d))
      /\ UserService.isConflict (Thrown message) = true.
Proof.
  intros now newId users d u Hu He. unfold UserService.createUser.
  destruct (List.find (UserService.existingFilter d) users) as [v|] eqn:E.
  - pose proof (UserFacts.existing_by_email_only _ _ _ E) as Hv.
    eexists. split; [reflexivity|]. rewrite Hv.
    destruct (String.eqb_spec
                (UserService.normalizeEmail (UserService.in_email d))
                (UserService.in_email d)) as [Heq|Hne].
    + split; [now left|]. split; [|reflexivity]. split; [now intros _ | reflexivity].
    + split; [now right|]. split; [|reflexivity].
      split; [discriminate | intros H; now destruct Hne].
  - exfalso. apply (List.find_none _ _ E) in Hu.
    rewrite UserFacts.existingFilter_email, He, String.eqb_refl in Hu. discriminate.
Qed.

(** John's email is stored: it is refused as registered when it is
    written in lower case, and as a taken username when it is written
    with capitals, although the username "johnny" is free. *)
Lemma X5_createUser_email_witness :
  UserService.createUser Sample.t0 3%N Sample.users
    (UserService.mkUserInput "john@example.com" "johnny" "John" "Doe"
       "long enough" None None)
  = Err (Thrown "Email already registered")
  /\ UserService.createUser Sample.t0 3%N Sample.users
       (UserService.mkUserInput "John@Example.com" "johnny" "John" "Doe"
          "long enough" None None)
     = Err (Thrown "Username already taken").
Proof.
  split.
  - destruct (X5_createUser_email_conflict Sample.t0 3%N Sample.users
                (UserService.mkUserInput "john@example.com" "johnny" "John" "Doe"
                   "long enough" None None) Sample.john)
      as (m & Hres & _ & Hwhich & _);
      [right; left; reflexivity | reflexivity |].
    rewrite Hres. do 2 f_equal. now apply Hwhich.
  - destruct (X5_createUser_email_conflict Sample.t0 3%N Sample.users
                (UserService.mkUserInput "John@Example.com" "johnny" "John" "Doe"
                   "long enough" None None) Sample.john)
      as (m & Hres & [Hm|Hm] & Hwhich & _);
      [right; left; reflexivity | reflexivity | |].
    + apply Hwhich in Hm. discriminate Hm.
    + now rewrite Hres, Hm.
Defined.

(** X6. The page count [Math.ceil(totalCount / limit)] is zero exactly
    when there is nothing to show, and [totalPages] pages of [limit]
    hold all of it while one page fewer does not. *)
Theorem X6_totalPages :
  forall totalCount limit : Z,
    (0 <= totalCount)%Z -> (1 <= limit)%Z ->
    (PostService.totalPages totalCount limit = 0 <-> totalCount = 0)%Z
    /\ (totalCount <= PostService.totalPages totalCount limit * limit)%Z
    /\ ((PostService.totalPages totalCount limit - 1) * limit < totalCount
        \/ totalCount = 0)%Z.
Proof.
  intros n l Hn Hl. unfold PostService.totalPages, ReadTime.ceilDiv.
  pose proof (Z.div_mod (- n) l ltac:(lia)) as Hdm.
  pose proof (Z.mod_pos_bound (- n) l ltac:(lia)) as Hb.
  split; [split; intros H; nia | split; nia].
Qed.

Lemma X6_totalPages_witness :
  (PostService.totalPages 21 10 = 0 <-> 21 = 0)%Z
  /\ (21 <= PostService.totalPages 21 10 * 10)%Z
  /\ ((PostService.totalPages 21 10 - 1) * 10 < 21 \/ 21 = 0)%Z.
Proof. apply X6_totalPages; lia. Defined.

(** X7. After [publishPost] at a time [now] the stored post is
    published in the sense of [isPublished] at every later time,
    whatever its status was before (a draft, an archived post); the
    posts with another id are the old ones. An id no post has is
    refused and a malformed one is a cast error. *)
Theorem X7_publishPost_then_isPublished :
  forall (now later : Store.Date) (posts : list Store.Post) (postId : string),
    (forall id p,
        Store.castObjectId postId = Some id ->
        Store.findById Store.post_id id posts = Some p ->
        (now <= later)%Z ->
        exists p' posts',
          BlogService.publishPost now posts postId = OK (p', posts')
          /\ PostModel.isPublished later p' = true
          /\ Store.findById Store.post_id id posts' = Some p'
          /\ List.map Store.post_id posts' = List.map Store.post_id posts
          /\ forall q, In q posts' -> Store.post_id q <> id -> In q posts)
    /\ (forall id,
          Store.castObjectId postId = Some id ->
          Store.findById Store.post_id id posts = None ->
          BlogService.publishPost now posts postId
          = Err (Thrown ("Post with id " ++ postId ++ " not found")))
    /\ (Store.castObjectId postId = None ->
        BlogService.publishPost now posts postId = Err (CastError "_id" postId)).
Proof.
  intros now later posts postId. split; [|split].
  - intros id p Hc Hf Hle.
    destruct (PostFacts.publishPost_sets_now now posts postId id p Hc Hf)
      as (posts' & Hpub & Hdate & Hfind).
    exists (BlogService.publishUpdate now p), posts'.
    unfold BlogService.publishPost in Hpub. rewrite Hc, Hf in Hpub.
    injection Hpub as <-.
    split; [unfold BlogService.publishPost; now rewrite Hc, Hf|].
    split; [unfold PostModel.isPublished; simpl; now apply Z.leb_le|].
    split; [exact Hfind|]. clear Hf Hfind Hdate. split.
    + induction posts as [|q l IH]; [reflexivity|]. simpl.
      destruct (N.eqb (Store.post_id q) id) eqn:E; simpl; [reflexivity|].
      now rewrite IH.
    + induction posts as [|q l IH]; [intros q []|]. simpl.
      destruct (N.eqb (Store.post_id q) id) eqn:E.
      * intros r [<-|Hr] Hne; [|now right].
        apply N.eqb_eq in E. simpl in Hne. congruence.
      * intros r [<-|Hr] Hne; [now left|]. right. now apply IH.
  - intros id Hc Hf. unfold BlogService.publishPost. now rewrite Hc, Hf.
  - intros Hc. unfold BlogService.publishPost. now rewrite Hc.
Qed.

Lemma X7_publishPost_witness :
  exists p' posts',
    BlogService.publishPost Sample.t0 Sample.posts Sample.id3 = OK (p', posts')
    /\ Store.status Sample.draftNotes = Store.DRAFT
    /\ PostModel.isPublished (Sample.t0 + Sample.day)%Z p' = true
    /\ Store.findById Store.post_id 3%N posts' = Some p'.
Proof.
  destruct (X7_publishPost_then_isPublished Sample.t0 (Sample.t0 + Sample.day)%Z
              Sample.posts Sample.id3) as [Hok _].
  destruct (Hok 3%N Sample.draftNotes) as (p' & posts' & H1 & H2 & H3 & _);
    [reflexivity | reflexivity | vm_compute; discriminate |].
  exists p', posts'. repeat split; assumption.
Defined.

(** X8. What the pre-save hook derives satisfies the constraints the
    schema puts on the path: a generated slug is empty or matches the
    slug pattern and is in lower case already, a computed read time is
    at least 1, and a generated excerpt has at most 153 characters (the
    schema allows 300). A slug or an excerpt that is given is kept. *)
Theorem X8_preSave_derived_fields :
  forall (now : Store.Date) (d : PostModel.PostDoc),
    (JsString.truthy (Store.slug (PostModel.fields d)) = true ->
     Store.slug (PostModel.preSave now d) = Store.slug (PostModel.fields d))
    /\ (JsString.truthy (Store.slug (PostModel.fields d)) = false ->
        Store.slug (PostModel.preSave now d) = EmptyString
        \/ (Shape.slugPattern (Store.slug (PostModel.preSave now d)) = true
            /\ JsString.toLowerCase (Store.slug (PostModel.preSave now d))
               = Store.slug (PostModel.preSave now d)))
    /\ (PostModel.isModified "content" d = true ->
        Store.readTime (PostModel.preSave now d)
        = ReadTime.calculateReadTime (Store.content (PostModel.fields d))
        /\ (1 <= Store.readTime (PostModel.preSave now d))%Z)
    /\ (PostModel.isModified "content" d = false ->
        Store.readTime (PostModel.preSave now d) = Store.readTime (PostModel.fields d))
    /\ (JsString.truthy (Store.excerpt (PostModel.fields d)) = true ->
        Store.excerpt (PostModel.preSave now d) = Store.excerpt (PostModel.fields d))
    /\ (JsString.truthy (Store.excerpt (PostModel.fields d)) = false ->
        String.length (Store.excerpt (PostModel.preSave now d)) <= 153)
    /\ Store.title (PostModel.preSave now d) = Store.title (PostModel.fields d)
    /\ Store.content (PostModel.preSave now d) = Store.content (PostModel.fields d)
    /\ Store.status (PostModel.preSave now d) = Store.status (PostModel.fields d)
    /\ Store.views (PostModel.preSave now d) = Store.views (PostModel.fields d)
    /\ Store.likes (PostModel.preSave now d) = Store.likes (PostModel.fields d).
Proof.
  intros now d.
  assert (Hcases :
    Store.slug (PostModel.preSave now d)
    = (if (negb (JsString.truthy (Store.slug (PostModel.fields d)))
           && JsString.truthy (Store.title (PostModel.fields d)))%bool
       then Slug.generateSlug (Store.title (PostModel.fields d))
       else Store.slug (PostModel.fields d))
    /\ Store.readTime (PostModel.preSave now d)
       = (if PostModel.isModified "content" d
          then ReadTime.calculateReadTime (Store.content (PostModel.fields d))
          else Store.readTime (PostModel.fields d))
    /\ Store.excerpt (PostModel.preSave now d)
       = (if (negb (JsString.truthy (Store.excerpt (PostModel.fields d)))
              && JsString.truthy (Store.content (PostModel.fields d)))%bool
          then PostModel.autoExcerpt (Store.content (PostModel.fields d))
          else Store.excerpt (PostModel.fields d))
    /\ Store.title (PostModel.preSave now d) = Store.title (PostModel.fields d)
    /\ Store.content (PostModel.preSave now d) = Store.content (PostModel.fields d)
    /\ Store.status (PostModel.preSave now d) = Store.status (PostModel.fields d)
    /\ Store.views (PostModel.preSave now d) = Store.views (PostModel.fields d)
    /\ Store.likes (PostModel.preSave now d) = Store.likes (PostModel.fields d)).
  { unfold PostModel.preSave. cbv zeta.
    destruct (negb (JsString.truthy (Store.slug (PostModel.fields d)))
              && JsString.truthy (Store.title (PostModel.fields d)))%bool;
      destruct (PostModel.isModified "content" d);
      destruct (PostModel.isModified "status" d);
      simpl;
      destruct (Store.status (PostModel.fields d)) eqn:Hs;
      destruct (Store.publishedAt (PostModel.fields d)) eqn:Hp;
      simpl;
      destruct (negb (JsString.truthy (Store.excerpt (PostModel.fields d)))
                && JsString.truthy (Store.content (PostModel.fields d)))%bool;
      simpl; rewrite ?Hs, ?Hp; repeat split; reflexivity. }
  destruct Hcases as (Hslug & Hread & Hexc & Htitle & Hcontent & Hstatus & Hviews & Hlikes).
  split; [intros H; now rewrite Hslug, H|].
  split.
  { intros H. rewrite Hslug, H. simpl.
    destruct (JsString.truthy (Store.title (PostModel.fields d)));
      [|left; now destruct (Store.slug (PostModel.fields d))].
    rewrite SlugFacts.generateSlug_body.
    pose proof (SlugFacts.body_slugChars Slug.keptByModel SlugFacts.keptByModel_cases
                  (Store.title (PostModel.fields d))) as Hc.
    destruct (Shape.slugPipeline Slug.keptByModel (Store.title (PostModel.fields d)))
      as [|c t] eqn:E; [now left|]. right. split.
    - unfold Shape.slugPattern. now rewrite Hc.
    - now apply JsStringFacts.toLowerCase_fixed. }
  split.
  { rewrite Hread. intros ->. split; [reflexivity|].
    apply DerivedFacts.calculateReadTime_pos. }
  split; [intros H; now rewrite Hread, H|].
  split; [intros H; now rewrite Hexc, H|].
  split.
  { intros H. rewrite Hexc, H. simpl.
    destruct (JsString.truthy (Store.content (PostModel.fields d))).
    - apply DerivedFacts.autoExcerpt_length.
    - destruct (Store.excerpt (PostModel.fields d)); [simpl; lia | discriminate]. }
  repeat split; assumption.
Qed.

Lemma X8_preSave_witness :
  Store.slug
    (PostModel.preSave Sample.t0
       (PostModel.mkPostDoc
          (PostModel.setExcerpt "" (PostModel.setSlug "" Sample.draftNotes))
          ["content"]))
  = "notes"
  /\ Store.excerpt
       (PostModel.preSave Sample.t0
          (PostModel.mkPostDoc
             (PostModel.setExcerpt "" (PostModel.setSlug "" Sample.draftNotes))
             ["content"]))
     = "Some words...."
  /\ String.length
       (Store.excerpt
          (PostModel.preSave Sample.t0
             (PostModel.mkPostDoc
                (PostModel.setExcerpt "" (PostModel.setSlug "" Sample.draftNotes))
                ["content"]))) <= 153.
Proof.
  split; [reflexivity|]. split; [reflexivity|].
  apply (X8_preSave_derived_fields Sample.t0
           (PostModel.mkPostDoc
              (PostModel.setExcerpt "" (PostModel.setSlug "" Sample.draftNotes))
              ["content"])).
  reflexivity.
Defined.

(** X9. The tag removal of the generated excerpt leaves no text of the
    form [<...>] with a non-empty inside, so that removing again changes
    nothing; it only removes characters. *)
Theorem X9_stripTags_leaves_no_tag :
  forall content : string,
    Shape.noTag (PostModel.stripTagsFrom false content) = true
    /\ PostModel.stripTagsFrom false (PostModel.stripTagsFrom false content)
       = PostModel.stripTagsFrom false content
    /\ String.length (PostModel.stripTagsFrom false content) <= String.length content
    /\ (Shape.noTag content = true ->
        PostModel.stripTagsFrom false content = content).
Proof.
  intros content.
  pose proof (DerivedFacts.stripTags_noTag false content) as H.
  split; [exact H|]. split; [now apply DerivedFacts.noTag_fixed|].
  split; [apply DerivedFacts.stripTags_length | apply DerivedFacts.noTag_fixed].
Qed.

Lemma X9_stripTags_witness :
  PostModel.stripTagsFrom false "<p>MongoDB is a <b>NoSQL</b> database</p>"
  = "MongoDB is a NoSQL database"
  /\ PostModel.stripTagsFrom false "1 < 2 and 3 > 2" = "1  2"
  /\ PostModel.stripTagsFrom false "a <> b < c" = "a <> b < c".
Proof.
  split; [reflexivity|]. split; [reflexivity|].
  apply X9_stripTags_leaves_no_tag. reflexivity.
Defined.

(** X10. [findPostsWithApprovedComments] returns exactly the published
    posts that some approved comment (a reply too) is attached to, each
    as often as it is stored, by descending publication date and
    without a cap. *)
Theorem X10_findPostsWithApprovedComments_exact :
  forall (posts : list Store.Post) (all : list Store.Comment)
         (users : list Store.User),
  exists rows,
    SearchService.findPostsWithApprovedComments posts all users = OK rows
    /\ (forall p,
          In p (List.map Populate.row_post rows) <->
          In p posts /\ Store.status p = Store.PUBLISHED
          /\ exists c, In c all /\ Store.isApproved c = true
                       /\ Store.comment_post c = Store.post_id p)
    /\ Permutation (List.map Populate.row_post rows)
         (List.filter
            (fun p => (Store.memId (Store.post_id p)
                         (SearchService.postsWithComments all)
                       && Store.PostStatus_eqb (Store.status p) Store.PUBLISHED)%bool)
            posts)
    /\ StronglySorted
         (fun a b => Store.dateLe (Store.publishedAt b) (Store.publishedAt a) = true)
         (List.map Populate.row_post rows).
Proof.
  intros posts all users.
  unfold SearchService.findPostsWithApprovedComments.
  eexists. split; [reflexivity|].
  rewrite List.map_map. cbn [Populate.row_post]. rewrite List.map_id.
  split; [|split].
  - intros p. rewrite StoreFacts.sortBy_In, filter_In, andb_true_iff.
    rewrite StoreFacts.memId_In. unfold SearchService.postsWithComments.
    rewrite nodup_In, in_map_iff. split.
    + intros (Hp & (c & Hc & Hin) & Hs). apply filter_In in Hin as [Hin Ha].
      split; [exact Hp|]. split; [now destruct (Store.status p)|]. now exists c.
    + intros (Hp & Hs & c & Hc & Ha & Hpost). split; [exact Hp|]. split.
      * exists c. split; [exact Hpost|]. now apply filter_In.
      * now rewrite Hs.
  - apply StoreFacts.sortBy_perm.
  - apply (StoreFacts.sortBy_sorted SearchService.byPublishedDesc);
      [apply SearchMoreFacts.byPublishedDesc_total
      | apply SearchMoreFacts.byPublishedDesc_trans].
Qed.

(** What a row of a search result satisfies. *)
Lemma searchPosts_rows_criteria :
  forall (regex : string -> Result (string -> bool))
         (textScore : string -> Store.Post -> option Z)
         (posts : list Store.Post) (users : list Store.User)
         (q : SearchService.SearchQuery) (rows : list Populate.PostRow),
    SearchService.searchPosts regex textScore posts users q = OK rows ->
    List.length rows <= 50
    /\ forall r, In r rows ->
         In (Populate.row_post r) posts
         /\ Populate.row_select r = Populate.Without ["content"]
         /\ Store.status (Populate.row_post r) = Store.PUBLISHED
         /\ (forall c cs, SearchService.q_categories q = Some (c :: cs) ->
               exists x, In x (Store.categories (Populate.row_post r))
                         /\ In x (c :: cs))
         /\ (forall t ts, SearchService.q_tags q = Some (t :: ts) ->
               exists x, In x (Store.tags (Populate.row_post r)) /\ In x (t :: ts))
         /\ (forall start stop, SearchService.q_dateRange q = Some (start, stop) ->
               exists t, Store.publishedAt (Populate.row_post r) = Some t
                         /\ (start <= t <= stop)%Z)
         /\ (forall m, SearchService.q_minViews q = Some m -> m <> 0%Z ->
               (m <= Store.views (Populate.row_post r))%Z)
         /\ (SearchService.q_hasImage q = Some true ->
             Store.featuredImage (Populate.row_post r) <> None)
         /\ (SearchService.q_hasImage q = Some false ->
             Store.featuredImage (Populate.row_post r) = None).
Proof.
  intros regex textScore posts users q rows Hrows.
  destruct (SearchFacts.searchPosts_ok regex textScore posts users q rows Hrows)
    as (authors & _ & _ & Hselect).
  destruct (SearchFacts.searchPosts_rows regex textScore posts users q rows Hrows)
    as (authors' & _ & Hlen & Hin).
  split; [exact Hlen|].
  intros r Hr. destruct (Hin r Hr) as [Hp Hf].
  set (p := Populate.row_post r) in *.
  split; [exact Hp|]. split; [exact (Hselect r Hr)|].
  unfold SearchService.searchFilter in Hf.
  repeat match goal with
         | H : (_ && _)%bool = true |- _ => apply andb_true_iff in H as [H ?]
         end.
  split; [now destruct (Store.status p)|].
  split.
  { intros c cs E. rewrite E in *. now apply SearchMoreFacts.anyIn_iff. }
  split.
  { intros t ts E. rewrite E in *. now apply SearchMoreFacts.anyIn_iff. }
  split.
  { intros start stop E.
    match goal with
    | H : context [SearchService.q_dateRange q] |- _ =>
        rewrite E in H; cbv beta iota in H;
        destruct (Store.publishedAt p) as [t|]; [|discriminate H];
        apply andb_true_iff in H as [Hlo Hhi]
    end.
    exists t. split; [reflexivity|].
    apply Z.leb_le in Hlo, Hhi. lia. }
  split.
  { intros m E Hm. rewrite E in *.
    destruct (Z.eqb_spec m 0); [contradiction|]. now apply Z.leb_le. }
  split.
  { intros E. rewrite E in *.
    destruct (Store.featuredImage p); [discriminate | discriminate]. }
  { intros E. rewrite E in *.
    destruct (Store.featuredImage p); [discriminate | reflexivity]. }
Qed.

(** X11. Every post a result of [searchPosts] holds is published and
    meets each criterion that is given: it shares a category with a
    non-empty category list and a tag with a non-empty tag list, its
    publication date is inside the date range (bounds included), it
    has at least a non-zero minimum of views, it has a featured image
    or has none as [hasImage] says, and with a non-empty author name
    it is written by a stored user whose first name, last name or
    username the engine matches to the name as a regular
    expression; no post is returned when the expression matches no
    stored user. The result has at most 50 rows and hides [content].
    The call fails with the engine's error when a non-empty author
    name is no regular expression. *)
Theorem X11_searchPosts_rows_meet_criteria :
  forall (regex : string -> Result (string -> bool))
         (textScore : string -> Store.Post -> option Z)
         (posts : list Store.Post) (users : list Store.User)
         (q : SearchService.SearchQuery),
    (forall rows,
        SearchService.searchPosts regex textScore posts users q = OK rows ->
        List.length rows <= 50
        /\ (forall name test,
              SearchService.q_author q = Some name -> name <> EmptyString ->
              regex name = OK test ->
              (forall u, In u users ->
                         test (Store.firstName u) = false
                         /\ test (Store.lastName u) = false
                         /\ test (Store.username u) = false) ->
              rows = [])
        /\ forall r, In r rows ->
             In (Populate.row_post r) posts
             /\ Populate.row_select r = Populate.Without ["content"]
             /\ Store.status (Populate.row_post r) = Store.PUBLISHED
             /\ (forall c cs, SearchService.q_categories q = Some (c :: cs) ->
                   exists x, In x (Store.categories (Populate.row_post r))
                             /\ In x (c :: cs))
             /\ (forall t ts, SearchService.q_tags q = Some (t :: ts) ->
                   exists x, In x (Store.tags (Populate.row_post r))
                             /\ In x (t :: ts))
             /\ (forall start stop,
                   SearchService.q_dateRange q = Some (start, stop) ->
                   exists t, Store.publishedAt (Populate.row_post r) = Some t
                             /\ (start <= t <= stop)%Z)
             /\ (forall m, SearchService.q_minViews q = Some m -> m <> 0%Z ->
                   (m <= Store.views (Populate.row_post r))%Z)
             /\ (SearchService.q_hasImage q = Some true ->
                 Store.featuredImage (Populate.row_post r) <> None)
             /\ (SearchService.q_hasImage q = Some false ->
                 Store.featuredImage (Populate.row_post r) = None)
             /\ (forall name test,
                   SearchService.q_author q = Some name -> name <> EmptyString ->
                   regex name = OK test ->
                   exists u, In u users
                             /\ Store.user_id u = Store.author (Populate.row_post r)
                             /\ (test (Store.firstName u) = true
                                 \/ test (Store.lastName u) = true
                                 \/ test (Store.username u) = true)))
    /\ (forall name e,
          SearchService.q_author q = Some name -> name <> EmptyString ->
          regex name = Err e ->
          SearchService.searchPosts regex textScore posts users q = Err e).
Proof.
  intros regex textScore posts users q. split.
  - intros rows Hrows.
    destruct (searchPosts_rows_criteria regex textScore posts users q rows Hrows)
      as [Hlen Hcriteria].
    destruct (SearchFacts.searchPosts_rows regex textScore posts users q rows Hrows)
      as (authors & Hauthors & _ & Hin).
    assert (Hby : forall name test r,
              SearchService.q_author q = Some name -> name <> EmptyString ->
              regex name = OK test -> In r rows ->
              exists ids,
                SearchService.findAuthorsByName regex users name = OK ids
                /\ In (Store.author (Populate.row_post r)) ids).
    { intros name test r Hq Hne Hc Hr.
      rewrite (SearchFacts.authorCriterion_name regex users q name Hq Hne) in Hauthors.
      destruct (SearchService.findAuthorsByName regex users name) as [ids|e];
        [|discriminate Hauthors].
      assert (E : authors = Some ids) by congruence.
      exists ids. split; [reflexivity|].
      destruct (Hin r Hr) as [_ Hf]. rewrite E in Hf.
      exact (SearchFacts.searchFilter_author textScore ids q _ Hf). }
    split; [exact Hlen|]. split.
    + intros name test Hq Hne Hc Hnone.
      destruct rows as [|r rows']; [reflexivity|]. exfalso.
      destruct (Hby name test r Hq Hne Hc (or_introl eq_refl)) as (ids & Hids & Hr).
      rewrite (SearchFacts.findAuthorsByName_none regex users name test Hc Hnone)
        in Hids.
      assert (ids = []) by congruence. subst ids. destruct Hr.
    + intros r Hr.
      destruct (Hcriteria r Hr) as (H1 & H2 & H3 & H4 & H5 & H6 & H7 & H8 & H9).
      repeat (split; [assumption|]).
      intros name test Hq Hne Hc.
      destruct (Hby name test r Hq Hne Hc Hr) as (ids & Hids & Hid).
      apply (SearchFacts.findAuthorsByName_In regex users name test ids _ Hc Hids).
      exact Hid.
  - intros name e Hq Hne He. unfold SearchService.searchPosts.
    rewrite (SearchFacts.authorCriterion_name regex users q name Hq Hne).
    unfold SearchService.findAuthorsByName. now rewrite He.
Qed.

(** X12. A criterion that is falsy is no criterion: an empty text, an
    empty list of categories or of tags, an empty author name and a
    minimum of zero views change nothing in the result. *)
Theorem X12_searchPosts_ignores_falsy_criteria :
  forall (regex : string -> Result (string -> bool))
         (textScore : string -> Store.Post -> option Z)
         (posts : list Store.Post) (users : list Store.User)
         (q : SearchService.SearchQuery),
    SearchService.searchPosts regex textScore posts users q
    = SearchService.searchPosts regex textScore posts users (Shape.dropFalsy q).
Proof.
  intros regex textScore posts users q. unfold SearchService.searchPosts.
  rewrite SearchMoreFacts.authorCriterion_dropFalsy.
  destruct (SearchService.authorCriterion regex users q) as [authors|e];
    [|reflexivity].
  do 3 f_equal.
  rewrite (List.filter_ext _ _
             (SearchMoreFacts.searchFilter_dropFalsy textScore authors q)).
  symmetry. apply SearchMoreFacts.sortBy_ext.
  apply SearchMoreFacts.searchOrder_dropFalsy.
Qed.

(** X13. A search by a non-empty list of categories only returns the
    published posts that have one of the categories, drafts never, by
    descending publication date; it returns all of them when they are at
    most 50, and otherwise 50 of them that are each at least as recent
    as any it leaves out. *)
Theorem X13_search_by_categories_only :
  forall (regex : string -> Result (string -> bool))
         (textScore : string -> Store.Post -> option Z)
         (posts : list Store.Post) (users : list Store.User)
         (c : string) (cs : list string),
  exists rows,
    SearchService.searchPosts regex textScore posts users
      (Shape.byCategories (c :: cs)) = OK rows
    /\ (forall r, In r rows ->
          In (Populate.row_post r) posts
          /\ Store.status (Populate.row_post r) = Store.PUBLISHED
          /\ exists x, In x (Store.categories (Populate.row_post r))
                       /\ In x (c :: cs))
    /\ (forall p x,
          In p posts -> Store.status p = Store.PUBLISHED ->
          In x (Store.categories p) -> In x (c :: cs) ->
          In p (List.map Populate.row_post rows)
          \/ (List.length rows = 50
              /\ forall r, In r rows ->
                   Store.dateLe (Store.publishedAt p)
                     (Store.publishedAt (Populate.row_post r)) = true))
    /\ StronglySorted
         (fun a b => Store.dateLe (Store.publishedAt b) (Store.publishedAt a) = true)
         (List.map Populate.row_post rows).
Proof.
  intros regex textScore posts users c cs.
  destruct (SearchService.searchPosts regex textScore posts users
              (Shape.byCategories (c :: cs))) as [rows|e] eqn:Hrows;
    [|discriminate Hrows].
  destruct (searchPosts_rows_criteria regex textScore posts users
              (Shape.byCategories (c :: cs)) rows Hrows) as [_ Hin].
  exists rows. split; [reflexivity|].
  unfold SearchService.searchPosts in Hrows.
  apply (f_equal (fun x => match x with OK v => v | Err _ => [] end)) in Hrows.
  cbv beta iota in Hrows.
  change (SearchService.authorCriterion regex users (Shape.byCategories (c :: cs)))
    with (@OK (option (list Store.ObjectId)) None) in Hrows.
  cbv beta iota in Hrows.
  assert (Hmap : List.map Populate.row_post rows
                 = Store.limit 50
                     (Store.sortBy SearchService.byPublishedDesc
                        (List.filter
                           (SearchService.searchFilter textScore None
                              (Shape.byCategories (c :: cs))) posts))).
  { rewrite <- Hrows, List.map_map. cbn [Populate.row_post]. now rewrite List.map_id. }
  split; [|split].
  - intros r Hr. destruct (Hin r Hr) as (H1 & _ & H2 & H3 & _).
    split; [exact H1|]. split; [exact H2|]. now apply (H3 c cs).
  - intros p x Hp Hs Hx Hc.
    assert (Hf : In p (List.filter
                         (SearchService.searchFilter textScore None
                            (Shape.byCategories (c :: cs))) posts)).
    { apply filter_In. split; [exact Hp|].
      unfold SearchService.searchFilter, Shape.byCategories. simpl.
      rewrite Hs. simpl. rewrite !andb_true_r.
      apply SearchMoreFacts.anyIn_iff. now exists x. }
    destruct (SearchMoreFacts.limit_top SearchService.byPublishedDesc 50 _ p
                SearchMoreFacts.byPublishedDesc_total
                SearchMoreFacts.byPublishedDesc_trans ltac:(lia) Hf) as [H|[H1 H2]].
    + left. now rewrite Hmap.
    + right. split.
      * rewrite <- (length_map Populate.row_post), Hmap. exact H1.
      * intros r Hr. apply (H2 (Populate.row_post r)). rewrite <- Hmap.
        now apply in_map.
  - rewrite Hmap.
    apply (SearchMoreFacts.limit_sorted SearchService.byPublishedDesc);
      [apply SearchMoreFacts.byPublishedDesc_total
      | apply SearchMoreFacts.byPublishedDesc_trans].
Qed.

(** A search by category, date range, views and image finds the one
    sample post that meets them; the author name "KHAN" finds the post
    of the one user of that name, "zed" finds nothing, and "(" is
    refused by the engine. *)
Lemma X11_searchPosts_witness :
  (exists r,
      SearchService.searchPosts Sample.regexSample Sample.noTextScore
        Sample.posts Sample.users
        (SearchService.mkSearchQuery None (Some ["Database"]) None None
           (Some (Sample.t0 - 2 * Sample.day, Sample.t0)%Z) (Some 50%Z) (Some false))
      = OK [r]
      /\ Populate.row_post r = Sample.mongoTips
      /\ (50 <= Store.views (Populate.row_post r))%Z)
  /\ (exists r u,
        SearchService.searchPosts Sample.regexSample Sample.noTextScore
          Sample.posts Sample.users (Sample.byAuthor "KHAN") = OK [r]
        /\ In u Sample.users
        /\ Store.user_id u = Store.author (Populate.row_post r)
        /\ Store.lastName u = "Khan")
  /\ SearchService.searchPosts Sample.regexSample Sample.noTextScore
       Sample.posts Sample.users (Sample.byAuthor "zed") = OK []
  /\ SearchService.searchPosts Sample.regexSample Sample.noTextScore
       Sample.posts Sample.users (Sample.byAuthor "(")
     = Err (Thrown "Regular expression is invalid: missing closing parenthesis").
Proof.
  split; [|split; [|split]].
  - destruct (X11_searchPosts_rows_meet_criteria Sample.regexSample
                Sample.noTextScore Sample.posts Sample.users
                (SearchService.mkSearchQuery None (Some ["Database"]) None None
                   (Some (Sample.t0 - 2 * Sample.day, Sample.t0)%Z) (Some 50%Z)
                   (Some false))) as (Hok & _).
    eexists. split; [vm_compute; reflexivity|]. split; [reflexivity|].
    destruct (Hok _ ltac:(vm_compute; reflexivity)) as (_ & _ & Hin).
    destruct (Hin _ (or_introl eq_refl)) as (_ & _ & _ & _ & _ & _ & Hviews & _).
    apply (Hviews 50%Z); [reflexivity | discriminate].
  - destruct (X11_searchPosts_rows_meet_criteria Sample.regexSample
                Sample.noTextScore Sample.posts Sample.users (Sample.byAuthor "KHAN"))
      as (Hok & _).
    destruct (Hok _ ltac:(vm_compute; reflexivity)) as (_ & _ & Hin).
    destruct (Hin _ (or_introl eq_refl))
      as (_ & _ & _ & _ & _ & _ & _ & _ & _ & Hauthor).
    destruct (Hauthor "KHAN" _ eq_refl ltac:(discriminate) eq_refl)
      as (u & Hu & Hid & _).
    eexists _, u. split; [vm_compute; reflexivity|]. split; [exact Hu|].
    split; [exact Hid|].
    destruct Hu as [<-|[<-|[]]]; [reflexivity | discriminate Hid].
  - destruct (X11_searchPosts_rows_meet_criteria Sample.regexSample
                Sample.noTextScore Sample.posts Sample.users (Sample.byAuthor "zed"))
      as (Hok & _).
    destruct (SearchService.searchPosts Sample.regexSample Sample.noTextScore
                Sample.posts Sample.users (Sample.byAuthor "zed"))
      as [rows|e] eqn:Hrows; [|vm_compute in Hrows; discriminate Hrows].
    f_equal.
    destruct (Hok rows eq_refl) as (_ & Hnone & _).
    apply (Hnone "zed" _ eq_refl ltac:(discriminate) eq_refl).
    intros u [<-|[<-|[]]]; vm_compute; auto.
  - destruct (X11_searchPosts_rows_meet_criteria Sample.regexSample
                Sample.noTextScore Sample.posts Sample.users (Sample.byAuthor "("))
      as (_ & Herr).
    apply (Herr "("); [reflexivity | discriminate | reflexivity].
Defined.

Lemma X13_search_by_categories_witness :
  exists r1 r2,
    SearchService.searchPosts Sample.regexSample Sample.noTextScore
      Sample.posts Sample.users (Shape.byCategories ["Technology"]) = OK [r1; r2]
    /\ Populate.row_post r1 = Sample.mongoTips
    /\ Populate.row_post r2 = Sample.mongoose101
    /\ In Sample.draftNotes Sample.posts
    /\ In "Technology" (Store.categories Sample.draftNotes)
    /\ Store.status (Populate.row_post r1) = Store.PUBLISHED.
Proof.
  destruct (X13_search_by_categories_only Sample.regexSample Sample.noTextScore
              Sample.posts Sample.users "Technology" []) as (rows & Hrows & Hin & _).
  vm_compute in Hrows. injection Hrows as <-.
  eexists _, _. split; [vm_compute; reflexivity|].
  split; [reflexivity|]. split; [reflexivity|].
  split; [right; right; left; reflexivity|]. split; [left; reflexivity|].
  apply (Hin _ (or_introl eq_refl)).
Defined.

(** X14. For a source post that is stored, [findSimilarPosts] returns
    published posts other than the source that share a category or a
    tag with it, by descending publication date, at most [limit] of
    them (5 when no limit is given); a post of that kind that is left
    out is no more recent than any returned one. A source without
    categories and tags has no similar post. *)
Theorem X14_findSimilarPosts_rows :
  forall (posts : list Store.Post) (users : list Store.User) (postId : string)
         (lim : option nat) (id : Store.ObjectId) (source : Store.Post),
    Store.castObjectId postId = Some id ->
    Store.findById Store.post_id id posts = Some source ->
    exists rows,
      SearchService.findSimilarPosts posts users postId lim = OK rows
      /\ (forall r, In r rows ->
            In (Populate.row_post r) posts
            /\ Store.post_id (Populate.row_post r) <> id
            /\ Store.status (Populate.row_post r) = Store.PUBLISHED
            /\ ((exists x, In x (Store.categories (Populate.row_post r))
                           /\ In x (Store.categories source))
                \/ (exists x, In x (Store.tags (Populate.row_post r))
                              /\ In x (Store.tags source))))
      /\ (forall n, 0 < n -> lim = Some n \/ (lim = None /\ n = 5) ->
            List.length rows <= n
            /\ forall p x,
                 In p posts -> Store.post_id p <> id ->
                 Store.status p = Store.PUBLISHED ->
                 (In x (Store.categories p) /\ In x (Store.categories source))
                 \/ (In x (Store.tags p) /\ In x (Store.tags source)) ->
                 In p (List.map Populate.row_post rows)
                 \/ (List.length rows = n
                     /\ forall r, In r rows ->
                          Store.dateLe (Store.publishedAt p)
                            (Store.publishedAt (Populate.row_post r)) = true))
      /\ StronglySorted
           (fun a b => Store.dateLe (Store.publishedAt b) (Store.publishedAt a) = true)
           (List.map Populate.row_post rows)
      /\ (Store.categories source = [] -> Store.tags source = [] -> rows = []).
Proof.
  intros posts users postId lim id source Hc Hf.
  unfold SearchService.findSimilarPosts. rewrite Hc, Hf.
  set (similar := fun p : Store.Post =>
                    (negb (N.eqb (Store.post_id p) id)
                     && Store.PostStatus_eqb (Store.status p) Store.PUBLISHED
                     && (Store.anyIn (Store.categories p) (Store.categories source)
                         || Store.anyIn (Store.tags p) (Store.tags source)))%bool).
  set (n := match lim with Some k => k | None => 5 end).
  eexists. split; [reflexivity|].
  rewrite List.map_map. cbn [Populate.row_post]. rewrite List.map_id.
  assert (Hsim : forall p, similar p = true ->
            Store.post_id p <> id /\ Store.status p = Store.PUBLISHED
            /\ ((exists x, In x (Store.categories p) /\ In x (Store.categories source))
                \/ (exists x, In x (Store.tags p) /\ In x (Store.tags source)))).
  { intros p H. unfold similar in H.
    apply andb_true_iff in H as [H Hshare]. apply andb_true_iff in H as [Hne Hs].
    apply negb_true_iff, N.eqb_neq in Hne.
    split; [exact Hne|]. split; [now destruct (Store.status p)|].
    apply orb_true_iff in Hshare as [H|H]; apply SearchMoreFacts.anyIn_iff in H; auto. }
  split; [|split; [|split]].
  - intros r Hr. apply in_map_iff in Hr as (p & <- & Hp). cbn [Populate.row_post].
    apply StoreFacts.limit_In, StoreFacts.sortBy_In, filter_In in Hp as [Hp Hs].
    split; [exact Hp|]. now apply Hsim.
  - intros k Hk Hlim.
    assert (Hn : n = k) by (subst n; destruct Hlim as [->|[-> ->]]; reflexivity).
    rewrite length_map, Hn. split; [now apply SearchMoreFacts.limit_length|].
    intros p x Hp Hne Hs Hshare.
    assert (Hin : In p (List.filter similar posts)).
    { apply filter_In. split; [exact Hp|]. unfold similar.
      apply N.eqb_neq in Hne. rewrite Hne, Hs. simpl.
      apply orb_true_iff.
      destruct Hshare as [[H1 H2]|[H1 H2]]; [left | right];
        apply SearchMoreFacts.anyIn_iff; now exists x. }
    destruct (SearchMoreFacts.limit_top SearchService.byPublishedDesc k _ p
                SearchMoreFacts.byPublishedDesc_total
                SearchMoreFacts.byPublishedDesc_trans Hk Hin) as [H|[H1 H2]];
      [now left | right].
    split; [exact H1|]. intros r Hr.
    apply in_map_iff in Hr as (q & <- & Hq). cbn [Populate.row_post]. now apply H2.
  - apply (SearchMoreFacts.limit_sorted SearchService.byPublishedDesc);
      [apply SearchMoreFacts.byPublishedDesc_total
      | apply SearchMoreFacts.byPublishedDesc_trans].
  - intros Hcat Htag.
    assert (Hnone : List.filter similar posts = []).
    { clear Hf. induction posts as [|p l IH]; [reflexivity|]. simpl.
      assert (Hp : similar p = false).
      { unfold similar. rewrite Hcat, Htag. unfold Store.anyIn.
        assert (forall l, List.existsb (fun x => List.existsb (String.eqb x) []) l
                          = false) as Hex
            by (intros m; induction m; simpl; auto).
        rewrite !Hex. apply andb_false_r. }
      now rewrite Hp. }
    rewrite Hnone. now destruct n.
Qed.

Lemma X14_findSimilarPosts_witness :
  exists r,
    SearchService.findSimilarPosts Sample.posts Sample.users Sample.id2 (Some 1)
    = OK [r]
    /\ Populate.row_post r = Sample.mongoose101
    /\ Store.post_id (Populate.row_post r) <> 2%N.
Proof.
  destruct (X14_findSimilarPosts_rows Sample.posts Sample.users Sample.id2 (Some 1)
              2%N Sample.mongoTips) as (rows & Hrows & Hin & _);
    [reflexivity | reflexivity |].
  vm_compute in Hrows. injection Hrows as <-.
  eexists. split; [vm_compute; reflexivity|]. split; [reflexivity|].
  apply (Hin _ (or_introl eq_refl)).
Defined.

(* ------------------------------------------------------------------ *)
(** *** Pages, updates and sorted sublists *)
(* ------------------------------------------------------------------ *)

Module PageFacts.
Import Store PostService.

Lemma sorted_filter {A : Type} (R : A -> A -> Prop) (f : A -> bool) l :
  StronglySorted R l -> StronglySorted R (List.filter f l).
Proof.
  induction 1 as [|x l Hs IH Hx]; simpl; [constructor|].
  destruct (f x); [|exact IH]. constructor; [exact IH|].
  rewrite Forall_forall in Hx |- *. intros y Hy.
  apply filter_In in Hy as [Hy _]. now apply Hx.
Qed.

Lemma sorted_impl {A : Type} (R S : A -> A -> Prop) l :
  (forall a b, R a b -> S a b) -> StronglySorted R l -> StronglySorted S l.
Proof.
  intros H. induction 1 as [|x l Hs IH Hx]; constructor; [exact IH|].
  eapply Forall_impl; [|exact Hx]. intros y. apply H.
Qed.

Lemma skipn_In {A : Type} n (l : list A) x : In x (List.skipn n l) -> In x l.
Proof.
  intros H. rewrite <- (List.firstn_skipn n l). apply in_or_app. now right.
Qed.

Lemma sorted_skipn {A : Type} (R : A -> A -> Prop) n l :
  StronglySorted R l -> StronglySorted R (List.skipn n l).
Proof.
  revert n. induction l as [|x l IH]; intros n H; [now destruct n|].
  destruct n as [|n]; [exact H|]. simpl.
  apply StronglySorted_inv in H as [H _]. now apply IH.
Qed.

Lemma window_sorted {A : Type} (before : A -> A -> bool) page lim l :
  StronglySorted (fun a b => before a b = true) l ->
  StronglySorted (fun a b => before a b = true) (window page lim l).
Proof.
  intros H. unfold window. apply (StoreFacts.sorted_firstn_sorted before).
  now apply sorted_skipn.
Qed.

Lemma window_length {A : Type} page lim (l : list A) :
  List.length (window page lim l) <= Pos.to_nat lim.
Proof. unfold window. apply List.firstn_le_length. Qed.

Lemma window_In {A : Type} page lim (l : list A) x :
  In x (window page lim l) -> In x l.
Proof.
  unfold window. intros H. apply StoreFacts.firstn_In in H.
  now apply skipn_In in H.
Qed.

Lemma window_beyond {A : Type} page lim (l : list A) :
  List.length l <= (Pos.to_nat page - 1) * Pos.to_nat lim ->
  window page lim l = [].
Proof.
  intros H. unfold window. rewrite List.skipn_all2 by exact H.
  apply List.firstn_nil.
Qed.

Lemma firstn_step {A : Type} a b (l : list A) :
  (List.firstn a l ++ List.firstn b (List.skipn a l))%list = List.firstn (a + b) l.
Proof.
  revert l. induction a as [|a IH]; intros l; [reflexivity|].
  destruct l as [|x l]; simpl; [now rewrite List.firstn_nil|].
  now rewrite IH.
Qed.

(** The pages 1, ..., n one after the other are the first [n * limit]
    entries. *)
Lemma window_tiles {A : Type} lim (l : list A) n :
  List.flat_map (fun k => window k lim l) (Shape.pageNumbers n)
  = List.firstn (n * Pos.to_nat lim) l.
Proof.
  unfold Shape.pageNumbers. induction n as [|n IH]; [reflexivity|].
  rewrite List.seq_S, List.map_app, List.flat_map_app, IH. simpl.
  rewrite List.app_nil_r. unfold window at 1.
  rewrite SuccNat2Pos.id_succ. simpl. rewrite Nat.sub_0_r.
  rewrite firstn_step. f_equal. lia.
Qed.

Lemma totalPages_nat count lim :
  count <= Z.to_nat (totalPages (Z.of_nat count) (Z.pos lim)) * Pos.to_nat lim
  /\ (0 <= totalPages (Z.of_nat count) (Z.pos lim))%Z.
Proof.
  unfold totalPages, ReadTime.ceilDiv.
  pose proof (Z.div_mod (- Z.of_nat count) (Z.pos lim) ltac:(lia)) as Hdm.
  pose proof (Z.mod_pos_bound (- Z.of_nat count) (Z.pos lim) ltac:(lia)) as Hb.
  assert (Hq : (0 <= - (- Z.of_nat count / Z.pos lim))%Z) by nia.
  split; [|exact Hq]. apply Nat2Z.inj_le.
  rewrite Nat2Z.inj_mul, Z2Nat.id by exact Hq.
  rewrite positive_nat_Z. nia.
Qed.

(** All the pages together are the whole list. *)
Lemma window_all {A : Type} lim (l : list A) :
  List.flat_map (fun k => window k lim l)
    (Shape.pageNumbers
       (Z.to_nat (totalPages (Z.of_nat (List.length l)) (Z.pos lim))))
  = l.
Proof.
  rewrite window_tiles. apply List.firstn_all2.
  apply (totalPages_nat (List.length l) lim).
Qed.

(** When no two entries have the same sort key, a list has one
    sorted arrangement only. *)
Lemma sorted_perm_unique {A K : Type} (key : A -> K) (before : A -> A -> bool) l m :
  (forall a b, before a b = true -> before b a = true -> key a = key b) ->
  NoDup (List.map key l) -> Permutation l m ->
  StronglySorted (fun a b => before a b = true) l ->
  StronglySorted (fun a b => before a b = true) m -> l = m.
Proof.
  intros Hanti. revert m. induction l as [|x l IH]; intros m Hnd Hp Hl Hm.
  - now apply Permutation_nil in Hp.
  - destruct m as [|y m];
      [apply Permutation_sym, Permutation_nil in Hp; discriminate|].
    simpl in Hnd. apply NoDup_cons_iff in Hnd as [Hx Hnd].
    apply StronglySorted_inv in Hl as [Hl Hxl].
    apply StronglySorted_inv in Hm as [Hm Hym].
    rewrite Forall_forall in Hxl, Hym.
    assert (E : x = y).
    { assert (Hxm : In x (y :: m))
        by (eapply Permutation_in; [exact Hp | now left]).
      assert (Hyl : In y (x :: l))
        by (eapply Permutation_in; [apply Permutation_sym, Hp | now left]).
      destruct Hxm as [->|Hxm]; [reflexivity|].
      destruct Hyl as [->|Hyl]; [reflexivity|].
      exfalso. apply Hx. rewrite (Hanti x y (Hxl y Hyl) (Hym x Hxm)).
      now apply in_map. }
    subst y. f_equal. apply IH; auto. now apply Permutation_cons_inv in Hp.
Qed.

Lemma NoDup_map_filter {A K : Type} (key : A -> K) (f : A -> bool) l :
  NoDup (List.map key l) -> NoDup (List.map key (List.filter f l)).
Proof.
  induction l as [|x l IH]; [auto|]. simpl. intros H.
  apply NoDup_cons_iff in H as [Hx H].
  destruct (f x); [|auto]. simpl. constructor; [|auto].
  intros Hin. apply Hx. apply in_map_iff in Hin as (y & Hy & Hin).
  apply filter_In in Hin as [Hin _]. apply in_map_iff. now exists y.
Qed.

Lemma sortBy_constant {A : Type} (l : list A) : sortBy (fun _ _ => true) l = l.
Proof.
  induction l as [|x l IH]; [reflexivity|]. simpl. rewrite IH. now destruct l.
Qed.

Section Update.
Context {A : Type} (key : A -> ObjectId) (upd : A -> A).
Hypothesis upd_key : forall d, key (upd d) = key d.

Lemma updateById_keys id l :
  List.map key (updateById key upd id l) = List.map key l.
Proof.
  induction l as [|d l IH]; [reflexivity|]. simpl.
  destruct (N.eqb (key d) id); simpl; [now rewrite upd_key | now rewrite IH].
Qed.

Lemma updateById_length id l :
  List.length (updateById key upd id l) = List.length l.
Proof.
  induction l as [|d l IH]; [reflexivity|]. simpl.
  destruct (N.eqb (key d) id); simpl; [reflexivity | now rewrite IH].
Qed.

Lemma updateById_absent id l :
  findById key id l = None -> updateById key upd id l = l.
Proof.
  unfold findById. induction l as [|d l IH]; [reflexivity|]. simpl.
  destruct (N.eqb (key d) id); [discriminate|]. intros H. now rewrite IH.
Qed.

(** The document with the id is updated and found again under it. *)
Lemma updateById_found id l d :
  findById key id l = Some d ->
  findById key id (updateById key upd id l) = Some (upd d).
Proof.
  unfold findById. induction l as [|x l IH]; [discriminate|]. simpl.
  destruct (N.eqb (key x) id) eqn:E.
  - intros [= <-]. simpl. now rewrite upd_key, E.
  - intros H. simpl. rewrite E. now apply IH.
Qed.

(** The documents with another id are the old ones. *)
Lemma updateById_others id l x :
  key x <> id -> (In x (updateById key upd id l) <-> In x l).
Proof.
  intros Hx. induction l as [|y l IH]; [reflexivity|]. simpl.
  destruct (N.eqb (key y) id) eqn:E; simpl.
  - apply N.eqb_eq in E. split; (intros [H|H]; [left | now right]).
    + subst x. now rewrite upd_key in Hx.
    + now subst y.
  - now rewrite IH.
Qed.

(** One document changes, so a sum over the collection changes by
    what the update adds to it. *)
Lemma total_updateById (f : A -> Z) id l d :
  findById key id l = Some d ->
  Shape.total f (updateById key upd id l)
  = (Shape.total f l - f d + f (upd d))%Z.
Proof.
  unfold findById. induction l as [|x l IH]; [discriminate|]. simpl.
  destruct (N.eqb (key x) id).
  - intros [= <-]. simpl. lia.
  - intros H. simpl. rewrite (IH H). lia.
Qed.

Lemma findById_present id l x :
  In x l -> key x = id -> exists d, findById key id l = Some d.
Proof.
  intros Hin Hk. unfold findById.
  destruct (List.find (fun d => N.eqb (key d) id) l) as [d|] eqn:E;
    [now exists d|].
  apply (List.find_none _ _ E) in Hin. apply N.eqb_neq in Hin. contradiction.
Qed.

End Update.

End PageFacts.

Module ThreadOrder.
Import Store PostService.

Lemma byCreatedDesc_total a b : byCreatedDesc a b = true \/ byCreatedDesc b a = true.
Proof. unfold byCreatedDesc. rewrite !Z.leb_le. lia. Qed.

Lemma byCreatedDesc_trans a b c :
  byCreatedDesc a b = true -> byCreatedDesc b c = true -> byCreatedDesc a c = true.
Proof. unfold byCreatedDesc. rewrite !Z.leb_le. lia. Qed.

Lemma byCreatedAsc_total a b : byCreatedAsc a b = true \/ byCreatedAsc b a = true.
Proof. unfold byCreatedAsc. rewrite !Z.leb_le. lia. Qed.

Lemma byCreatedAsc_trans a b c :
  byCreatedAsc a b = true -> byCreatedAsc b c = true -> byCreatedAsc a c = true.
Proof. unfold byCreatedAsc. rewrite !Z.leb_le. lia. Qed.

Lemma topLevel_iff id c :
  topLevel id c = true
  <-> comment_post c = id /\ isApproved c = true /\ parentComment c = None.
Proof.
  unfold topLevel. rewrite !andb_true_iff, N.eqb_eq.
  destruct (parentComment c); intuition congruence.
Qed.

(** The replies shown under a comment: at most fifty, by ascending
    creation time. *)
Lemma repliesOf_sorted users all parents c :
  List.length (repliesOf users (fetchReplies all parents) c) <= 50
  /\ StronglySorted
       (fun a b => (comment_createdAt a <= comment_createdAt b)%Z)
       (List.map reply_comment (repliesOf users (fetchReplies all parents) c)).
Proof.
  unfold repliesOf. rewrite length_map, List.map_map. cbn [reply_comment].
  rewrite List.map_id. split; [apply List.firstn_le_length|].
  assert (H : StronglySorted (fun a b => byCreatedAsc a b = true)
                (fetchReplies all parents)).
  { unfold fetchReplies.
    apply SearchMoreFacts.limit_sorted;
      [apply byCreatedAsc_total | apply byCreatedAsc_trans]. }
  apply (PageFacts.sorted_filter _
           (fun r => match parentComment r with
                     | Some p => N.eqb p (comment_id c)
                     | None => false
                     end)) in H.
  apply (StoreFacts.sorted_firstn_sorted byCreatedAsc replyLimit) in H.
  eapply PageFacts.sorted_impl; [|exact H].
  intros a b Hab. now apply Z.leb_le.
Qed.

End ThreadOrder.

(** X15. [getPostWithComments] on a stored post returns the post with
    at most fifty threads: each an approved top-level comment of that
    post, newest first, and a comment of that kind that is left out is
    no newer than any of the fifty shown. Under a thread stand at most
    fifty comments, each a direct reply to it, oldest first. For an id
    no post has the result is no post and no comments, whatever
    comments are stored; a string that is not 24 characters long is
    refused as an invalid post ID. *)
Theorem X15_getPostWithComments_threads :
  forall (posts : list Store.Post) (all : list Store.Comment)
         (users : list Store.User) (postId : string),
    (forall id p,
        Store.castObjectId postId = Some id ->
        Store.findById Store.post_id id posts = Some p ->
        exists row threads,
          PostService.getPostWithComments posts all users postId
          = OK (PostService.mkPostWithComments (Some row) threads)
          /\ Populate.row_post row = p
          /\ List.length threads <= 50
          /\ (forall t, In t threads ->
                Store.comment_post (PostService.thread_comment t) = id
                /\ Store.parentComment (PostService.thread_comment t) = None
                /\ List.length (PostService.replies t) <= 50
                /\ (forall r, In r (PostService.replies t) ->
                      Store.parentComment (PostService.reply_comment r)
                      = Some (Store.comment_id (PostService.thread_comment t)))
                /\ StronglySorted
                     (fun a b => (Store.comment_createdAt a
                                  <= Store.comment_createdAt b)%Z)
                     (List.map PostService.reply_comment (PostService.replies t)))
          /\ StronglySorted
               (fun a b => (Store.comment_createdAt b <= Store.comment_createdAt a)%Z)
               (List.map PostService.thread_comment threads)
          /\ (forall c, In c all ->
                Store.comment_post c = id -> Store.isApproved c = true ->
                Store.parentComment c = None ->
                In c (List.map PostService.thread_comment threads)
                \/ (List.length threads = 50
                    /\ forall t, In t threads ->
                         (Store.comment_createdAt c
                          <= Store.comment_createdAt (PostService.thread_comment t))%Z)))
    /\ (forall id,
          Store.castObjectId postId = Some id ->
          (forall p, In p posts -> Store.post_id p <> id) ->
          PostService.getPostWithComments posts all users postId
          = OK (PostService.mkPostWithComments None []))
    /\ (String.length postId <> 24 ->
        PostService.getPostWithComments posts all users postId
        = Err (Thrown "Invalid post ID")).
Proof.
  intros posts all users postId. split; [|split].
  - intros id p Hc Hf. unfold PostService.getPostWithComments. rewrite Hc, Hf.
    set (top := Store.limit 50 (Store.sortBy PostService.byCreatedDesc
                                  (List.filter (PostService.topLevel id) all))).
    eexists _, _. split; [reflexivity|]. split; [reflexivity|].
    rewrite List.map_map, length_map. cbn [PostService.thread_comment].
    rewrite List.map_id.
    split; [apply SearchMoreFacts.limit_length; lia|]. split; [|split].
    + intros t Ht. apply in_map_iff in Ht as (c & <- & Hin).
      cbn [PostService.thread_comment PostService.replies].
      apply StoreFacts.limit_In, StoreFacts.sortBy_In, filter_In in Hin as [_ Htop].
      apply ThreadOrder.topLevel_iff in Htop as (Hpost & _ & Hparent).
      split; [exact Hpost|]. split; [exact Hparent|].
      destruct (ThreadOrder.repliesOf_sorted users all
                  (List.map Store.comment_id top) c) as [Hlen Hsorted].
      split; [exact Hlen|]. split; [|exact Hsorted].
      intros r Hr. now apply ThreadFacts.repliesOf_approved in Hr as (_ & _ & Hr).
    + eapply PageFacts.sorted_impl;
        [|apply (SearchMoreFacts.limit_sorted PostService.byCreatedDesc);
          [apply ThreadOrder.byCreatedDesc_total
          | apply ThreadOrder.byCreatedDesc_trans]].
      intros a b Hab. now apply Z.leb_le.
    + intros c Hin Hpost Happroved Hparent.
      assert (Hc' : In c (List.filter (PostService.topLevel id) all)).
      { apply filter_In. split; [exact Hin|]. now apply ThreadOrder.topLevel_iff. }
      destruct (SearchMoreFacts.limit_top PostService.byCreatedDesc 50 _ c
                  ThreadOrder.byCreatedDesc_total ThreadOrder.byCreatedDesc_trans
                  ltac:(lia) Hc') as [H|[H1 H2]]; [now left | right].
      split; [exact H1|]. intros t Ht.
      apply in_map_iff in Ht as (d & <- & Hd). cbn [PostService.thread_comment].
      apply Z.leb_le. exact (H2 d Hd).
  - intros id Hc Hnone. unfold PostService.getPostWithComments.
    now rewrite Hc, (StoreFacts.findById_none _ _ _ Hnone).
  - intros Hlen. unfold PostService.getPostWithComments, Store.castObjectId.
    apply Nat.eqb_neq in Hlen. now rewrite Hlen.
Qed.

(** The first sample post has one approved top-level comment with one
    approved reply; the ninth id is of no post. *)
Lemma X15_getPostWithComments_witness :
  (exists row t r,
      PostService.getPostWithComments Sample.posts Sample.comments Sample.users
        Sample.id1
      = OK (PostService.mkPostWithComments (Some row) [t])
      /\ PostService.replies t = [r]
      /\ Store.comment_post (PostService.thread_comment t) = 1%N
      /\ Store.parentComment (PostService.reply_comment r)
         = Some (Store.comment_id (PostService.thread_comment t)))
  /\ PostService.getPostWithComments Sample.posts Sample.comments Sample.users
       Sample.id9
     = OK (PostService.mkPostWithComments None [])
  /\ PostService.getPostWithComments Sample.posts Sample.comments Sample.users "1"
     = Err (Thrown "Invalid post ID").
Proof.
  destruct (X15_getPostWithComments_threads Sample.posts Sample.comments
              Sample.users Sample.id1) as (Hfound & _ & _).
  destruct (X15_getPostWithComments_threads Sample.posts Sample.comments
              Sample.users Sample.id9) as (_ & Hnone & _).
  destruct (X15_getPostWithComments_threads Sample.posts Sample.comments
              Sample.users "1") as (_ & _ & Hbad).
  split; [|split].
  - destruct (Hfound 1%N Sample.mongoose101 eq_refl eq_refl)
      as (row & threads & Hres & _ & _ & Hthreads & _).
    vm_compute in Hres.
    apply (f_equal (fun x => match x with
                             | OK v => PostService.comments v
                             | Err _ => []
                             end)) in Hres.
    cbv beta iota zeta in Hres. cbn [PostService.comments] in Hres. subst threads.
    eexists _, _, _. split; [vm_compute; reflexivity|].
    split; [reflexivity|].
    destruct (Hthreads _ (or_introl eq_refl)) as (Hpost & _ & _ & Hreplies & _).
    split; [exact Hpost|]. apply Hreplies. left. reflexivity.
  - apply (Hnone 9%N); [reflexivity|].
    intros p [<-|[<-|[<-|[]]]]; discriminate.
  - apply Hbad. discriminate.
Defined.

(** X16. [getPostBySlug] never fails and never adds, removes or
    reorders a post. When it returns a post, that post is a stored
    published one whose slug is the lowercased argument, it is returned
    as it was read (before the count), the views of the collection grow
    by exactly one, the posts with another id are the old ones, at most
    ten likers are shown, and an author is shown only if active. When
    it returns none, no published post has the slug and the collection
    is unchanged. *)
Theorem X16_getPostBySlug_counts_one_view :
  forall (now : Store.Date) (posts : list Store.Post) (users : list Store.User)
         (wanted : string),
    exists res posts',
      PostService.getPostBySlug now posts users wanted = OK (res, posts')
      /\ List.map Store.post_id posts' = List.map Store.post_id posts
      /\ match res with
         | Some r =>
             In (Populate.row_post (PostService.found r)) posts
             /\ Store.status (Populate.row_post (PostService.found r))
                = Store.PUBLISHED
             /\ Store.slug (Populate.row_post (PostService.found r))
                = JsString.toLowerCase wanted
             /\ Shape.total Store.views posts'
                = (Shape.total Store.views posts + 1)%Z
             /\ (forall q, In q posts' ->
                   Store.post_id q
                   <> Store.post_id (Populate.row_post (PostService.found r)) ->
                   In q posts)
             /\ List.length (PostService.likedBy r) <= 10
             /\ (forall v,
                   Populate.row_author (PostService.found r) = Some v ->
                   exists u, In u users
                             /\ Store.user_id u
                                = Store.author (Populate.row_post (PostService.found r))
                             /\ Store.isActive u = true)
         | None =>
             posts' = posts
             /\ forall p, In p posts -> Store.status p = Store.PUBLISHED ->
                          Store.slug p <> JsString.toLowerCase wanted
         end.
Proof.
  intros now posts users wanted. unfold PostService.getPostBySlug.
  destruct (List.find (PostService.slugFilter wanted) posts) as [p|] eqn:E.
  - eexists _, _. split; [reflexivity|].
    set (upd := fun q => PostModel.setUpdatedAt now
                           (PostModel.setViews (Store.views q + 1)%Z q)).
    assert (Hkey : forall d, Store.post_id (upd d) = Store.post_id d)
      by reflexivity.
    split; [apply (PageFacts.updateById_keys Store.post_id upd Hkey)|].
    cbn [PostService.found PostService.likedBy Populate.row_post Populate.row_author].
    apply List.find_some in E as [Hin Hf]. unfold PostService.slugFilter in Hf.
    apply andb_true_iff in Hf as [Hslug Hstatus]. apply String.eqb_eq in Hslug.
    split; [exact Hin|]. split; [now destruct (Store.status p)|].
    split; [exact Hslug|]. split; [|split; [|split]].
    + destruct (PageFacts.findById_present Store.post_id (Store.post_id p) posts p
                  Hin eq_refl) as (d & Hd).
      change (PostService.incrementViews now posts (Store.post_id p))
        with (Store.updateById Store.post_id upd (Store.post_id p) posts).
      rewrite (PageFacts.total_updateById Store.post_id upd Store.views _ _ _ Hd).
      unfold upd. simpl. lia.
    + intros q Hq Hne. unfold PostService.incrementViews in Hq.
      now apply (PageFacts.updateById_others Store.post_id upd Hkey) in Hq.
    + unfold PostService.populateLikes. apply List.firstn_le_length.
    + intros v Hv. unfold PostService.populateActiveAuthor in Hv.
      destruct (Store.findById Store.user_id (Store.author p) users) as [u|] eqn:Eu;
        [|discriminate].
      destruct (Store.isActive u) eqn:Ea; [|discriminate].
      apply StoreFacts.findById_some in Eu as [Hu Hid]. now exists u.
  - eexists _, _. split; [reflexivity|]. split; [reflexivity|].
    split; [reflexivity|]. intros p Hin Hstatus Hslug.
    apply (List.find_none _ _ E) in Hin. unfold PostService.slugFilter in Hin.
    rewrite Hslug, String.eqb_refl, Hstatus in Hin. discriminate.
Qed.

(** The second sample post is read with its 80 views and stored with
    81; the draft is not served under its slug. *)
Lemma X16_getPostBySlug_witness :
  (exists r posts',
      PostService.getPostBySlug Sample.t0 Sample.posts Sample.users "MongoDB-Tips"
      = OK (Some r, posts')
      /\ Store.views (Populate.row_post (PostService.found r)) = 80%Z
      /\ Shape.total Store.views posts' = 181%Z)
  /\ PostService.getPostBySlug Sample.t0 Sample.posts Sample.users "notes"
     = OK (None, Sample.posts).
Proof.
  split.
  - destruct (X16_getPostBySlug_counts_one_view Sample.t0 Sample.posts Sample.users
                "MongoDB-Tips") as (res & posts' & Hres & _ & H).
    destruct res as [r|];
      [|vm_compute in Hres; discriminate].
    exists r, posts'. split; [exact Hres|].
    destruct H as (_ & _ & _ & Htotal & _). split; [|exact Htotal].
    vm_compute in Hres.
    apply (f_equal (fun x => match x with
                             | OK (Some v, _) =>
                                 Store.views (Populate.row_post (PostService.found v))
                             | _ => 0%Z
                             end)) in Hres.
    cbv beta iota zeta in Hres.
    cbn [Store.views Populate.row_post PostService.found] in Hres.
    symmetry. exact Hres.
  - destruct (X16_getPostBySlug_counts_one_view Sample.t0 Sample.posts Sample.users
                "notes") as (res & posts' & Hres & _ & H).
    destruct res as [r|];
      [vm_compute in Hres; discriminate|].
    destruct H as [-> _]. exact Hres.
Defined.

Module CategoryFacts.
Import Store Populate PostService.

Lemma categoryFilter_iff now category p :
  categoryFilter now category p = true
  <-> In category (categories p) /\ status p = PUBLISHED
      /\ exists t, publishedAt p = Some t /\ (t <= now)%Z.
Proof.
  unfold categoryFilter. rewrite !andb_true_iff, existsb_exists. split.
  - intros [[(x & Hx & E) Hs] Hp]. apply String.eqb_eq in E. subst x.
    split; [exact Hx|]. split; [now destruct (status p)|].
    destruct (publishedAt p) as [t|]; [|discriminate].
    exists t. split; [reflexivity | now apply Z.leb_le].
  - intros (Hc & Hs & t & Ht & Hle). rewrite Hs, Ht. repeat split.
    + exists category. split; [exact Hc | apply String.eqb_refl].
    + now apply Z.leb_le.
Qed.

Lemma categoryOrder_total by_ order a b :
  categoryOrder by_ order a b = true \/ categoryOrder by_ order b a = true.
Proof.
  unfold categoryOrder. destruct by_, order; simpl; rewrite ?Z.leb_le; auto; lia.
Qed.

Lemma categoryOrder_trans by_ order a b c :
  categoryOrder by_ order a b = true -> categoryOrder by_ order b c = true ->
  categoryOrder by_ order a c = true.
Proof.
  unfold categoryOrder. destruct by_, order; simpl; rewrite ?Z.leb_le; auto; lia.
Qed.

(** The posts of a page of [getPostsByCategory]. *)
Lemma postsOfPage_window now posts users category options :
  Shape.postsOfPage (getPostsByCategory now posts users category options)
  = window (match opt_page options with Some n => n | None => 1%positive end)
           (match opt_limit options with Some n => n | None => 10%positive end)
           (sortBy (categoryOrder
                      (match opt_sortBy options with
                       | Some b => b
                       | None => SortCreatedAt
                       end)
                      (match opt_sortOrder options with
                       | Some o => o
                       | None => Desc
                       end))
                   (List.filter (categoryFilter now category) posts)).
Proof.
  unfold getPostsByCategory, Shape.postsOfPage. cbn [page_posts].
  rewrite List.map_map. cbn [row_post]. apply List.map_id.
Qed.

End CategoryFacts.

Lemma categoryOrder_antisym by_ order a b :
  PostService.categoryOrder by_ order a b = true ->
  PostService.categoryOrder by_ order b a = true ->
  PostService.sortKey by_ a = PostService.sortKey by_ b.
Proof.
  unfold PostService.categoryOrder.
  destruct by_, order; simpl; rewrite ?Z.leb_le; intros H1 H2;
    try reflexivity; f_equal; lia.
Qed.

(** X17. For a page number and a limit that are positive, a page
    that [getPostsByCategory] returns holds at most [limit] posts (10
    when none is given), each a stored post of the category that is
    published with a publication date not after the current time,
    shown without its content; sorted by views or by creation time
    the page is in that order; the counts are positive when some post
    matches, and a page after the last is empty. When no two matching
    posts have the same sort key, the page is the same whichever
    arrangement in the order asked for the engine makes of the
    matching posts, and the pages 1 to [totalPages], asked with the
    same options, then hold every matching post exactly once. *)
Theorem X17_getPostsByCategory_pages :
  forall (now : Store.Date) (posts : list Store.Post) (users : list Store.User)
         (category : string) (options : PostService.CategoryOptions)
         (pg : PostService.PostPage),
    PostService.getPostsByCategory now posts users category options = OK pg ->
    List.length (PostService.page_posts pg) <= Pos.to_nat (Shape.limitOf options)
    /\ (forall r, In r (PostService.page_posts pg) ->
          In (Populate.row_post r) posts
          /\ In category (Store.categories (Populate.row_post r))
          /\ Store.status (Populate.row_post r) = Store.PUBLISHED
          /\ (exists t, Store.publishedAt (Populate.row_post r) = Some t
                        /\ (t <= now)%Z)
          /\ Populate.row_select r = Populate.Without ["content"])
    /\ (forall p, In p posts -> In category (Store.categories p) ->
          Store.status p = Store.PUBLISHED ->
          (exists t, Store.publishedAt p = Some t /\ (t <= now)%Z) ->
          0 < PostService.page_totalCount pg
          /\ (0 < PostService.page_totalPages pg)%Z)
    /\ ((PostService.page_totalPages pg
         < Z.pos (PostService.page_currentPage pg))%Z ->
        PostService.page_posts pg = [])
    /\ (PostService.opt_sortBy options = Some PostService.SortViews ->
        StronglySorted
          (fun a b =>
             match PostService.opt_sortOrder options with
             | Some PostService.Asc => (Store.views a <= Store.views b)%Z
             | _ => (Store.views b <= Store.views a)%Z
             end)
          (List.map Populate.row_post (PostService.page_posts pg)))
    /\ (PostService.opt_sortBy options = None
        \/ PostService.opt_sortBy options = Some PostService.SortCreatedAt ->
        StronglySorted
          (fun a b =>
             match PostService.opt_sortOrder options with
             | Some PostService.Asc =>
                 (Store.post_createdAt a <= Store.post_createdAt b)%Z
             | _ => (Store.post_createdAt b <= Store.post_createdAt a)%Z
             end)
          (List.map Populate.row_post (PostService.page_posts pg)))
    /\ (NoDup
          (List.map (PostService.sortKey (Shape.sortByOf options))
             (List.filter (PostService.categoryFilter now category) posts)) ->
        (forall arrangement,
            Permutation arrangement
              (List.filter (PostService.categoryFilter now category) posts) ->
            Shape.inCategoryOrder options arrangement ->
            List.map Populate.row_post (PostService.page_posts pg)
            = PostService.window (Shape.pageOf options) (Shape.limitOf options)
                arrangement)
        /\ Permutation
             (List.flat_map
                (fun k =>
                   Shape.postsOfPage
                     (PostService.getPostsByCategory now posts users category
                        (Shape.onPage k options)))
                (Shape.pageNumbers (Z.to_nat (PostService.page_totalPages pg))))
             (List.filter
                (fun p =>
                   (List.existsb (String.eqb category) (Store.categories p)
                    && Store.PostStatus_eqb (Store.status p) Store.PUBLISHED
                    && match Store.publishedAt p with
                       | Some t => (t <=? now)%Z
                       | None => false
                       end)%bool)
                posts)).
Proof.
  intros now posts users category options pg H.
  pose (page := Shape.pageOf options).
  pose (lim := Shape.limitOf options).
  pose (by_ := Shape.sortByOf options).
  pose (order := Shape.sortOrderOf options).
  pose (matching := List.filter (PostService.categoryFilter now category) posts).
  pose (sorted := Store.sortBy (PostService.categoryOrder by_ order) matching).
  assert (Hpages : forall k,
             Shape.postsOfPage
               (PostService.getPostsByCategory now posts users category
                  (Shape.onPage k options))
             = PostService.window k lim sorted)
    by (intros k; apply CategoryFacts.postsOfPage_window).
  assert (Hpg : pg = PostService.mkPostPage
                       (List.map
                          (fun p => Populate.mkPostRow p (Populate.Without ["content"])
                                      (Populate.populateUser users Populate.authorNames
                                         (Store.author p)))
                          (PostService.window page lim sorted))
                       (List.length matching) page
                       (PostService.totalPages (Z.of_nat (List.length matching))
                          (Z.pos lim))).
  { unfold PostService.getPostsByCategory in H.
    apply (f_equal (fun x => match x with OK v => v | Err _ => pg end)) in H.
    cbv beta iota zeta in H. symmetry. exact H. }
  clear H. subst pg.
  cbn [PostService.page_posts PostService.page_totalCount
       PostService.page_totalPages PostService.page_currentPage].
  fold lim by_ page.
  assert (Hlen : List.length sorted = List.length matching)
    by apply StoreFacts.sortBy_length.
  assert (Hordered : StronglySorted
                       (fun a b => PostService.categoryOrder by_ order a b = true)
                       sorted).
  { apply (StoreFacts.sortBy_sorted (PostService.categoryOrder by_ order)
             (CategoryFacts.categoryOrder_total by_ order)
             (CategoryFacts.categoryOrder_trans by_ order) matching). }
  assert (Hsorted : StronglySorted
                      (fun a b => PostService.categoryOrder by_ order a b = true)
                      (PostService.window page lim sorted))
    by now apply PageFacts.window_sorted.
  assert (Hrows : List.map Populate.row_post
                    (List.map
                       (fun p => Populate.mkPostRow p (Populate.Without ["content"])
                                   (Populate.populateUser users Populate.authorNames
                                      (Store.author p)))
                       (PostService.window page lim sorted))
                  = PostService.window page lim sorted).
  { rewrite List.map_map. cbn [Populate.row_post]. apply List.map_id. }
  split; [|split; [|split; [|split; [|split; [|split]]]]].
  - rewrite length_map. apply PageFacts.window_length.
  - intros r Hr. apply in_map_iff in Hr as (p & <- & Hp).
    cbn [Populate.row_post Populate.row_select].
    apply PageFacts.window_In, StoreFacts.sortBy_In, filter_In in Hp as [Hp Hf].
    apply CategoryFacts.categoryFilter_iff in Hf as (Hc & Hs & Ht).
    repeat split; auto.
  - intros p Hp Hc Hs Ht.
    assert (Hin : In p matching).
    { apply filter_In. split; [exact Hp|].
      apply CategoryFacts.categoryFilter_iff. auto. }
    assert (Hpos : 0 < List.length matching)
      by (destruct matching; [destruct Hin | simpl; lia]).
    split; [exact Hpos|].
    destruct (PageFacts.totalPages_nat (List.length matching) lim) as [Hcover Hnn].
    destruct (Z.eq_dec
                (PostService.totalPages (Z.of_nat (List.length matching)) (Z.pos lim))
                0) as [E|E]; [|lia].
    rewrite E in Hcover. simpl in Hcover. lia.
  - intros Hbeyond. rewrite (PageFacts.window_beyond page lim sorted); [reflexivity|].
    rewrite Hlen.
    destruct (PageFacts.totalPages_nat (List.length matching) lim) as [Hcover Hnn].
    eapply Nat.le_trans; [exact Hcover|].
    apply Nat.mul_le_mono_r. lia.
  - intros Hby. rewrite Hrows.
    eapply PageFacts.sorted_impl; [|exact Hsorted].
    intros a b. subst by_ order. unfold Shape.sortByOf, Shape.sortOrderOf.
    rewrite Hby. unfold PostService.categoryOrder.
    simpl. destruct (PostService.opt_sortOrder options) as [[|]|];
      now rewrite Z.leb_le.
  - intros Hby. rewrite Hrows.
    eapply PageFacts.sorted_impl; [|exact Hsorted].
    intros a b. subst by_ order. unfold Shape.sortByOf, Shape.sortOrderOf.
    unfold PostService.categoryOrder.
    destruct Hby as [-> | ->]; simpl;
      destruct (PostService.opt_sortOrder options) as [[|]|];
      now rewrite Z.leb_le.
  - intros Hkeys. split.
    + intros arrangement Hperm Hin. rewrite Hrows. f_equal.
      symmetry.
      apply (PageFacts.sorted_perm_unique (PostService.sortKey by_)
               (PostService.categoryOrder by_ order));
        [apply categoryOrder_antisym | | | exact Hin | exact Hordered].
      * eapply Permutation_NoDup; [|exact Hkeys].
        apply Permutation_map, Permutation_sym, Hperm.
      * eapply Permutation_trans; [exact Hperm|].
        apply Permutation_sym, StoreFacts.sortBy_perm.
    + rewrite (List.flat_map_ext _ _ Hpages), <- Hlen, PageFacts.window_all.
      apply StoreFacts.sortBy_perm.
Qed.

(** Two sample posts are of the category Technology and published by
    [t0], with 100 and 80 views; by views and one to a page, the
    second page holds the less viewed one, whichever way the engine
    sorts. *)
Lemma X17_getPostsByCategory_witness :
  exists pg,
    PostService.getPostsByCategory Sample.t0 Sample.posts Sample.users "Technology"
      (PostService.mkCategoryOptions (Some 2%positive) (Some 1%positive)
         (Some PostService.SortViews) None)
    = OK pg
    /\ List.map Populate.row_post (PostService.page_posts pg) = [Sample.mongoTips]
    /\ PostService.page_totalPages pg = 2%Z
    /\ List.length (PostService.page_posts pg) <= 1
    /\ List.map Populate.row_post (PostService.page_posts pg)
       = PostService.window 2 1 [Sample.mongoose101; Sample.mongoTips].
Proof.
  eexists. split; [vm_compute; reflexivity|].
  destruct (X17_getPostsByCategory_pages Sample.t0 Sample.posts Sample.users
              "Technology"
              (PostService.mkCategoryOptions (Some 2%positive) (Some 1%positive)
                 (Some PostService.SortViews) None) _
              ltac:(vm_compute; reflexivity))
    as (Hlen & _ & _ & _ & _ & _ & Hdistinct).
  split; [reflexivity|]. split; [reflexivity|]. split; [exact Hlen|].
  destruct Hdistinct as [Hany _].
  - repeat constructor; simpl; intros Hin; repeat destruct Hin as [Hin|Hin];
      try discriminate; auto.
  - apply (Hany [Sample.mongoose101; Sample.mongoTips]).
    + apply Permutation_refl.
    + repeat constructor.
Defined.

(** X18. Asked to sort by likes, [getPostsByCategory] sorts on the
    path [likesCount], a virtual that no stored document has: every
    post has the same (missing) sort key, so the page is cut from the
    matching posts in their stored order, the same for both sort
    orders, and a post with fewer likes can stand before one with
    more. *)
Theorem X18_sort_by_likes_keeps_stored_order :
  forall (now : Store.Date) (posts : list Store.Post) (users : list Store.User)
         (category : string) (page limit_ : option positive)
         (order : option PostService.SortOrder),
    Shape.postsOfPage
      (PostService.getPostsByCategory now posts users category
         (PostService.mkCategoryOptions page limit_ (Some PostService.SortLikes)
            order))
    = PostService.window
        (match page with Some n => n | None => 1%positive end)
        (match limit_ with Some n => n | None => 10%positive end)
        (List.filter (PostService.categoryFilter now category) posts)
    /\ Shape.postsOfPage
         (PostService.getPostsByCategory now posts users category
            (PostService.mkCategoryOptions page limit_ (Some PostService.SortLikes)
               (Some PostService.Asc)))
       = Shape.postsOfPage
           (PostService.getPostsByCategory now posts users category
              (PostService.mkCategoryOptions page limit_
                 (Some PostService.SortLikes) (Some PostService.Desc))).
Proof.
  intros now posts users category page limit_ order.
  assert (H : forall o,
             Shape.postsOfPage
               (PostService.getPostsByCategory now posts users category
                  (PostService.mkCategoryOptions page limit_
                     (Some PostService.SortLikes) o))
             = PostService.window
                 (match page with Some n => n | None => 1%positive end)
                 (match limit_ with Some n => n | None => 10%positive end)
                 (List.filter (PostService.categoryFilter now category) posts)).
  { intros o. rewrite CategoryFacts.postsOfPage_window.
    cbn [PostService.opt_page PostService.opt_limit PostService.opt_sortBy
         PostService.opt_sortOrder].
    f_equal. rewrite <- (PageFacts.sortBy_constant (List.filter _ posts)) at 2.
    apply SearchMoreFacts.sortBy_ext. reflexivity. }
  split; [apply H|]. now rewrite !H.
Qed.

(** By likes, descending, the sample post with four likes stands
    before the one with ten. *)
Lemma X18_sort_by_likes_witness :
  Shape.postsOfPage
    (PostService.getPostsByCategory Sample.t0 Sample.posts Sample.users "Technology"
       (PostService.mkCategoryOptions None None (Some PostService.SortLikes)
          (Some PostService.Desc)))
  = [Sample.mongoose101; Sample.mongoTips]
  /\ PostModel.likesCount Sample.mongoose101 = 4%Z
  /\ PostModel.likesCount Sample.mongoTips = 10%Z.
Proof.
  split; [|split; reflexivity].
  destruct (X18_sort_by_likes_keeps_stored_order Sample.t0 Sample.posts
              Sample.users "Technology" None None (Some PostService.Desc))
    as [H _].
  rewrite H. reflexivity.
Defined.

Module UsersFacts.
Import JsString Store UserService.

Lemma newestFirst_total a b : newestFirst a b = true \/ newestFirst b a = true.
Proof. unfold newestFirst. rewrite !Z.leb_le. lia. Qed.

Lemma newestFirst_trans a b c :
  newestFirst a b = true -> newestFirst b c = true -> newestFirst a c = true.
Proof. unfold newestFirst. rewrite !Z.leb_le. lia. Qed.

Lemma newestFirst_antisym a b :
  newestFirst a b = true -> newestFirst b a = true ->
  user_createdAt a = user_createdAt b.
Proof. unfold newestFirst. rewrite !Z.leb_le. lia. Qed.

Lemma usersOfPage_window regex users options search :
  searchCriterion regex options = OK search ->
  Shape.usersOfPage (getUsers regex users options)
  = PostService.window
      (match users_page options with Some n => n | None => 1%positive end)
      (match users_limit options with Some n => n | None => 10%positive end)
      (sortBy newestFirst (List.filter (usersFilter search options) users)).
Proof.
  intros H. unfold getUsers, Shape.usersOfPage. rewrite H. cbn [page_users].
  rewrite List.map_map. cbn [row_user]. apply List.map_id.
Qed.

(** What the search of the options compiles to. *)
Lemma searchCriterion_cases regex options search :
  searchCriterion regex options = OK search ->
  match search with
  | Some test =>
      exists s, users_search options = Some s /\ s <> EmptyString
                /\ regex s = OK test
  | None => users_search options = None \/ users_search options = Some EmptyString
  end.
Proof.
  unfold searchCriterion. destruct (users_search options) as [s|].
  - destruct s as [|c s]; simpl.
    + intros [= <-]. now right.
    + destruct (regex (String c s)) as [test|e] eqn:E; [|discriminate].
      intros [= <-]. exists (String c s). repeat split; [discriminate | exact E].
  - intros [= <-]. now left.
Qed.

End UsersFacts.

(** X19. For a page number and a limit that are positive, a page
    that [getUsers] returns holds at most [limit] users (10 when none
    is given), newest first, each a stored user shown without the
    password whose [isActive] is the one asked for (active when none
    is), who has the role asked for, and whose first name, last name,
    username or email the engine matches to a non-empty search as a
    regular expression. A page after the last is empty. When no two
    stored users were created at the same time, the page is the same
    whichever newest-first arrangement the engine makes of the
    matching users, and the pages 1 to [totalPages], asked with the
    same options, then hold every matching user exactly once. The
    call fails with the engine's error when a non-empty search is no
    regular expression. *)
Theorem X19_getUsers_pages :
  forall (regex : string -> Result (string -> bool)) (users : list Store.User)
         (options : UserService.UsersOptions),
    (forall pg,
        UserService.getUsers regex users options = OK pg ->
        List.length (UserService.page_users pg)
        <= Pos.to_nat (match UserService.users_limit options with
                       | Some n => n
                       | None => 10%positive
                       end)
        /\ (forall r, In r (UserService.page_users pg) ->
              In (UserService.row_user r) users
              /\ UserService.row_hidden r = ["password"]
              /\ Store.isActive (UserService.row_user r)
                 = match UserService.users_isActive options with
                   | Some b => b
                   | None => true
                   end
              /\ (forall role, UserService.users_role options = Some role ->
                    role <> EmptyString ->
                    exists x, In x (Store.roles (UserService.row_user r))
                              /\ UserService.roleName x = role)
              /\ (forall search test,
                    UserService.users_search options = Some search ->
                    search <> EmptyString ->
                    regex search = OK test ->
                    test (Store.firstName (UserService.row_user r)) = true
                    \/ test (Store.lastName (UserService.row_user r)) = true
                    \/ test (Store.username (UserService.row_user r)) = true
                    \/ test (Store.email (UserService.row_user r)) = true))
        /\ StronglySorted
             (fun a b => (Store.user_createdAt b <= Store.user_createdAt a)%Z)
             (List.map UserService.row_user (UserService.page_users pg))
        /\ ((UserService.users_totalPages pg
             < Z.pos (UserService.users_currentPage pg))%Z ->
            UserService.page_users pg = [])
        /\ exists search,
             UserService.searchCriterion regex options = OK search
             /\ UserService.users_totalCount pg
                = List.length
                    (List.filter (UserService.usersFilter search options) users)
             /\ (NoDup (List.map Store.user_createdAt users) ->
                 (forall arrangement,
                     Permutation arrangement
                       (List.filter (UserService.usersFilter search options) users) ->
                     Shape.newestFirstOrder arrangement ->
                     List.map UserService.row_user (UserService.page_users pg)
                     = PostService.window
                         (match UserService.users_page options with
                          | Some n => n
                          | None => 1%positive
                          end)
                         (match UserService.users_limit options with
                          | Some n => n
                          | None => 10%positive
                          end)
                         arrangement)
                 /\ Permutation
                      (List.flat_map
                         (fun k =>
                            Shape.usersOfPage
                              (UserService.getUsers regex users
                                 (Shape.onUsersPage k options)))
                         (Shape.pageNumbers
                            (Z.to_nat (UserService.users_totalPages pg))))
                      (List.filter (UserService.usersFilter search options) users)))
    /\ (forall search e,
          UserService.users_search options = Some search ->
          search <> EmptyString ->
          regex search = Err e ->
          UserService.getUsers regex users options = Err e).
Proof.
  intros regex users options. split.
  - intros pg H.
    destruct (UserService.searchCriterion regex options) as [search|e] eqn:Hsearch;
      [|unfold UserService.getUsers in H; rewrite Hsearch in H; discriminate H].
    pose (page := match UserService.users_page options with
                  | Some n => n | None => 1%positive end).
    pose (lim := match UserService.users_limit options with
                 | Some n => n | None => 10%positive end).
    pose (matching := List.filter (UserService.usersFilter search options) users).
    pose (sorted := Store.sortBy UserService.newestFirst matching).
    assert (Hpages : forall k,
               Shape.usersOfPage
                 (UserService.getUsers regex users (Shape.onUsersPage k options))
               = PostService.window k lim sorted)
      by (intros k;
          apply (UsersFacts.usersOfPage_window regex users
                   (Shape.onUsersPage k options) search);
          exact Hsearch).
    assert (Hpg : pg = UserService.mkUsersPage
                         (List.map (fun u => UserService.mkUserRow u ["password"])
                            (PostService.window page lim sorted))
                         (List.length matching) page
                         (PostService.totalPages (Z.of_nat (List.length matching))
                            (Z.pos lim))).
    { unfold UserService.getUsers in H. rewrite Hsearch in H.
      apply (f_equal (fun x => match x with OK v => v | Err _ => pg end)) in H.
      cbv beta iota zeta in H. symmetry. exact H. }
    clear H. subst pg.
    cbn [UserService.page_users UserService.users_totalCount
         UserService.users_totalPages UserService.users_currentPage].
    fold lim page.
    assert (Hlen : List.length sorted = List.length matching)
      by apply StoreFacts.sortBy_length.
    assert (Hordered : StronglySorted
                         (fun a b => UserService.newestFirst a b = true) sorted)
      by apply (StoreFacts.sortBy_sorted UserService.newestFirst
                  UsersFacts.newestFirst_total UsersFacts.newestFirst_trans).
    assert (Hrows : List.map UserService.row_user
                      (List.map (fun u => UserService.mkUserRow u ["password"])
                         (PostService.window page lim sorted))
                    = PostService.window page lim sorted).
    { rewrite List.map_map. cbn [UserService.row_user]. apply List.map_id. }
    pose proof (UsersFacts.searchCriterion_cases regex options search Hsearch)
      as Hcases.
    split; [|split; [|split; [|split]]].
    + rewrite length_map. apply PageFacts.window_length.
    + intros r Hr. apply in_map_iff in Hr as (u & <- & Hu).
      cbn [UserService.row_user UserService.row_hidden].
      apply PageFacts.window_In, StoreFacts.sortBy_In, filter_In in Hu as [Hu Hf].
      unfold UserService.usersFilter in Hf.
      apply andb_true_iff in Hf as [Hf Hmatch].
      apply andb_true_iff in Hf as [Hactive Hrole].
      split; [exact Hu|]. split; [reflexivity|].
      split; [now apply Bool.eqb_prop|]. split.
      * intros role E Hne. rewrite E in Hrole.
        destruct role as [|c role]; [contradiction|]. cbn [JsString.truthy] in Hrole.
        apply existsb_exists in Hrole as (x & Hx & Ex).
        apply String.eqb_eq in Ex. now exists x.
      * intros s test E Hne Hc.
        destruct search as [test'|].
        -- destruct Hcases as (s' & Hs' & _ & Hc').
           assert (s' = s) by congruence. subst s'.
           assert (test' = test) by congruence. subst test'.
           rewrite !orb_true_iff in Hmatch. tauto.
        -- destruct Hcases as [Hn|Hn]; rewrite E in Hn; congruence.
    + rewrite Hrows.
      eapply PageFacts.sorted_impl; [|apply PageFacts.window_sorted, Hordered].
      intros a b Hab. now apply Z.leb_le.
    + intros Hbeyond.
      rewrite (PageFacts.window_beyond page lim sorted); [reflexivity|].
      rewrite Hlen.
      destruct (PageFacts.totalPages_nat (List.length matching) lim) as [Hcover Hnn].
      eapply Nat.le_trans; [exact Hcover|].
      apply Nat.mul_le_mono_r. lia.
    + exists search. split; [reflexivity|]. split; [reflexivity|].
      intros Hkeys. split.
      * intros arrangement Hperm Hin. rewrite Hrows. f_equal. symmetry.
        apply (PageFacts.sorted_perm_unique Store.user_createdAt
                 UserService.newestFirst);
          [apply UsersFacts.newestFirst_antisym | | | exact Hin | exact Hordered].
        -- eapply Permutation_NoDup;
             [apply Permutation_map, Permutation_sym, Hperm|].
           now apply PageFacts.NoDup_map_filter.
        -- eapply Permutation_trans; [exact Hperm|].
           apply Permutation_sym, StoreFacts.sortBy_perm.
      * rewrite (List.flat_map_ext _ _ Hpages), <- Hlen, PageFacts.window_all.
        apply StoreFacts.sortBy_perm.
  - intros search e Hs Hne He. unfold UserService.getUsers, UserService.searchCriterion.
    rewrite Hs. destruct search as [|c search]; [contradiction|].
    cbn [JsString.truthy]. now rewrite He.
Qed.

Module UserMoreFacts.
Import JsString Store UserService StoreFacts.

Lemma toLowerChar_idem c : toLowerChar (toLowerChar c) = toLowerChar c.
Proof. destruct c as [[] [] [] [] [] [] [] []]; reflexivity. Qed.

Lemma toLowerCase_idem s : toLowerCase (toLowerCase s) = toLowerCase s.
Proof.
  induction s as [|c t IH]; [reflexivity|]. simpl.
  now rewrite toLowerChar_idem, IH.
Qed.

(** [getUserByEmail] lowercases an argument the setter lowercases
    again. *)
Lemma normalizeEmail_lower mail :
  normalizeEmail (toLowerCase mail) = normalizeEmail mail.
Proof. unfold normalizeEmail. now rewrite toLowerCase_idem. Qed.

Lemma existsb_false_all {A : Type} (f : A -> bool) l :
  List.existsb f l = false -> forall x, In x l -> f x = false.
Proof.
  intros H x Hx. destruct (f x) eqn:E; [|reflexivity].
  assert (List.existsb f l = true) by (apply existsb_exists; now exists x).
  congruence.
Qed.

Lemma violatedIndex_none users u :
  violatedIndex users u = None ->
  ~ In (user_id u) (List.map user_id users)
  /\ ~ In (email u) (List.map email users)
  /\ ~ In (username u) (List.map username users).
Proof.
  unfold violatedIndex.
  destruct (memId _ _) eqn:Ei; [discriminate|].
  destruct (List.existsb (fun v => String.eqb (email v) (email u)) users) eqn:Ee;
    [discriminate|].
  destruct (List.existsb (fun v => String.eqb (username v) (username u)) users)
    eqn:En; [discriminate|].
  intros _. split; [|split].
  - intros H. apply memId_In in H. congruence.
  - intros H. apply in_map_iff in H as (v & Hv & Hin).
    apply (existsb_false_all _ _ Ee) in Hin. rewrite Hv, String.eqb_refl in Hin.
    discriminate.
  - intros H. apply in_map_iff in H as (v & Hv & Hin).
    apply (existsb_false_all _ _ En) in Hin. rewrite Hv, String.eqb_refl in Hin.
    discriminate.
Qed.

(** What a successful creation says. *)
Lemma createUser_ok now newId users d u users' :
  createUser now newId users d = OK (u, users') ->
  u = newUser now newId d /\ users' = (users ++ [u])%list
  /\ userFailures u = [] /\ violatedIndex users u = None.
Proof.
  unfold createUser.
  destruct (List.find (existingFilter d) users); [discriminate|].
  unfold save. destruct (userFailures (newUser now newId d)) eqn:Ef.
  - destruct (violatedIndex users (newUser now newId d)) eqn:Ev; [discriminate|].
    intros H.
    assert (Hu : u = newUser now newId d) by congruence.
    assert (Hl : users' = (users ++ [newUser now newId d])%list) by congruence.
    subst u. now rewrite Hl.
  - discriminate.
Qed.

Lemma NoDup_snoc {A : Type} (l : list A) x :
  NoDup l -> ~ In x l -> NoDup (l ++ [x]).
Proof.
  intros Hl Hx. apply NoDup_app; [exact Hl | repeat constructor; intros [] | ].
  intros a Ha [<-|[]]. contradiction.
Qed.

Lemma find_snoc {A : Type} (f : A -> bool) l x :
  (forall y, In y l -> f y = false) -> f x = true ->
  List.find f (l ++ [x]) = Some x.
Proof.
  intros Hl Hx. induction l as [|y l IH]; simpl; [now rewrite Hx|].
  rewrite (Hl y (or_introl eq_refl)). apply IH. intros z Hz. apply Hl. now right.
Qed.

End UserMoreFacts.

(** The search for jo, case ignored, lists the one sample user of that
    name, without the password; the search "(" is refused by the
    engine. *)
Lemma X19_getUsers_witness :
  (exists pg r,
      UserService.getUsers Sample.regexSample Sample.users
        (UserService.mkUsersOptions None None (Some "user") None (Some "JO"))
      = OK pg
      /\ UserService.page_users pg = [r]
      /\ UserService.row_user r = Sample.john
      /\ UserService.row_hidden r = ["password"])
  /\ UserService.getUsers Sample.regexSample Sample.users
       (UserService.mkUsersOptions None None None None (Some "("))
     = Err (Thrown "Regular expression is invalid: missing closing parenthesis").
Proof.
  split.
  - destruct (X19_getUsers_pages Sample.regexSample Sample.users
                (UserService.mkUsersOptions None None (Some "user") None (Some "JO")))
      as (Hok & _).
    eexists _, _. split; [vm_compute; reflexivity|]. split; [reflexivity|].
    split; [reflexivity|].
    destruct (Hok _ ltac:(vm_compute; reflexivity)) as (_ & Hrows & _).
    apply (Hrows _ (or_introl eq_refl)).
  - destruct (X19_getUsers_pages Sample.regexSample Sample.users
                (UserService.mkUsersOptions None None None None (Some "(")))
      as (_ & Herr).
    apply (Herr "("); [reflexivity | discriminate | reflexivity].
Defined.

(** X20. A successful [createUser] appends one active user whose email
    is the given one lowercased and trimmed; it keeps the collection
    free of duplicate ids, emails and usernames; and [getUserByEmail]
    on the new collection then returns that user, without the
    password, for the given email in any letter case and with any
    surrounding white space. *)
Theorem X20_createUser_then_getUserByEmail :
  forall (now : Store.Date) (newId : Store.ObjectId) (users users' : list Store.User)
         (userData : UserService.UserInput) (u : Store.User),
    UserService.createUser now newId users userData = OK (u, users') ->
    users' = (users ++ [u])%list
    /\ Store.isActive u = true
    /\ Store.email u
       = JsString.trim (JsString.toLowerCase (UserService.in_email userData))
    /\ Store.password u = UserService.in_password userData
    /\ (Shape.uniqueKeys users -> Shape.uniqueKeys users')
    /\ forall mail,
         JsString.trim (JsString.toLowerCase mail)
         = JsString.trim (JsString.toLowerCase (UserService.in_email userData)) ->
         UserService.getUserByEmail users' mail
         = OK (Some (UserService.mkUserRow u ["password"])).
Proof.
  intros now newId users users' d u H.
  apply UserMoreFacts.createUser_ok in H as (Hu & Hl & _ & Hv).
  apply UserMoreFacts.violatedIndex_none in Hv as (Hid & Hemail & Hname).
  split; [exact Hl|]. split; [now subst u|]. split; [now subst u|].
  split; [now subst u|]. split.
  - intros (H1 & H2 & H3). subst users'. unfold Shape.uniqueKeys.
    rewrite !List.map_app. simpl.
    repeat split; now apply UserMoreFacts.NoDup_snoc.
  - intros mail Hmail. unfold UserService.getUserByEmail.
    rewrite UserMoreFacts.normalizeEmail_lower. subst users'.
    rewrite (UserMoreFacts.find_snoc _ users u); [reflexivity| |].
    + intros y Hy. apply andb_false_iff. left. apply String.eqb_neq.
      intros E. apply Hemail. apply in_map_iff. exists y. split; [|exact Hy].
      rewrite E. unfold UserService.normalizeEmail. rewrite Hmail. now subst u.
    + apply andb_true_iff. split; [|now subst u].
      apply String.eqb_eq. unfold UserService.normalizeEmail. rewrite Hmail.
      now subst u.
Qed.

(** Jane, registered with a capital and a leading space in her email,
    is found under the email in capitals. *)
Lemma X20_createUser_witness :
  exists u users',
    UserService.createUser Sample.t0 3%N Sample.users
      (UserService.mkUserInput " Jane@Example.com" "jane_doe" "Jane" "Doe"
         "long enough" (Some 30%Z) None)
    = OK (u, users')
    /\ Store.email u = "jane@example.com"
    /\ UserService.getUserByEmail users' "JANE@EXAMPLE.COM "
       = OK (Some (UserService.mkUserRow u ["password"])).
Proof.
  eexists _, _. split; [vm_compute; reflexivity|]. split; [reflexivity|].
  refine (proj2 (proj2 (proj2 (proj2 (proj2
            (X20_createUser_then_getUserByEmail Sample.t0 3%N Sample.users _
               (UserService.mkUserInput " Jane@Example.com" "jane_doe" "Jane" "Doe"
                  "long enough" (Some 30%Z) None) _ _)))))
            "JANE@EXAMPLE.COM " _).
  - vm_compute. reflexivity.
  - vm_compute. reflexivity.
Defined.

Module DeleteFacts.
Import JsString Store UserService StoreFacts.

Lemma setActive_key now b d : user_id (setActive now b d) = user_id d.
Proof. reflexivity. Qed.

Lemma setLastLogin_key now d : user_id (setLastLogin now d) = user_id d.
Proof. reflexivity. Qed.

Lemma updateById_map {A B : Type} (key : A -> ObjectId) (upd : A -> A)
      (f : A -> B) id l :
  (forall d, f (upd d) = f d) ->
  List.map f (updateById key upd id l) = List.map f l.
Proof.
  intros H. induction l as [|d l IH]; [reflexivity|]. simpl.
  destruct (N.eqb (key d) id); simpl; [now rewrite H | now rewrite IH].
Qed.

(** With unique emails, after the update of the user with the id no
    user with that user's email is left as it was. *)
Lemma updated_email_owner (upd : User -> User) id users u v :
  (forall d, email (upd d) = email d) ->
  NoDup (List.map email users) ->
  findById user_id id users = Some u ->
  In v (updateById user_id upd id users) ->
  email v = email u -> v = upd u.
Proof.
  intros Hupd. unfold findById.
  induction users as [|x l IH]; [discriminate|]. simpl.
  intros Hnd Hf Hv Hmail. apply NoDup_cons_iff in Hnd as [Hx Hnd].
  destruct (N.eqb (user_id x) id) eqn:E.
  - assert (x = u) by congruence. subst x. destruct Hv as [<-|Hv]; [reflexivity|].
    exfalso. apply Hx. rewrite <- Hmail. now apply in_map.
  - destruct Hv as [<-|Hv]; [|now apply IH].
    exfalso. apply Hx. rewrite Hmail. apply in_map.
    now apply List.find_some in Hf as [Hf _].
Qed.

Lemma deleteById_length id users u :
  findById user_id id users = Some u ->
  S (List.length (deleteById id users)) = List.length users.
Proof.
  unfold findById. induction users as [|x l IH]; [discriminate|]. simpl.
  destruct (N.eqb (user_id x) id); [reflexivity|].
  intros H. simpl. now rewrite IH.
Qed.

Lemma deleteById_In id users v : In v (deleteById id users) -> In v users.
Proof.
  induction users as [|x l IH]; [auto|]. simpl.
  destruct (N.eqb (user_id x) id); [now right|].
  intros [<-|H]; [now left | right; now apply IH].
Qed.

Lemma deleteById_others id users v :
  In v users -> user_id v <> id -> In v (deleteById id users).
Proof.
  induction users as [|x l IH]; [auto|]. simpl. intros [<-|H] Hne.
  - apply N.eqb_neq in Hne. rewrite Hne. now left.
  - destruct (N.eqb (user_id x) id); [exact H | right; now apply IH].
Qed.

Lemma deleteById_gone id users :
  NoDup (List.map user_id users) ->
  forall v, In v (deleteById id users) -> user_id v <> id.
Proof.
  induction users as [|x l IH]; [intros _ v []|]. simpl.
  intros Hnd v Hv. apply NoDup_cons_iff in Hnd as [Hx Hnd].
  destruct (N.eqb (user_id x) id) eqn:E.
  - apply N.eqb_eq in E. intros Hid. apply Hx. rewrite E, <- Hid. now apply in_map.
  - destruct Hv as [<-|Hv]; [now apply N.eqb_neq | now apply IH].
Qed.

End DeleteFacts.

(** X21. [softDeleteUser] on a stored user removes nothing: the user
    is kept with [isActive] false and the same email, username and
    password, and the other users are the old ones. With unique emails
    the user is no longer found by [getUserByEmail], yet the email
    stays taken: a later [createUser] with it is refused as a
    conflict. An id no user has is reported as not found; a string
    that is not 24 characters long is refused as an invalid id. *)
Theorem X21_softDeleteUser_hides_and_keeps :
  forall (now : Store.Date) (users : list Store.User) (userId : string),
    (forall id u,
        Store.castObjectId userId = Some id ->
        Store.findById Store.user_id id users = Some u ->
        exists users' u',
          UserService.softDeleteUser now users userId = OK users'
          /\ Store.findById Store.user_id id users' = Some u'
          /\ Store.isActive u' = false
          /\ Store.email u' = Store.email u
          /\ Store.username u' = Store.username u
          /\ Store.password u' = Store.password u
          /\ List.map Store.user_id users' = List.map Store.user_id users
          /\ List.map Store.email users' = List.map Store.email users
          /\ (forall v, In v users' -> Store.user_id v <> id -> In v users)
          /\ (NoDup (List.map Store.email users) ->
              UserService.normalizeEmail (Store.email u) = Store.email u ->
              UserService.getUserByEmail users' (Store.email u) = OK None)
          /\ (forall later newId d,
                UserService.normalizeEmail (UserService.in_email d) = Store.email u ->
                exists e,
                  UserService.createUser later newId users' d = Err e
                  /\ UserService.isConflict e = true))
    /\ (forall id,
          Store.castObjectId userId = Some id ->
          (forall v, In v users -> Store.user_id v <> id) ->
          UserService.softDeleteUser now users userId = Err (Thrown "User not found"))
    /\ (String.length userId <> 24 ->
        UserService.softDeleteUser now users userId
        = Err (Thrown "Invalid user ID format")).
Proof.
  intros now users userId. split; [|split].
  - intros id u Hc Hf. unfold UserService.softDeleteUser. rewrite Hc, Hf.
    set (upd := UserService.setActive now false).
    pose proof (PageFacts.updateById_found Store.user_id upd
                  (DeleteFacts.setActive_key now false) id users u Hf) as Hfound.
    eexists _, (upd u). split; [reflexivity|]. split; [exact Hfound|].
    split; [reflexivity|]. split; [reflexivity|]. split; [reflexivity|].
    split; [reflexivity|].
    split; [now apply DeleteFacts.updateById_map|].
    split; [now apply DeleteFacts.updateById_map|]. split; [|split].
    + intros v Hv Hne.
      now apply (PageFacts.updateById_others Store.user_id upd
                   (DeleteFacts.setActive_key now false)) in Hv.
    + intros Hnd Hnorm. unfold UserService.getUserByEmail.
      rewrite UserMoreFacts.normalizeEmail_lower, Hnorm.
      destruct (List.find _ _) as [v|] eqn:E; [|reflexivity]. exfalso.
      apply List.find_some in E as [Hv Hp].
      apply andb_true_iff in Hp as [Hmail Hactive]. apply String.eqb_eq in Hmail.
      rewrite (DeleteFacts.updated_email_owner upd id users u v
                 (fun d => eq_refl) Hnd Hf Hv Hmail) in Hactive.
      discriminate.
    + intros later newId d Hd.
      apply (UserFacts.createUser_email_taken later newId _ d (upd u)).
      * now apply StoreFacts.findById_some in Hfound as [Hin _].
      * now rewrite Hd.
  - intros id Hc Hnone. unfold UserService.softDeleteUser.
    now rewrite Hc, (StoreFacts.findById_none _ _ _ Hnone).
  - intros Hlen. unfold UserService.softDeleteUser, Store.castObjectId.
    apply Nat.eqb_neq in Hlen. now rewrite Hlen.
Qed.

(** John is soft-deleted: he is not found by his email any more, and
    his email cannot be registered again. *)
Lemma X21_softDeleteUser_witness :
  exists users',
    UserService.softDeleteUser Sample.t0 Sample.users Sample.id2 = OK users'
    /\ List.length users' = 2
    /\ UserService.getUserByEmail users' "john@example.com" = OK None
    /\ (exists e,
          UserService.createUser Sample.t0 3%N users'
            (UserService.mkUserInput "John@Example.com" "john_2" "John" "Doe"
               "long enough" None None)
          = Err e
          /\ UserService.isConflict e = true)
    /\ UserService.softDeleteUser Sample.t0 Sample.users Sample.id9
       = Err (Thrown "User not found")
    /\ UserService.softDeleteUser Sample.t0 Sample.users "john"
       = Err (Thrown "Invalid user ID format").
Proof.
  destruct (X21_softDeleteUser_hides_and_keeps Sample.t0 Sample.users Sample.id2)
    as (Hfound & _ & _).
  destruct (X21_softDeleteUser_hides_and_keeps Sample.t0 Sample.users Sample.id9)
    as (_ & Hnone & _).
  destruct (X21_softDeleteUser_hides_and_keeps Sample.t0 Sample.users "john")
    as (_ & _ & Hbad).
  destruct (Hfound 2%N Sample.john eq_refl eq_refl)
    as (users' & u' & Hres & _ & _ & _ & _ & _ & Hids & _ & _ & Hhidden & Htaken).
  exists users'. split; [exact Hres|]. split; [|split; [|split; [|split]]].
  - rewrite <- (length_map Store.user_id), Hids. reflexivity.
  - apply Hhidden; [|reflexivity].
    repeat constructor; simpl; intros H; repeat destruct H as [H|H];
      try discriminate; auto.
  - apply Htaken. reflexivity.
  - apply (Hnone 9%N); [reflexivity|]. intros v [<-|[<-|[]]]; discriminate.
  - apply Hbad. discriminate.
Defined.

(** X22. [hardDeleteUser] on a stored user removes exactly one user:
    the collection is one shorter, holds no new user and keeps every
    user with another id. With unique ids no user with the id is
    left, and a second deletion reports the user as not found. An id
    no user has is reported as not found; a string that is not 24
    characters long is refused as an invalid id. *)
Theorem X22_hardDeleteUser_removes_one :
  forall (users : list Store.User) (userId : string),
    (forall id u,
        Store.castObjectId userId = Some id ->
        Store.findById Store.user_id id users = Some u ->
        exists users',
          UserService.hardDeleteUser users userId = OK users'
          /\ S (List.length users') = List.length users
          /\ (forall v, In v users' -> In v users)
          /\ (forall v, In v users -> Store.user_id v <> id -> In v users')
          /\ (NoDup (List.map Store.user_id users) ->
              Store.findById Store.user_id id users' = None
              /\ UserService.hardDeleteUser users' userId
                 = Err (Thrown "User not found")))
    /\ (forall id,
          Store.castObjectId userId = Some id ->
          (forall v, In v users -> Store.user_id v <> id) ->
          UserService.hardDeleteUser users userId = Err (Thrown "User not found"))
    /\ (String.length userId <> 24 ->
        UserService.hardDeleteUser users userId
        = Err (Thrown "Invalid user ID format")).
Proof.
  intros users userId. split; [|split].
  - intros id u Hc Hf. unfold UserService.hardDeleteUser. rewrite Hc, Hf.
    eexists. split; [reflexivity|].
    split; [exact (DeleteFacts.deleteById_length id users u Hf)|].
    split; [apply DeleteFacts.deleteById_In|].
    split; [apply DeleteFacts.deleteById_others|].
    intros Hnd.
    assert (Hgone : Store.findById Store.user_id id
                      (UserService.deleteById id users) = None)
      by (apply StoreFacts.findById_none; now apply DeleteFacts.deleteById_gone).
    split; [exact Hgone | now rewrite Hgone].
  - intros id Hc Hnone. unfold UserService.hardDeleteUser.
    now rewrite Hc, (StoreFacts.findById_none _ _ _ Hnone).
  - intros Hlen. unfold UserService.hardDeleteUser, Store.castObjectId.
    apply Nat.eqb_neq in Hlen. now rewrite Hlen.
Qed.

Lemma X22_hardDeleteUser_witness :
  UserService.hardDeleteUser Sample.users Sample.id1 = OK [Sample.john]
  /\ UserService.hardDeleteUser [Sample.john] Sample.id1
     = Err (Thrown "User not found")
  /\ UserService.hardDeleteUser Sample.users "1"
     = Err (Thrown "Invalid user ID format").
Proof.
  destruct (X22_hardDeleteUser_removes_one Sample.users Sample.id1)
    as (Hfound & _ & _).
  destruct (X22_hardDeleteUser_removes_one Sample.users "1") as (_ & _ & Hbad).
  destruct (Hfound 1%N Sample.asif eq_refl eq_refl)
    as (users' & Hres & _ & _ & _ & Hagain).
  assert (E : users' = [Sample.john]).
  { vm_compute in Hres. now injection Hres. }
  subst users'. split; [exact Hres|]. split; [|apply Hbad; discriminate].
  apply Hagain.
  repeat constructor; simpl; intros H; repeat destruct H as [H|H];
    try discriminate; auto.
Defined.

Module UpdateFacts.
Import JsString Store UserService StoreFacts.

Lemma applyUpdate_key now d u : user_id (applyUpdate now d u) = user_id u.
Proof. reflexivity. Qed.

Lemma updateById_In_cases {A : Type} (key : A -> ObjectId) (upd : A -> A) id l u w :
  findById key id l = Some u ->
  In w (updateById key upd id l) -> w = upd u \/ In w l.
Proof.
  unfold findById. induction l as [|x l IH]; [discriminate|]. simpl.
  destruct (N.eqb (key x) id).
  - intros [= <-] [<-|H]; auto.
  - intros Hf [<-|H]; [auto|]. destruct (IH Hf H); auto.
Qed.

(** Replacing the document with the id keeps a field free of
    duplicates when no other document has the new value. *)
Lemma updateById_NoDup {B : Type} (f : User -> B) (upd : User -> User) id l u :
  NoDup (List.map user_id l) -> NoDup (List.map f l) ->
  findById user_id id l = Some u ->
  (forall v, In v l -> user_id v <> id -> f v <> f (upd u)) ->
  NoDup (List.map f (updateById user_id upd id l)).
Proof.
  induction l as [|x l IH]; [constructor|].
  intros Hid Hf Hfind Hother. simpl in *.
  apply NoDup_cons_iff in Hid as [Hxid Hid].
  apply NoDup_cons_iff in Hf as [Hxf Hf].
  unfold findById in Hfind. simpl in Hfind.
  destruct (N.eqb (user_id x) id) eqn:E.
  - assert (x = u) by congruence. subst x. apply N.eqb_eq in E.
    simpl. constructor; [|exact Hf].
    intros H. apply in_map_iff in H as (v & Hv & Hin).
    apply (Hother v (or_intror Hin)); [|exact Hv].
    intros Hvid. apply Hxid. rewrite E, <- Hvid. now apply in_map.
  - simpl. constructor.
    + intros H. apply in_map_iff in H as (w & Hw & Hin).
      destruct (updateById_In_cases user_id upd id l u w Hfind Hin) as [->|Hl].
      * apply N.eqb_neq in E. now apply (Hother x (or_introl eq_refl) E).
      * apply Hxf. rewrite <- Hw. now apply in_map.
    + apply IH; auto.
Qed.

Lemma updateViolates_none users u :
  updateViolates users u = None ->
  forall v, In v users -> user_id v <> user_id u ->
            email v <> email u /\ username v <> username u.
Proof.
  unfold updateViolates.
  set (others := List.filter (fun v => negb (N.eqb (user_id v) (user_id u))) users).
  destruct (List.existsb (fun v => String.eqb (email v) (email u)) others) eqn:Ee;
    [discriminate|].
  destruct (List.existsb (fun v => String.eqb (username v) (username u)) others)
    eqn:En; [discriminate|].
  intros _ v Hv Hne.
  assert (Hin : In v others).
  { apply filter_In. split; [exact Hv|]. now apply negb_true_iff, N.eqb_neq. }
  split.
  - apply String.eqb_neq. exact (UserMoreFacts.existsb_false_all _ _ Ee v Hin).
  - apply String.eqb_neq. exact (UserMoreFacts.existsb_false_all _ _ En v Hin).
Qed.

(** What a successful update says. *)
Lemma updateUser_ok now users userId d row users' :
  updateUser now users userId d = OK (row, users') ->
  exists id u,
    castObjectId userId = Some id
    /\ findById user_id id users = Some u
    /\ row = mkUserRow (applyUpdate now (safeUpdateData d) u) ["password"]
    /\ users' = updateById user_id (applyUpdate now (safeUpdateData d)) id users
    /\ updateViolates users (applyUpdate now (safeUpdateData d) u) = None.
Proof.
  unfold updateUser.
  destruct (castObjectId userId) as [id|]; [|discriminate].
  destruct (updateFailures (safeUpdateData d)); [|discriminate].
  destruct (findById user_id id users) as [u|] eqn:Ef; [|discriminate].
  destruct (updateViolates users (applyUpdate now (safeUpdateData d) u)) eqn:Ev;
    [discriminate|].
  intros H. exists id, u.
  assert (row = mkUserRow (applyUpdate now (safeUpdateData d) u) ["password"])
    by congruence.
  assert (users' = updateById user_id (applyUpdate now (safeUpdateData d)) id users)
    by congruence.
  auto.
Qed.

End UpdateFacts.

(** X23. [updateUser] drops the password of the update data: the call
    gives the same result whatever password the data hold, and a
    successful update leaves the stored password, the id, the creation
    time, [isActive] and the last login as they were, stamps
    [updatedAt] with the current time, stores a given email lowercased
    and trimmed, returns the stored user without the password, changes
    no other user, and keeps the collection free of duplicate ids,
    emails and usernames. A string that is not 24 characters long is
    refused as an invalid id. *)
Theorem X23_updateUser_never_changes_password :
  forall (now : Store.Date) (users : list Store.User) (userId : string)
         (updateData : UserService.UserUpdate),
    (forall pw,
        UserService.updateUser now users userId
          (UserService.mkUserUpdate
             (UserService.up_email updateData) (UserService.up_username updateData)
             (UserService.up_firstName updateData)
             (UserService.up_lastName updateData) pw
             (UserService.up_age updateData) (UserService.up_roles updateData))
        = UserService.updateUser now users userId updateData)
    /\ (forall row users',
          UserService.updateUser now users userId updateData = OK (row, users') ->
          exists id u,
            Store.castObjectId userId = Some id
            /\ Store.findById Store.user_id id users = Some u
            /\ Store.findById Store.user_id id users'
               = Some (UserService.row_user row)
            /\ UserService.row_hidden row = ["password"]
            /\ Store.user_id (UserService.row_user row) = id
            /\ Store.password (UserService.row_user row) = Store.password u
            /\ Store.user_createdAt (UserService.row_user row)
               = Store.user_createdAt u
            /\ Store.isActive (UserService.row_user row) = Store.isActive u
            /\ Store.lastLogin (UserService.row_user row) = Store.lastLogin u
            /\ Store.user_updatedAt (UserService.row_user row) = now
            /\ Store.email (UserService.row_user row)
               = match UserService.up_email updateData with
                 | Some m => JsString.trim (JsString.toLowerCase m)
                 | None => Store.email u
                 end
            /\ List.map Store.user_id users' = List.map Store.user_id users
            /\ (forall v, In v users' -> Store.user_id v <> id -> In v users)
            /\ (Shape.uniqueKeys users -> Shape.uniqueKeys users'))
    /\ (String.length userId <> 24 ->
        UserService.updateUser now users userId updateData
        = Err (Thrown "Invalid user ID format")).
Proof.
  intros now users userId d. split; [|split].
  - intros pw. reflexivity.
  - intros row users' H.
    apply UpdateFacts.updateUser_ok in H as (id & u & Hc & Hf & -> & -> & Hv).
    set (upd := UserService.applyUpdate now (UserService.safeUpdateData d)) in *.
    assert (Hu : Store.user_id u = id)
      by now apply StoreFacts.findById_some in Hf.
    exists id, u. cbn [UserService.row_user UserService.row_hidden].
    split; [exact Hc|]. split; [exact Hf|].
    split; [exact (PageFacts.updateById_found Store.user_id upd
                     (UpdateFacts.applyUpdate_key now _) id users u Hf)|].
    split; [reflexivity|]. split; [exact Hu|]. split; [reflexivity|].
    split; [reflexivity|]. split; [reflexivity|]. split; [reflexivity|].
    split; [reflexivity|].
    split; [unfold upd; simpl; now destruct (UserService.up_email d)|].
    split; [exact (PageFacts.updateById_keys Store.user_id upd
                     (UpdateFacts.applyUpdate_key now _) id users)|].
    split.
    + intros v Hin Hne.
      now apply (PageFacts.updateById_others Store.user_id upd
                   (UpdateFacts.applyUpdate_key now _)) in Hin.
    + intros (H1 & H2 & H3).
      pose proof (UpdateFacts.updateViolates_none users (upd u) Hv) as Hother.
      split; [|split].
      * rewrite (PageFacts.updateById_keys Store.user_id upd
                   (UpdateFacts.applyUpdate_key now _) id users). exact H1.
      * apply (UpdateFacts.updateById_NoDup Store.email upd id users u H1 H2 Hf).
        intros v Hin Hne. apply (Hother v Hin). unfold upd. simpl. congruence.
      * apply (UpdateFacts.updateById_NoDup Store.username upd id users u H1 H3 Hf).
        intros v Hin Hne. apply (Hother v Hin). unfold upd. simpl. congruence.
  - intros Hlen. unfold UserService.updateUser, Store.castObjectId.
    apply Nat.eqb_neq in Hlen. now rewrite Hlen.
Qed.

(** John's update with a new email and a new password: the email is
    stored in lower case and the password is the old one. *)
Lemma X23_updateUser_witness :
  exists row users',
    UserService.updateUser (Sample.t0 + 1)%Z Sample.users Sample.id2
      (UserService.mkUserUpdate (Some " J.Doe@Example.com ") None None None
         (Some "another password") None None)
    = OK (row, users')
    /\ Store.email (UserService.row_user row) = "j.doe@example.com"
    /\ Store.password (UserService.row_user row) = "correct horse"
    /\ List.map Store.user_id users' = [1%N; 2%N].
Proof.
  destruct (X23_updateUser_never_changes_password (Sample.t0 + 1)%Z Sample.users
              Sample.id2
              (UserService.mkUserUpdate (Some " J.Doe@Example.com ") None None None
                 (Some "another password") None None)) as (_ & Hok & _).
  eexists _, _. split; [vm_compute; reflexivity|].
  destruct (Hok _ _ ltac:(vm_compute; reflexivity))
    as (id & u & Hc & Hf & _ & _ & _ & Hpw & _ & _ & _ & _ & Hmail & Hids & _).
  vm_compute in Hc. injection Hc as <-.
  vm_compute in Hf. injection Hf as <-.
  split; [exact Hmail|]. split; [exact Hpw|]. exact Hids.
Defined.

(** X24. [updateLastLogin] checks neither the id nor the outcome: for
    an id no user has it changes nothing and reports nothing; for a
    stored user it sets [lastLogin] to the current time, whether the
    user is active or not, and leaves the email, the password,
    [isActive] and all other users as they were; a string that is not
    24 characters long is a cast error of the query. *)
Theorem X24_updateLastLogin_is_silent :
  forall (now : Store.Date) (users : list Store.User) (userId : string),
    (forall id,
        Store.castObjectId userId = Some id ->
        (forall v, In v users -> Store.user_id v <> id) ->
        UserService.updateLastLogin now users userId = OK users)
    /\ (forall id u,
          Store.castObjectId userId = Some id ->
          Store.findById Store.user_id id users = Some u ->
          exists users' u',
            UserService.updateLastLogin now users userId = OK users'
            /\ Store.findById Store.user_id id users' = Some u'
            /\ Store.lastLogin u' = Some now
            /\ Store.isActive u' = Store.isActive u
            /\ Store.email u' = Store.email u
            /\ Store.password u' = Store.password u
            /\ List.map Store.user_id users' = List.map Store.user_id users
            /\ forall v, In v users' -> Store.user_id v <> id -> In v users)
    /\ (String.length userId <> 24 ->
        UserService.updateLastLogin now users userId
        = Err (CastError "_id" userId)).
Proof.
  intros now users userId. split; [|split].
  - intros id Hc Hnone. unfold UserService.updateLastLogin. rewrite Hc.
    now rewrite (PageFacts.updateById_absent Store.user_id _ id users
                   (StoreFacts.findById_none _ _ _ Hnone)).
  - intros id u Hc Hf. unfold UserService.updateLastLogin. rewrite Hc.
    set (upd := UserService.setLastLogin now).
    eexists _, (upd u). split; [reflexivity|].
    split; [exact (PageFacts.updateById_found Store.user_id upd
                     (DeleteFacts.setLastLogin_key now) id users u Hf)|].
    split; [reflexivity|]. split; [reflexivity|]. split; [reflexivity|].
    split; [reflexivity|].
    split; [now apply DeleteFacts.updateById_map|].
    intros v Hv Hne.
    now apply (PageFacts.updateById_others Store.user_id upd
                 (DeleteFacts.setLastLogin_key now)) in Hv.
  - intros Hlen. unfold UserService.updateLastLogin, Store.castObjectId.
    apply Nat.eqb_neq in Hlen. now rewrite Hlen.
Qed.

Lemma X24_updateLastLogin_witness :
  UserService.updateLastLogin Sample.t0 Sample.users Sample.id9 = OK Sample.users
  /\ (exists users' u',
        UserService.updateLastLogin (Sample.t0 + 5)%Z Sample.users Sample.id1
        = OK users'
        /\ Store.findById Store.user_id 1%N users' = Some u'
        /\ Store.lastLogin u' = Some (Sample.t0 + 5)%Z)
  /\ UserService.updateLastLogin Sample.t0 Sample.users "asif"
     = Err (CastError "_id" "asif").
Proof.
  destruct (X24_updateLastLogin_is_silent Sample.t0 Sample.users Sample.id9)
    as (Hnone & _ & _).
  destruct (X24_updateLastLogin_is_silent (Sample.t0 + 5)%Z Sample.users Sample.id1)
    as (_ & Hfound & _).
  destruct (X24_updateLastLogin_is_silent Sample.t0 Sample.users "asif")
    as (_ & _ & Hbad).
  split; [|split].
  - apply (Hnone 9%N); [reflexivity|]. intros v [<-|[<-|[]]]; discriminate.
  - destruct (Hfound 1%N Sample.asif eq_refl eq_refl)
      as (users' & u' & Hres & Hf & Hl & _).
    now exists users', u'.
  - apply Hbad. discriminate.
Defined.

Module AnalyticsFacts.
Import JsString Store AnalyticsService StoreFacts.

Lemma published_iff p : published p = true <-> status p = PUBLISHED.
Proof. unfold published. destruct (status p); simpl; split; congruence. Qed.

Lemma in_unwind c p posts :
  In (c, p) (unwindCategories posts) <-> In p posts /\ In c (categories p).
Proof.
  unfold unwindCategories. rewrite in_flat_map. split.
  - intros (q & Hq & H). apply in_map_iff in H as (x & [= -> ->] & Hx). now split.
  - intros [Hp Hc]. exists p. split; [exact Hp|]. apply in_map_iff. now exists c.
Qed.

Lemma members_In (rows : list (string * Post)) c p :
  In p (List.map snd (List.filter (fun r => String.eqb (fst r) c) rows))
  <-> In (c, p) rows.
Proof.
  rewrite in_map_iff. split.
  - intros ([x q] & Hq & H). simpl in Hq. subst q.
    apply filter_In in H as [H E]. simpl in E. apply String.eqb_eq in E. now subst x.
  - intros H. exists (c, p). split; [reflexivity|].
    apply filter_In. split; [exact H | apply String.eqb_refl].
Qed.

Lemma maxZ_spec l :
  l <> [] -> In (maxZ l) l /\ forall x, In x l -> (x <= maxZ l)%Z.
Proof.
  destruct l as [|a l]; [congruence|]. intros _. unfold maxZ.
  induction l as [|b l IH]; simpl.
  - split; [now left | intros x [<-|[]]; lia].
  - destruct IH as [Hin Hle]. split.
    + destruct (Z.max_spec b (List.fold_right Z.max a l)) as [[_ ->]|[_ ->]].
      * destruct Hin as [H|H]; [now left | right; now right].
      * right. now left.
    + intros x [<-|[<-|Hx]].
      * specialize (Hle a (or_introl eq_refl)). lia.
      * lia.
      * specialize (Hle x (or_intror Hx)). lia.
Qed.

Lemma total_perm {A : Type} (f : A -> Z) l m :
  Permutation l m -> Shape.total f l = Shape.total f m.
Proof.
  induction 1; simpl; try lia. 
Qed.

Lemma total_app {A : Type} (f : A -> Z) l m :
  Shape.total f (l ++ m) = (Shape.total f l + Shape.total f m)%Z.
Proof. induction l as [|x l IH]; simpl; [reflexivity | rewrite IH; lia]. Qed.

(** Each row falls in the group of exactly one key. *)
Lemma one_key (keys : list string) c :
  NoDup keys -> In c keys ->
  Shape.total (fun k => if String.eqb c k then 1%Z else 0%Z) keys = 1%Z.
Proof.
  induction keys as [|k keys IH]; [intros _ []|].
  intros Hnd Hin. apply NoDup_cons_iff in Hnd as [Hk Hnd]. simpl.
  destruct (String.eqb_spec c k) as [->|Hne].
  - assert (H0 : Shape.total (fun k0 => if String.eqb k k0 then 1%Z else 0%Z) keys
                 = 0%Z).
    { clear IH Hnd Hin. induction keys as [|x keys IH]; [reflexivity|]. simpl.
      destruct (String.eqb_spec k x) as [->|_].
      - exfalso. apply Hk. now left.
      - rewrite IH; [reflexivity|]. intros H. apply Hk. now right. }
    lia.
  - destruct Hin as [->|Hin]; [congruence|]. rewrite (IH Hnd Hin). lia.
Qed.

(** The sizes of the groups add up to the number of rows. *)
Lemma groups_cover (rows : list (string * Post)) keys :
  NoDup keys -> (forall r, In r rows -> In (fst r) keys) ->
  Shape.total
    (fun k => Z.of_nat
                (List.length (List.filter (fun r => String.eqb (fst r) k) rows)))
    keys
  = Z.of_nat (List.length rows).
Proof.
  intros Hnd. induction rows as [|r rows IH]; intros Hin.
  - simpl. clear. induction keys as [|k keys IH]; simpl; [reflexivity | lia].
  - assert (Hsplit :
        Shape.total
          (fun k => Z.of_nat
                      (List.length
                         (List.filter (fun x => String.eqb (fst x) k) (r :: rows))))
          keys
        = (Shape.total (fun k => if String.eqb (fst r) k then 1%Z else 0%Z) keys
           + Shape.total
               (fun k => Z.of_nat
                           (List.length
                              (List.filter (fun x => String.eqb (fst x) k) rows)))
               keys)%Z).
    { clear. induction keys as [|k keys IH]; [reflexivity|].
      unfold Shape.total in *. cbn [List.fold_right]. rewrite IH.
      cbn [List.filter]. destruct (String.eqb (fst r) k); cbn [List.length]; lia. }
    rewrite Hsplit, IH, (one_key keys (fst r) Hnd).
    + simpl List.length. lia.
    + apply Hin. now left.
    + intros x Hx. apply Hin. now right.
Qed.

Lemma total_length_flat_map (posts : list Post) :
  Z.of_nat (List.length (unwindCategories posts))
  = Shape.total (fun p => Z.of_nat (List.length (categories p))) posts.
Proof.
  unfold unwindCategories. induction posts as [|p posts IH]; [reflexivity|].
  simpl. rewrite length_app, length_map, Nat2Z.inj_add, IH. reflexivity.
Qed.

Lemma total_map {A B : Type} (g : A -> B) (f : B -> Z) l :
  Shape.total f (List.map g l) = Shape.total (fun x => f (g x)) l.
Proof. induction l as [|x l IH]; simpl; [reflexivity | now rewrite IH]. Qed.

Lemma sumZ_total {A : Type} (f : A -> Z) l :
  sumZ (List.map f l) = Shape.total f l.
Proof. induction l as [|x l IH]; simpl; [reflexivity | now rewrite IH]. Qed.

End AnalyticsFacts.

(** X25. [getPostStatsByCategory] never fails and returns one row for
    each category that some published post has, and no other row, by
    descending post count. A row counts at least one post; its
    [maxViews] is the views of a published post of the category and no
    such post has more. The post counts add up to the number of
    categories the published posts carry, so they add up to the number
    of published posts only when each of these has exactly one
    category. *)
Theorem X25_getPostStatsByCategory_groups :
  forall (F : Type) (avg : list Z -> F) (posts : list Store.Post),
    exists rows,
      AnalyticsService.getPostStatsByCategory F avg posts = OK rows
      /\ NoDup (List.map (AnalyticsService.cat_id F) rows)
      /\ (forall c,
            In c (List.map (AnalyticsService.cat_id F) rows)
            <-> exists p, In p posts /\ Store.status p = Store.PUBLISHED
                          /\ In c (Store.categories p))
      /\ (forall r, In r rows ->
            (1 <= AnalyticsService.cat_postCount F r)%Z
            /\ (exists p, In p posts /\ Store.status p = Store.PUBLISHED
                          /\ In (AnalyticsService.cat_id F r) (Store.categories p)
                          /\ Store.views p = AnalyticsService.cat_maxViews F r)
            /\ (forall p, In p posts -> Store.status p = Store.PUBLISHED ->
                          In (AnalyticsService.cat_id F r) (Store.categories p) ->
                          (Store.views p <= AnalyticsService.cat_maxViews F r)%Z))
      /\ StronglySorted
           (fun a b => (AnalyticsService.cat_postCount F b
                        <= AnalyticsService.cat_postCount F a)%Z)
           rows
      /\ Shape.total (AnalyticsService.cat_postCount F) rows
         = Shape.total (fun p => Z.of_nat (List.length (Store.categories p)))
             (List.filter AnalyticsService.published posts).
Proof.
  intros F avg posts. unfold AnalyticsService.getPostStatsByCategory.
  set (live := List.filter AnalyticsService.published posts).
  set (rows0 := AnalyticsService.unwindCategories live).
  set (keys := List.nodup string_dec (List.map fst rows0)).
  set (groups := List.map (AnalyticsService.categoryGroup F avg rows0) keys).
  eexists. split; [reflexivity|].
  assert (Hkeys : forall c, In c keys
                    <-> exists p, In p posts /\ Store.status p = Store.PUBLISHED
                                  /\ In c (Store.categories p)).
  { intros c. unfold keys. rewrite List.nodup_In, in_map_iff. split.
    - intros ([x p] & Hx & Hin). simpl in Hx. subst x.
      apply AnalyticsFacts.in_unwind in Hin as [Hp Hc].
      apply filter_In in Hp as [Hp Hs]. apply AnalyticsFacts.published_iff in Hs.
      now exists p.
    - intros (p & Hp & Hs & Hc). exists (c, p). split; [reflexivity|].
      apply AnalyticsFacts.in_unwind. split; [|exact Hc].
      apply filter_In. split; [exact Hp|]. now apply AnalyticsFacts.published_iff. }
  assert (Hids : List.map (AnalyticsService.cat_id F) groups = keys).
  { unfold groups. rewrite List.map_map. cbn [AnalyticsService.cat_id
                                               AnalyticsService.categoryGroup].
    apply List.map_id. }
  assert (Hperm : Permutation
                    (Store.sortBy (AnalyticsService.byPostCountDesc F) groups)
                    groups) by apply StoreFacts.sortBy_perm.
  split; [|split; [|split; [|split]]].
  - eapply Permutation_NoDup;
      [apply Permutation_sym, Permutation_map, Hperm|].
    rewrite Hids. apply List.NoDup_nodup.
  - intros c. rewrite <- Hkeys, <- Hids. split; apply Permutation_in.
    + apply Permutation_map, Hperm.
    + apply Permutation_sym, Permutation_map, Hperm.
  - intros r Hr. apply StoreFacts.sortBy_In in Hr.
    apply in_map_iff in Hr as (c & <- & Hc).
    cbn [AnalyticsService.cat_id AnalyticsService.cat_postCount
         AnalyticsService.cat_maxViews AnalyticsService.categoryGroup].
    set (members := List.map snd
                      (List.filter (fun r => String.eqb (fst r) c) rows0)).
    assert (Hmem : forall p, In p members
                     <-> In p posts /\ Store.status p = Store.PUBLISHED
                         /\ In c (Store.categories p)).
    { intros p. unfold members, rows0.
      rewrite AnalyticsFacts.members_In, AnalyticsFacts.in_unwind.
      unfold live. rewrite filter_In, AnalyticsFacts.published_iff. tauto. }
    assert (Hne : members <> []).
    { apply Hkeys in Hc as (p & Hp). apply Hmem in Hp.
      intros E. rewrite E in Hp. destruct Hp. }
    split; [destruct members; [congruence | simpl List.length; lia]|].
    destruct (AnalyticsFacts.maxZ_spec (List.map Store.views members))
      as [Hin Hmax]; [now destruct members|].
    split.
    + apply in_map_iff in Hin as (p & Hv & Hp). apply Hmem in Hp.
      exists p. tauto.
    + intros p Hp Hs Hcat. apply Hmax, in_map, Hmem. tauto.
  - eapply PageFacts.sorted_impl;
      [|apply (StoreFacts.sortBy_sorted (AnalyticsService.byPostCountDesc F))].
    + intros a b Hab. now apply Z.leb_le.
    + intros a b. unfold AnalyticsService.byPostCountDesc. rewrite !Z.leb_le. lia.
    + intros a b c. unfold AnalyticsService.byPostCountDesc. rewrite !Z.leb_le. lia.
  - rewrite (AnalyticsFacts.total_perm _ _ _ Hperm). unfold groups.
    rewrite AnalyticsFacts.total_map.
    cbn [AnalyticsService.cat_postCount AnalyticsService.categoryGroup].
    rewrite <- AnalyticsFacts.total_length_flat_map. fold rows0.
    rewrite <- (AnalyticsFacts.groups_cover rows0 keys).
    + clear. induction keys as [|k keys IH]; [reflexivity|].
      unfold Shape.total in *. cbn [List.fold_right]. now rewrite IH, length_map.
    + apply List.NoDup_nodup.
    + intros r Hr. unfold keys. apply List.nodup_In. now apply in_map.
Qed.

(** Of the two published sample posts one has two categories: the
    post counts add up to three. *)
Lemma X25_getPostStatsByCategory_witness :
  exists r1 r2,
    AnalyticsService.getPostStatsByCategory Sample.Quotient Sample.meanOf Sample.posts
    = OK [r1; r2]
    /\ AnalyticsService.cat_id _ r1 = "Technology"
    /\ AnalyticsService.cat_postCount _ r1 = 2%Z
    /\ AnalyticsService.cat_maxViews _ r1 = 100%Z
    /\ AnalyticsService.cat_id _ r2 = "Database"
    /\ AnalyticsService.cat_postCount _ r2 = 1%Z
    /\ Shape.total (AnalyticsService.cat_postCount _) [r1; r2] = 3%Z.
Proof.
  destruct (X25_getPostStatsByCategory_groups Sample.Quotient Sample.meanOf
              Sample.posts) as (rows & Hres & _ & _ & _ & _ & Htotal).
  vm_compute in Hres. injection Hres as <-.
  eexists _, _. split; [vm_compute; reflexivity|].
  split; [reflexivity|]. split; [reflexivity|]. split; [reflexivity|].
  split; [reflexivity|]. split; [reflexivity|].
  etransitivity; [exact Htotal | reflexivity].
Defined.

Module AuthorFacts.
Import JsString Store AnalyticsService StoreFacts.

Section Numbers.
Variable F : Type.
Variable avg : list Z -> F.
Variable round2 : F -> F.
Variable divide : Z -> Z -> Result F.

Let rowOf := Shape.rowOf F round2 divide.
Let dividesLike := Shape.dividesLike F divide.

Lemma authorRow_ok now users g rows :
  authorRow F round2 divide now users g = OK rows ->
  rows = [] \/ exists r, rows = [r] /\ rowOf users g r.
Proof.
  unfold authorRow, Shape.rowOf.
  destruct (findById user_id (grp_id F g) users) as [u|] eqn:Eu.
  - destruct (divide (grp_totalLikes F g) (grp_totalViews F g)) as [x|e] eqn:Ed;
      [|discriminate].
    destruct (grp_firstPost F g) as [first|].
    + destruct (divide (now - first) (1000 * 60 * 60 * 24)) as [days|e];
        [|discriminate].
      intros [= <-]. right. eexists. split; [reflexivity|].
      exists u. cbn. repeat split; auto.
    + intros [= <-]. right. eexists. split; [reflexivity|].
      exists u. cbn. repeat split; auto.
  - intros [= <-]. now left.
Qed.

Lemma authorRows_ok now users groups rows :
  authorRows F round2 divide now users groups = OK rows ->
  (forall r, In r rows -> exists g, In g groups /\ rowOf users g r)
  /\ (NoDup (List.map (grp_id F) groups) -> NoDup (List.map (stat_id F) rows)).
Proof.
  revert rows. induction groups as [|g groups IH]; simpl; intros rows.
  - intros [= <-]. split; [intros r [] | constructor].
  - destruct (authorRow F round2 divide now users g) as [rs|e] eqn:Eg; [|discriminate].
    destruct (authorRows F round2 divide now users groups) as [more|e] eqn:Em;
      [|discriminate].
    intros [= <-]. destruct (IH more eq_refl) as [Hin Hnd].
    apply authorRow_ok in Eg as [->|(r & -> & Hr)]; simpl.
    + split.
      * intros r Hr. destruct (Hin r Hr) as (g' & Hg' & H). exists g'. auto.
      * intros H. apply NoDup_cons_iff in H as [_ H]. auto.
    + split.
      * intros x [<-|Hx]; [exists g; auto|].
        destruct (Hin x Hx) as (g' & Hg' & H). exists g'. auto.
      * intros H. apply NoDup_cons_iff in H as [Hg H]. constructor; [|auto].
        intros Hr'. apply in_map_iff in Hr' as (x & Hx & Hxin).
        destruct (Hin x Hxin) as (g' & Hg' & u & _ & Hid & _).
        apply Hg. apply in_map_iff. exists g'. split; [|exact Hg'].
        destruct Hr as (u' & _ & Hid' & _). congruence.
Qed.

Lemma authorRow_total e now users g :
  dividesLike e ->
  (exists rows, authorRow F round2 divide now users g = OK rows)
  \/ authorRow F round2 divide now users g = Err e.
Proof.
  intros [Hzero Hnz]. unfold authorRow.
  destruct (findById user_id (grp_id F g) users) as [u|]; [|left; eauto].
  destruct (Z.eq_dec (grp_totalViews F g) 0) as [E|E].
  - right. now rewrite E, Hzero.
  - destruct (Hnz (grp_totalLikes F g) _ E) as (x & ->).
    destruct (grp_firstPost F g) as [first|]; [|left; eauto].
    destruct (Hnz (now - first)%Z (1000 * 60 * 60 * 24)%Z ltac:(lia)) as (d & ->).
    left. eauto.
Qed.

Lemma authorRow_zero e now users g u :
  dividesLike e ->
  findById user_id (grp_id F g) users = Some u -> grp_totalViews F g = 0%Z ->
  authorRow F round2 divide now users g = Err e.
Proof.
  intros [Hzero _] Hu Hv. unfold authorRow. now rewrite Hu, Hv, Hzero.
Qed.

Lemma authorRow_nonzero e now users g :
  dividesLike e ->
  (forall u, findById user_id (grp_id F g) users = Some u ->
             grp_totalViews F g <> 0%Z) ->
  exists rows, authorRow F round2 divide now users g = OK rows.
Proof.
  intros [_ Hnz] Hv. unfold authorRow.
  destruct (findById user_id (grp_id F g) users) as [u|]; [|eauto].
  destruct (Hnz (grp_totalLikes F g) _ (Hv u eq_refl)) as (x & ->).
  destruct (grp_firstPost F g) as [first|]; [|eauto].
  destruct (Hnz (now - first)%Z (1000 * 60 * 60 * 24)%Z ltac:(lia)) as (d & ->).
  eauto.
Qed.

Lemma authorRows_total e now users groups :
  dividesLike e ->
  (exists rows, authorRows F round2 divide now users groups = OK rows)
  \/ authorRows F round2 divide now users groups = Err e.
Proof.
  intros Hd. induction groups as [|g groups IH]; simpl; [left; eauto|].
  destruct (authorRow_total e now users g Hd) as [(rs & ->)| ->]; [|now right].
  destruct IH as [(more & ->)| ->]; [left; eauto | now right].
Qed.

Lemma authorRows_zero e now users groups g u :
  dividesLike e -> In g groups ->
  findById user_id (grp_id F g) users = Some u -> grp_totalViews F g = 0%Z ->
  authorRows F round2 divide now users groups = Err e.
Proof.
  intros Hd Hin Hu Hv. induction groups as [|x groups IH]; [destruct Hin|].
  simpl. destruct Hin as [->|Hin].
  - now rewrite (authorRow_zero e now users g u Hd Hu Hv).
  - destruct (authorRow_total e now users x Hd) as [(rs & ->)| ->]; [|reflexivity].
    now rewrite (IH Hin).
Qed.

Lemma authorRows_nonzero e now users groups :
  dividesLike e ->
  (forall g u, In g groups -> findById user_id (grp_id F g) users = Some u ->
               grp_totalViews F g <> 0%Z) ->
  exists rows, authorRows F round2 divide now users groups = OK rows.
Proof.
  intros Hd Hv. induction groups as [|g groups IH]; simpl; [eauto|].
  destruct (authorRow_nonzero e now users g Hd) as (rs & ->).
  { intros u. apply Hv. now left. }
  destruct IH as (more & ->); [|eauto].
  intros x u Hx. apply Hv. now right.
Qed.

End Numbers.

End AuthorFacts.

Module AuthorGroups.
Import JsString Store AnalyticsService StoreFacts.

Lemma filter_filter {A : Type} (f g : A -> bool) l :
  List.filter f (List.filter g l) = List.filter (fun x => (f x && g x)%bool) l.
Proof.
  induction l as [|x l IH]; [reflexivity|]. simpl.
  destruct (g x); simpl; [destruct (f x); simpl; now rewrite IH|].
  rewrite andb_false_r. exact IH.
Qed.

(** The members of an author's group. *)
Lemma members_publishedBy posts a :
  List.filter (fun p => N.eqb (author p) a) (List.filter published posts)
  = Shape.publishedBy posts a.
Proof. apply filter_filter. Qed.

Lemma author_keys posts a :
  In a (List.nodup N.eq_dec (List.map author (List.filter published posts)))
  <-> exists p, In p posts /\ status p = PUBLISHED /\ author p = a.
Proof.
  rewrite List.nodup_In, in_map_iff. split.
  - intros (p & Ha & Hp). apply filter_In in Hp as [Hp Hs].
    apply AnalyticsFacts.published_iff in Hs. now exists p.
  - intros (p & Hp & Hs & Ha). exists p. split; [exact Ha|].
    apply filter_In. split; [exact Hp|]. now apply AnalyticsFacts.published_iff.
Qed.

Lemma publishedBy_In posts a p :
  In p (Shape.publishedBy posts a)
  <-> In p posts /\ author p = a /\ status p = PUBLISHED.
Proof.
  unfold Shape.publishedBy. rewrite filter_In, andb_true_iff, N.eqb_eq.
  change (PostStatus_eqb (status p) PUBLISHED) with (published p).
  now rewrite AnalyticsFacts.published_iff.
Qed.

Section Numbers.
Variable F : Type.
Variable avg : list Z -> F.

Lemma group_ids posts keys :
  List.map (grp_id F) (List.map (authorGroup F avg posts) keys) = keys.
Proof. rewrite List.map_map. apply List.map_id. Qed.

Lemma group_views posts a :
  grp_totalViews F (authorGroup F avg (List.filter published posts) a)
  = Shape.total views (Shape.publishedBy posts a).
Proof.
  cbn [grp_totalViews authorGroup].
  now rewrite members_publishedBy, AnalyticsFacts.sumZ_total.
Qed.

Lemma group_likes posts a :
  grp_totalLikes F (authorGroup F avg (List.filter published posts) a)
  = Shape.total PostModel.likesCount (Shape.publishedBy posts a).
Proof.
  cbn [grp_totalLikes authorGroup].
  now rewrite members_publishedBy, AnalyticsFacts.sumZ_total.
Qed.

Lemma group_count posts a :
  grp_postCount F (authorGroup F avg (List.filter published posts) a)
  = Z.of_nat (List.length (Shape.publishedBy posts a)).
Proof. cbn [grp_postCount authorGroup]. now rewrite members_publishedBy. Qed.

End Numbers.

End AuthorGroups.

(** X26. A result of [getAuthorStatistics] holds at most one row for
    an author, by descending total views; each row is of a stored user
    with at least one published post and gives the user's username and
    full name, the number of the user's published posts, the sum of
    their views, the sum of the sizes of their likes arrays, and as
    engagement the engine's quotient of the two sums. When the engine
    divides by every non-zero number and raises an error for zero, the
    call returns a result if every stored author's published posts
    have some view, and fails with the engine's error as soon as one
    stored author's published posts have no view at all. *)
Theorem X26_getAuthorStatistics_rows :
  forall (F : Type) (avg : list Z -> F) (round2 : F -> F)
         (divide : Z -> Z -> Result F)
         (now : Store.Date) (posts : list Store.Post) (users : list Store.User),
    (forall rows,
        AnalyticsService.getAuthorStatistics F avg round2 divide now posts users
        = OK rows ->
        NoDup (List.map (AnalyticsService.stat_id F) rows)
        /\ StronglySorted
             (fun a b => (AnalyticsService.stat_totalViews F b
                          <= AnalyticsService.stat_totalViews F a)%Z)
             rows
        /\ forall r, In r rows ->
             exists u,
               In u users
               /\ Store.user_id u = AnalyticsService.stat_id F r
               /\ AnalyticsService.stat_username F r = Store.username u
               /\ AnalyticsService.stat_fullName F r = UserService.fullName u
               /\ (1 <= AnalyticsService.stat_postCount F r)%Z
               /\ AnalyticsService.stat_postCount F r
                  = Z.of_nat (List.length (Shape.publishedBy posts (Store.user_id u)))
               /\ AnalyticsService.stat_totalViews F r
                  = Shape.total Store.views (Shape.publishedBy posts (Store.user_id u))
               /\ AnalyticsService.stat_totalLikes F r
                  = Shape.total PostModel.likesCount
                      (Shape.publishedBy posts (Store.user_id u))
               /\ divide (AnalyticsService.stat_totalLikes F r)
                         (AnalyticsService.stat_totalViews F r)
                  = OK (AnalyticsService.stat_engagement F r))
    /\ (forall e,
          Shape.dividesLike F divide e ->
          ((forall u p, In u users -> In p posts ->
                        Store.status p = Store.PUBLISHED ->
                        Store.author p = Store.user_id u ->
                        Shape.total Store.views
                          (Shape.publishedBy posts (Store.user_id u)) <> 0%Z) ->
           exists rows,
             AnalyticsService.getAuthorStatistics F avg round2 divide now posts users
             = OK rows)
          /\ (forall u p, In u users -> In p posts ->
                          Store.status p = Store.PUBLISHED ->
                          Store.author p = Store.user_id u ->
                          Shape.total Store.views
                            (Shape.publishedBy posts (Store.user_id u)) = 0%Z ->
              AnalyticsService.getAuthorStatistics F avg round2 divide now posts users
              = Err e)).
Proof.
  intros F avg round2 divide now posts users.
  unfold AnalyticsService.getAuthorStatistics.
  set (live := List.filter AnalyticsService.published posts).
  set (keys := List.nodup N.eq_dec (List.map Store.author live)).
  set (groups := List.map (AnalyticsService.authorGroup F avg live) keys).
  split.
  - intros rows H.
    destruct (AnalyticsService.authorRows F round2 divide now users groups)
      as [rows0|e] eqn:E; [|discriminate].
    assert (Hrows : rows = Store.sortBy (AnalyticsService.byTotalViewsDesc F) rows0)
      by congruence.
    subst rows. clear H.
    destruct (AuthorFacts.authorRows_ok F round2 divide now users groups rows0 E)
      as [Hin Hnd].
    pose proof (StoreFacts.sortBy_perm (AnalyticsService.byTotalViewsDesc F) rows0)
      as Hperm.
    split; [|split].
    + eapply Permutation_NoDup;
        [apply Permutation_sym, Permutation_map, Hperm|].
      apply Hnd. unfold groups. rewrite AuthorGroups.group_ids.
      apply List.NoDup_nodup.
    + eapply PageFacts.sorted_impl;
        [|apply (StoreFacts.sortBy_sorted (AnalyticsService.byTotalViewsDesc F))].
      * intros a b Hab. now apply Z.leb_le.
      * intros a b. unfold AnalyticsService.byTotalViewsDesc.
        rewrite !Z.leb_le. lia.
      * intros a b c. unfold AnalyticsService.byTotalViewsDesc.
        rewrite !Z.leb_le. lia.
    + intros r Hr. apply StoreFacts.sortBy_In in Hr.
      destruct (Hin r Hr) as (g & Hg & u & Hu & Hid & Hname & Hfull & Hcount
                              & Hviews & Hlikes & _ & Hdiv).
      apply in_map_iff in Hg as (a & <- & Ha).
      cbn [AnalyticsService.grp_id AnalyticsService.authorGroup] in Hu, Hid.
      apply StoreFacts.findById_some in Hu as [Huin Hua].
      exists u. rewrite Hua.
      split; [exact Huin|]. split; [congruence|]. split; [exact Hname|].
      split; [exact Hfull|].
      assert (Hdiv' : divide (AnalyticsService.stat_totalLikes F r)
                             (AnalyticsService.stat_totalViews F r)
                      = OK (AnalyticsService.stat_engagement F r))
        by (rewrite Hlikes, Hviews; exact Hdiv).
      unfold live in Hcount, Hviews, Hlikes.
      rewrite AuthorGroups.group_count in Hcount.
      rewrite AuthorGroups.group_views in Hviews.
      rewrite AuthorGroups.group_likes in Hlikes.
      split; [|auto].
      rewrite Hcount.
      apply AuthorGroups.author_keys in Ha as (p & Hp & Hs & Hpa).
      assert (Hmem : In p (Shape.publishedBy posts a))
        by (apply AuthorGroups.publishedBy_In; auto).
      destruct (Shape.publishedBy posts a); [destruct Hmem|].
      simpl List.length. lia.
  - intros e Hd. split.
    + intros Hnz.
      destruct (AuthorFacts.authorRows_nonzero F round2 divide e now users groups Hd)
        as (rows & ->); [|eauto].
      intros g u Hg Hu. apply in_map_iff in Hg as (a & <- & Ha).
      cbn [AnalyticsService.grp_id AnalyticsService.authorGroup] in Hu.
      apply StoreFacts.findById_some in Hu as [Huin Hua].
      apply AuthorGroups.author_keys in Ha as (p & Hp & Hs & Hpa).
      unfold live. rewrite AuthorGroups.group_views, <- Hua.
      apply (Hnz u p); auto. congruence.
    + intros u p Hu Hp Hs Hpa Hzero.
      destruct (PageFacts.findById_present Store.user_id (Store.user_id u) users u
                  Hu eq_refl) as (u' & Hu').
      rewrite (AuthorFacts.authorRows_zero F round2 divide e now users groups
                 (AnalyticsService.authorGroup F avg live (Store.user_id u)) u' Hd);
        [reflexivity | | exact Hu' |].
      * apply in_map. apply AuthorGroups.author_keys. now exists p.
      * unfold live. now rewrite AuthorGroups.group_views.
Qed.

(** The two sample authors, by total views; a collection whose only
    published post of John has no view yet makes the call fail. *)
Lemma X26_getAuthorStatistics_witness :
  (exists r1 r2,
      AnalyticsService.getAuthorStatistics Sample.Quotient Sample.meanOf
        Sample.unrounded Sample.quotientOf Sample.t0 Sample.posts Sample.users
      = OK [r1; r2]
      /\ AnalyticsService.stat_username _ r1 = "asif"
      /\ AnalyticsService.stat_totalLikes _ r1 = 4%Z
      /\ AnalyticsService.stat_username _ r2 = "john"
      /\ AnalyticsService.stat_totalLikes _ r2 = 10%Z
      /\ NoDup (List.map (AnalyticsService.stat_id _) [r1; r2]))
  /\ AnalyticsService.getAuthorStatistics Sample.Quotient Sample.meanOf
       Sample.unrounded Sample.quotientOf Sample.t0
       [Sample.article 5 2 "Fresh" Store.PUBLISHED (Some Sample.t0) 0 [] [] []]
       Sample.users
     = Err (Thrown "can't $divide by zero").
Proof.
  split.
  - destruct (X26_getAuthorStatistics_rows Sample.Quotient Sample.meanOf
                Sample.unrounded Sample.quotientOf Sample.t0 Sample.posts
                Sample.users) as [Hrows _].
    eexists _, _. split; [vm_compute; reflexivity|].
    split; [reflexivity|]. split; [reflexivity|]. split; [reflexivity|].
    split; [reflexivity|].
    apply (Hrows _ ltac:(vm_compute; reflexivity)).
  - destruct (X26_getAuthorStatistics_rows Sample.Quotient Sample.meanOf
                Sample.unrounded Sample.quotientOf Sample.t0
                [Sample.article 5 2 "Fresh" Store.PUBLISHED (Some Sample.t0) 0
                   [] [] []]
                Sample.users) as [_ Herr].
    destruct (Herr (Thrown "can't $divide by zero")) as [_ Hzero].
    + split; [reflexivity|]. intros a b Hb. unfold Sample.quotientOf.
      destruct (Z.eqb_spec b 0); [contradiction | eauto].
    + apply (Hzero Sample.john
               (Sample.article 5 2 "Fresh" Store.PUBLISHED (Some Sample.t0) 0
                  [] [] []));
        try reflexivity; simpl; auto.
Defined.

Module ActivityFacts.
Import JsString Store BlogService StoreFacts.

Lemma byUpdatedDesc_total a b : byUpdatedDesc a b = true \/ byUpdatedDesc b a = true.
Proof. unfold byUpdatedDesc. rewrite !Z.leb_le. lia. Qed.

Lemma byUpdatedDesc_trans a b c :
  byUpdatedDesc a b = true -> byUpdatedDesc b c = true -> byUpdatedDesc a c = true.
Proof. unfold byUpdatedDesc. rewrite !Z.leb_le. lia. Qed.

Lemma activityRow_In users p r :
  In r (activityRow users p) ->
  exists u, In u users /\ user_id u = author p
            /\ act_id r = post_id p /\ act_title r = title p
            /\ act_status r = status p /\ act_updatedAt r = post_updatedAt p
            /\ act_username r = username u.
Proof.
  unfold activityRow.
  destruct (findById user_id (author p) users) as [u|] eqn:E; [|intros []].
  intros [<-|[]]. apply findById_some in E as [Hu Hid]. exists u. simpl.
  repeat split; auto.
Qed.

Lemma activityRows_length users l :
  List.length (List.flat_map (activityRow users) l) <= List.length l.
Proof.
  induction l as [|p l IH]; [reflexivity|]. simpl. rewrite length_app.
  unfold activityRow at 1. destruct (findById user_id (author p) users); simpl; lia.
Qed.

Lemma activityRows_sorted users l :
  StronglySorted (fun a b => byUpdatedDesc a b = true) l ->
  StronglySorted (fun a b => (act_updatedAt b <= act_updatedAt a)%Z)
    (List.flat_map (activityRow users) l).
Proof.
  induction 1 as [|p l Hs IH Hp]; simpl; [constructor|].
  unfold activityRow at 1.
  destruct (findById user_id (author p) users) as [u|]; [|exact IH].
  simpl. constructor; [exact IH|].
  rewrite Forall_forall in Hp |- *. intros r Hr.
  apply in_flat_map in Hr as (q & Hq & Hr).
  apply activityRow_In in Hr as (_ & _ & _ & _ & _ & _ & -> & _).
  simpl. apply Z.leb_le. exact (Hp q Hq).
Qed.

(** The stages after [$match]. *)
Lemma activity_rows users (m : Post -> bool) posts :
  let rows :=
    List.flat_map (activityRow users)
      (List.firstn 10 (sortBy byUpdatedDesc (List.filter m posts))) in
  List.length rows <= 10
  /\ StronglySorted (fun a b => (act_updatedAt b <= act_updatedAt a)%Z) rows
  /\ forall r, In r rows ->
       exists p u, In p posts /\ m p = true /\ In u users
                   /\ user_id u = author p
                   /\ act_id r = post_id p /\ act_title r = title p
                   /\ act_status r = status p
                   /\ act_updatedAt r = post_updatedAt p
                   /\ act_username r = username u.
Proof.
  intros rows. subst rows. split; [|split].
  - eapply Nat.le_trans; [apply activityRows_length | apply List.firstn_le_length].
  - apply activityRows_sorted.
    apply (sorted_firstn_sorted byUpdatedDesc 10).
    apply sortBy_sorted; [apply byUpdatedDesc_total | apply byUpdatedDesc_trans].
  - intros r Hr. apply in_flat_map in Hr as (p & Hp & Hr).
    apply firstn_In, sortBy_In, filter_In in Hp as [Hp Hm].
    apply activityRow_In in Hr as (u & Hu). exists p, u. tauto.
Qed.

End ActivityFacts.

(** X27. A result of [getRecentActivity] has at most ten rows, by
    descending update time; each row is of a stored post, whatever its
    status, whose author is stored, with that author's username, and
    with an author id given every row is of a post of that author. Without
    an author id, or with the empty one, the call returns a result for
    the posts of all authors. An author id that is not empty and not
    24 characters long makes the call fail before any query. *)
Theorem X27_getRecentActivity_rows :
  forall (posts : list Store.Post) (users : list Store.User)
         (authorId_ : option string),
    (forall rows,
        BlogService.getRecentActivity posts users authorId_ = OK rows ->
        List.length rows <= 10
        /\ StronglySorted
             (fun a b => (BlogService.act_updatedAt b
                          <= BlogService.act_updatedAt a)%Z)
             rows
        /\ forall r, In r rows ->
             exists p u,
               In p posts /\ In u users
               /\ Store.user_id u = Store.author p
               /\ BlogService.act_id r = Store.post_id p
               /\ BlogService.act_title r = Store.title p
               /\ BlogService.act_status r = Store.status p
               /\ BlogService.act_updatedAt r = Store.post_updatedAt p
               /\ BlogService.act_username r = Store.username u
               /\ forall s a, authorId_ = Some s ->
                    Store.castObjectId s = Some a -> Store.author p = a)
    /\ (authorId_ = None \/ authorId_ = Some EmptyString ->
        exists rows,
          BlogService.getRecentActivity posts users authorId_ = OK rows
          /\ (List.length posts <= 10 ->
              forall p u, In p posts ->
                Store.findById Store.user_id (Store.author p) users = Some u ->
                exists r, In r rows /\ BlogService.act_id r = Store.post_id p
                          /\ BlogService.act_username r = Store.username u))
    /\ (forall s, authorId_ = Some s -> s <> EmptyString ->
          String.length s <> 24 ->
          BlogService.getRecentActivity posts users authorId_
          = Err (Thrown "input must be a 24 character hex string, 12 byte Uint8Array, or an integer")).
Proof.
  intros posts users authorId_. split; [|split].
  - intros rows H. unfold BlogService.getRecentActivity in H.
    assert (Hrun : exists m,
               rows = List.flat_map (BlogService.activityRow users)
                        (List.firstn 10
                           (Store.sortBy BlogService.byUpdatedDesc
                              (List.filter m posts)))
               /\ forall p, m p = true ->
                    forall s a, authorId_ = Some s ->
                      Store.castObjectId s = Some a -> Store.author p = a).
    { destruct authorId_ as [s|].
      - destruct (JsString.truthy s) eqn:Et.
        + destruct (Store.castObjectId s) as [a|] eqn:Ec; [|discriminate].
          exists (fun p => N.eqb (Store.author p) a).
          split; [congruence|]. intros p Hp s' a' [= <-] Ha.
          apply N.eqb_eq in Hp. congruence.
        + exists (fun _ => true). split; [congruence|].
          intros p _ s' a' [= <-] Ha. destruct s; discriminate.
      - exists (fun _ => true). split; [congruence|]. intros p _ s a Hs.
        discriminate. }
    destruct Hrun as (m & -> & Hm).
    destruct (ActivityFacts.activity_rows users m posts) as (Hlen & Hsorted & Hin).
    split; [exact Hlen|]. split; [exact Hsorted|].
    intros r Hr. destruct (Hin r Hr) as (p & u & Hp & Hmp & Hu & Hrest).
    exists p, u. split; [exact Hp|]. split; [exact Hu|].
    repeat (split; [tauto|]). now apply Hm.
  - intros Hall.
    assert (Hres : BlogService.getRecentActivity posts users authorId_
                   = OK (List.flat_map (BlogService.activityRow users)
                           (List.firstn 10
                              (Store.sortBy BlogService.byUpdatedDesc
                                 (List.filter (fun _ => true) posts)))))
      by (destruct Hall as [-> | ->]; reflexivity).
    eexists. split; [exact Hres|].
    intros Hlen p u Hp Hu.
    exists (BlogService.mkActivityRow (Store.post_id p) (Store.title p)
              (Store.status p) (Store.post_updatedAt p) (Store.username u)).
    split; [|split; reflexivity].
    apply in_flat_map. exists p. split.
    + rewrite List.firstn_all2.
      * apply StoreFacts.sortBy_In, filter_In. now split.
      * rewrite StoreFacts.sortBy_length.
        eapply Nat.le_trans; [apply List.filter_length_le | exact Hlen].
    + unfold BlogService.activityRow. rewrite Hu. now left.
  - intros s -> Hne Hlen. unfold BlogService.getRecentActivity.
    destruct s as [|c s]; [contradiction|]. cbn [JsString.truthy].
    unfold Store.castObjectId. apply Nat.eqb_neq in Hlen. now rewrite Hlen.
Qed.

(** The recent activity of the first sample author holds the draft. *)
Lemma X27_getRecentActivity_witness :
  (exists r1 r2,
      BlogService.getRecentActivity Sample.posts Sample.users (Some Sample.id1)
      = OK [r1; r2]
      /\ BlogService.act_status r2 = Store.DRAFT
      /\ BlogService.act_username r2 = "asif"
      /\ List.length [r1; r2] <= 10)
  /\ BlogService.getRecentActivity Sample.posts Sample.users (Some "asif")
     = Err (Thrown "input must be a 24 character hex string, 12 byte Uint8Array, or an integer").
Proof.
  destruct (X27_getRecentActivity_rows Sample.posts Sample.users (Some Sample.id1))
    as (Hrows & _ & _).
  destruct (X27_getRecentActivity_rows Sample.posts Sample.users (Some "asif"))
    as (_ & _ & Hbad).
  split.
  - eexists _, _. split; [vm_compute; reflexivity|].
    split; [reflexivity|]. split; [reflexivity|].
    apply (Hrows _ ltac:(vm_compute; reflexivity)).
  - apply (Hbad "asif"); [reflexivity | discriminate | discriminate].
Defined.

Module CommentMoreFacts.
Import JsString Store BlogService StoreFacts.

(** What the validation of an accepted comment says. *)
Lemma commentFailures_none d :
  commentFailures d = [] ->
  isValid (postId d) = true
  /\ trim (content d) <> EmptyString
  /\ String.length (trim (content d)) <= 1000
  /\ forall s, parentCommentId d = Some s -> isValid s = true.
Proof.
  unfold commentFailures. intros H.
  apply List.app_eq_nil in H as [Hp H]. apply List.app_eq_nil in H as [Hc Hparent].
  split; [destruct (isValid (postId d)); [reflexivity | discriminate]|].
  cbv zeta in Hc.
  destruct (trim (content d)) as [|x t] eqn:Et; [discriminate|].
  cbn [truthy negb] in Hc.
  destruct (Nat.ltb 1000 (String.length (String x t))) eqn:El; [discriminate|].
  apply Nat.ltb_ge in El.
  split; [discriminate|]. split; [exact El|].
  intros s Hs. rewrite Hs in Hparent.
  destruct (isValid s); [reflexivity | discriminate].
Qed.

Lemma addComment_accepted now newId all d c all' :
  addComment now newId all d = OK (c, all') ->
  commentFailures d = [] /\ ~ In newId (List.map comment_id all).
Proof.
  unfold addComment.
  destruct (castObjectId (authorId d)) as [a|]; [|discriminate].
  destruct (commentFailures d); [|discriminate].
  destruct (castObjectId (postId d)) as [p|]; [|discriminate].
  destruct (memId newId (List.map comment_id all)) eqn:E; [discriminate|].
  intros _. split; [reflexivity|]. intros H. apply memId_In in H. congruence.
Qed.

Lemma countApproved_snoc all c a :
  countApproved (all ++ [c]) a
  = countApproved all a
    + (if (N.eqb (comment_author c) a && isApproved c)%bool then 1 else 0).
Proof.
  unfold countApproved. rewrite List.filter_app, length_app. simpl.
  now destruct (N.eqb (comment_author c) a && isApproved c)%bool.
Qed.

End CommentMoreFacts.

(** X28. A comment that [addComment] stores has the given content
    trimmed, which is not empty and at most 1000 characters long, the
    post and the parent comment the data name (neither is looked up),
    no likes, and the fresh identifier. An author with at most five
    approved comments has as many after the call as before, whoever
    the call's author is: approval cannot be earned through
    [addComment]. An author id that is not 24 characters long is a
    cast error of the count, before any validation; a blank content or
    a post id that is not 24 characters long is a validation error of
    that path. *)
Theorem X28_addComment_stored_comment :
  forall (now : Store.Date) (newId : Store.ObjectId) (all : list Store.Comment)
         (d : BlogService.CommentData),
    (forall c all',
        BlogService.addComment now newId all d = OK (c, all') ->
        Store.comment_id c = newId
        /\ Store.comment_content c = JsString.trim (BlogService.content d)
        /\ Store.comment_content c <> EmptyString
        /\ String.length (Store.comment_content c) <= 1000
        /\ Store.castObjectId (BlogService.postId d) = Some (Store.comment_post c)
        /\ Store.comment_likes c = 0%Z
        /\ Store.comment_createdAt c = now
        /\ (forall s, BlogService.parentCommentId d = Some s ->
              exists parent, Store.castObjectId s = Some parent
                             /\ Store.parentComment c = Some parent)
        /\ (BlogService.parentCommentId d = None -> Store.parentComment c = None)
        /\ ~ In newId (List.map Store.comment_id all)
        /\ forall a, BlogService.countApproved all a <= 5 ->
             BlogService.countApproved all' a = BlogService.countApproved all a)
    /\ (String.length (BlogService.authorId d) <> 24 ->
        BlogService.addComment now newId all d
        = Err (CastError "author" (BlogService.authorId d)))
    /\ (forall a,
          Store.castObjectId (BlogService.authorId d) = Some a ->
          JsString.trim (BlogService.content d) = EmptyString
          \/ String.length (BlogService.postId d) <> 24 ->
          exists paths,
            BlogService.addComment now newId all d = Err (ValidationError paths)
            /\ (JsString.trim (BlogService.content d) = EmptyString ->
                In "content" paths)
            /\ (String.length (BlogService.postId d) <> 24 -> In "post" paths)).
Proof.
  intros now newId all d. split; [|split].
  - intros c all' H.
    destruct (CommentMoreFacts.addComment_accepted _ _ _ _ _ _ H) as [Hf Hfresh].
    apply CommentMoreFacts.commentFailures_none in Hf as (_ & Hne & Hlen & Hparent).
    apply CommentFacts.addComment_ok in H as (a & p & Ha & Hp & -> & ->).
    cbn [Store.comment_id Store.comment_content Store.comment_post
         Store.comment_likes Store.comment_createdAt Store.parentComment].
    repeat (split; [solve [auto]|]). split; [|split; [|split]].
    + intros s Hs. specialize (Hparent s Hs). unfold Store.isValid in Hparent.
      rewrite Hs. simpl.
      destruct (Store.castObjectId s) as [parent|]; [|discriminate]. now exists parent.
    + now intros ->.
    + exact Hfresh.
    + intros b Hb. rewrite CommentMoreFacts.countApproved_snoc.
      cbn [Store.comment_author Store.isApproved].
      destruct (N.eqb_spec a b) as [->|_]; [|simpl; lia].
      apply Nat.ltb_ge in Hb. rewrite Hb. simpl. lia.
  - intros Hlen. unfold BlogService.addComment, Store.castObjectId.
    apply Nat.eqb_neq in Hlen. now rewrite Hlen.
  - intros a Ha Hbad. unfold BlogService.addComment. rewrite Ha.
    assert (Hpaths :
              (JsString.trim (BlogService.content d) = EmptyString ->
               In "content" (BlogService.commentFailures d))
              /\ (String.length (BlogService.postId d) <> 24 ->
                  In "post" (BlogService.commentFailures d))).
    { unfold BlogService.commentFailures. split.
      - intros ->. apply in_or_app. right. apply in_or_app. left. now left.
      - intros Hlen. apply in_or_app. left.
        unfold Store.isValid, Store.castObjectId.
        apply Nat.eqb_neq in Hlen. rewrite Hlen. now left. }
    destruct (BlogService.commentFailures d) as [|x l] eqn:Ef.
    + exfalso. destruct Hpaths as [H1 H2]. destruct Hbad as [H|H]; [apply (H1 H) | apply (H2 H)].
    + exists (x :: l). split; [reflexivity | exact Hpaths].
Qed.

(** A first comment is stored trimmed and unapproved; an author id
    that is no ObjectId is refused before the blank content is. *)
Lemma X28_addComment_witness :
  (exists c all',
      BlogService.addComment Sample.t0 10%N Sample.comments
        (BlogService.mkCommentData Sample.id1 Sample.id1 "  Thanks! " None)
      = OK (c, all')
      /\ Store.comment_content c = "Thanks!"
      /\ BlogService.countApproved all' 1%N
         = BlogService.countApproved Sample.comments 1%N)
  /\ BlogService.addComment Sample.t0 10%N Sample.comments
       (BlogService.mkCommentData Sample.id1 "asif" "   " None)
     = Err (CastError "author" "asif")
  /\ (exists paths,
        BlogService.addComment Sample.t0 10%N Sample.comments
          (BlogService.mkCommentData "post" Sample.id1 "   " None)
        = Err (ValidationError paths)
        /\ In "content" paths /\ In "post" paths).
Proof.
  split; [|split].
  - destruct (X28_addComment_stored_comment Sample.t0 10%N Sample.comments
                (BlogService.mkCommentData Sample.id1 Sample.id1 "  Thanks! " None))
      as (Hok & _ & _).
    eexists _, _. split; [vm_compute; reflexivity|].
    destruct (Hok _ _ ltac:(vm_compute; reflexivity))
      as (_ & Hcontent & _ & _ & _ & _ & _ & _ & _ & _ & Hcount).
    split; [exact Hcontent|]. apply Hcount. vm_compute. lia.
  - destruct (X28_addComment_stored_comment Sample.t0 10%N Sample.comments
                (BlogService.mkCommentData Sample.id1 "asif" "   " None))
      as (_ & Hbad & _).
    apply Hbad. discriminate.
  - destruct (X28_addComment_stored_comment Sample.t0 10%N Sample.comments
                (BlogService.mkCommentData "post" Sample.id1 "   " None))
      as (_ & _ & Hinvalid).
    destruct (Hinvalid 1%N eq_refl (or_introl eq_refl)) as (paths & Hres & Hc & Hp).
    exists paths. split; [exact Hres|]. split; [now apply Hc | apply Hp; discriminate].
Defined.

Module ConnectionFacts.
Import DatabaseConnection.

Lemma step_balanced s e : Shape.balanced s -> Shape.balanced (step s e).
Proof.
  unfold Shape.balanced. destruct s as [[|] h c], e as [[[]|err]|[[]|err]| |];
    simpl; try lia; destruct h; simpl; lia.
Qed.

Lemma run_balanced events s : Shape.balanced s -> Shape.balanced (run events s).
Proof.
  unfold run. revert s. induction events as [|e events IH]; intros s H; [exact H|].
  simpl. apply IH. now apply step_balanced.
Qed.

Lemma run_handlers events s :
  handlers s <= handlers (run events s)
  /\ handlers (run events s) <= handlers s + Shape.connects events.
Proof.
  unfold run, Shape.connects. revert s.
  induction events as [|e events IH]; intros s; simpl; [lia|].
  destruct (IH (step s e)) as [H1 H2].
  assert (Hs : handlers s <= handlers (step s e)
               /\ handlers (step s e)
                  <= handlers s + (if match e with
                                      | Connect (OK _) => true
                                      | _ => false
                                      end then 1 else 0)).
  { destruct s as [[|] h c], e as [[[]|err]|[[]|err]| |]; simpl; try lia;
      destruct h; simpl; lia. }
  destruct (match e with Connect (OK _) => true | _ => false end);
    simpl List.length; lia.
Qed.

Lemma run_app events more s : run (events ++ more) s = run more (run events s).
Proof. unfold run. apply List.fold_left_app. Qed.

Lemma run_rounds n s :
  isConnected s = false ->
  run (Shape.rounds n) s = mkConnection false (n + handlers s) (closed s).
Proof.
  revert s. induction n as [|n IH]; intros [b h c] Hs; simpl in Hs; subst b.
  - reflexivity.
  - change (run (Shape.rounds (S n)) (mkConnection false h c))
      with (run (Shape.rounds n) (mkConnection false (S h) c)).
    rewrite IH by reflexivity. simpl. f_equal. lia.
Qed.

End ConnectionFacts.

(** X29. After any history of awaited [connect] and [disconnect]
    calls and of connection events on the instance of
    [DatabaseConnection]: the handlers were registered at least once
    for every close and once more if the instance is connected, and at
    most once for every successful [connect]; a positive connection
    status means the field is set and the ready state is 1; a failing
    [connect] changes nothing and raises nothing, [connect] on a
    connected instance and [disconnect] on an unconnected one do
    nothing. The handlers are never removed and an [error] event only
    clears the field: after [n] connections each followed by an
    [error] event the handlers are registered [n] times, and
    [disconnect] closes nothing. *)
Theorem X29_DatabaseConnection_history :
  forall (events : list DatabaseConnection.Event) (n : nat),
    DatabaseConnection.closed
      (DatabaseConnection.run events DatabaseConnection.initial)
    + (if DatabaseConnection.isConnected
            (DatabaseConnection.run events DatabaseConnection.initial)
       then 1 else 0)
    <= DatabaseConnection.handlers
         (DatabaseConnection.run events DatabaseConnection.initial)
    /\ DatabaseConnection.handlers
         (DatabaseConnection.run events DatabaseConnection.initial)
       <= Shape.connects events
    /\ (forall readyState,
          DatabaseConnection.getConnectionStatus
            (DatabaseConnection.run events DatabaseConnection.initial) readyState
          = true ->
          DatabaseConnection.isConnected
            (DatabaseConnection.run events DatabaseConnection.initial) = true
          /\ readyState = 1%Z)
    /\ (forall e s, DatabaseConnection.connect (Err e) s = s)
    /\ (forall outcome s,
          DatabaseConnection.isConnected s = true ->
          DatabaseConnection.connect outcome s = s)
    /\ (forall outcome s,
          DatabaseConnection.isConnected s = false ->
          DatabaseConnection.disconnect outcome s = OK s)
    /\ DatabaseConnection.run
         (Shape.rounds n ++ [DatabaseConnection.Disconnect (OK tt)])
         DatabaseConnection.initial
       = DatabaseConnection.mkConnection false n 0.
Proof.
  intros events n.
  split; [apply (ConnectionFacts.run_balanced events); simpl;
          unfold Shape.balanced; simpl; lia|].
  split; [apply (ConnectionFacts.run_handlers events DatabaseConnection.initial)|].
  split.
  { intros r H. unfold DatabaseConnection.getConnectionStatus in H.
    apply andb_true_iff in H as [H1 H2]. apply Z.eqb_eq in H2. now split. }
  split; [intros e s; unfold DatabaseConnection.connect;
          now destruct (DatabaseConnection.isConnected s)|].
  split; [intros o s Hs; unfold DatabaseConnection.connect; now rewrite Hs|].
  split; [intros o s Hs; unfold DatabaseConnection.disconnect; now rewrite Hs|].
  rewrite ConnectionFacts.run_app, ConnectionFacts.run_rounds by reflexivity.
  simpl. now rewrite Nat.add_0_r.
Qed.

(** After a connection, an [error] event and a second connection the
    handlers are registered twice; two rounds of connection and error
    leave a connection that [disconnect] does not close. *)
Lemma X29_DatabaseConnection_witness :
  DatabaseConnection.run
    [DatabaseConnection.Connect (OK tt); DatabaseConnection.ErrorEvent;
     DatabaseConnection.Connect (Err (Thrown "server selection timed out"));
     DatabaseConnection.Connect (OK tt)]
    DatabaseConnection.initial
  = DatabaseConnection.mkConnection true 2 0
  /\ DatabaseConnection.run
       (Shape.rounds 2 ++ [DatabaseConnection.Disconnect (OK tt)])
       DatabaseConnection.initial
     = DatabaseConnection.mkConnection false 2 0
  /\ DatabaseConnection.handlers
       (DatabaseConnection.run
          [DatabaseConnection.Connect (OK tt); DatabaseConnection.ErrorEvent;
           DatabaseConnection.Connect (Err (Thrown "server selection timed out"));
           DatabaseConnection.Connect (OK tt)]
          DatabaseConnection.initial)
     <= 2.
Proof.
  destruct (X29_DatabaseConnection_history
              [DatabaseConnection.Connect (OK tt); DatabaseConnection.ErrorEvent;
               DatabaseConnection.Connect (Err (Thrown "server selection timed out"));
               DatabaseConnection.Connect (OK tt)] 2)
    as (_ & Hbound & _ & _ & _ & _ & Hrounds).
  split; [reflexivity|]. split; [exact Hrounds | exact Hbound].
Defined.


